(** * FacebookSMM: the polling bot of [facebook.py]

    A shallow embedding of [facebook.py] and the properties of its record
    store, gateway calls, publish handler, console loop and monitoring loop.

    Scope of the model.
    - A Python [str] is a list of Unicode code points.  What a file or
      the workbook does with a surrogate is outside the model.
    - The three data files are [option str]: [None] when the file does not
      exist, otherwise its whole text.  Opening, reading and writing a file
      succeed (no I/O error), and text is written as it is (POSIX line ends).
    - [post_stats.xlsx] is the list of the rows 2 .. [max_row] of the sheet
      [Stats], as [load_workbook] finds them; the workbook exists
      ([init_stats_xlsx] ran).  Writing a cell follows openpyxl: a text is
      cut after 32767 characters and refused when it has a control
      character, an empty text is saved as an empty cell, an integer of
      magnitude 2^53 or more is not read back exactly, and one that no
      floating-point number holds cannot be saved.  A text of
      characters that XML 1.0 keeps is read back as it was written; the
      model does not say what is read back for another text.
    - The network is an oracle: the n-th HTTP exchange of a run either raises
      or answers with a status code, a text and a decoded JSON body.  A body
      is the projection of a JSON object on the fields the program reads; a
      field may be absent, and when present it has the type the Graph API
      documents for it.
    - [time.sleep], the proxy setting and the request timeout are left out.
    - The two threads are not interleaved: every function is run on its own. *)

From Stdlib Require Import List NArith ZArith Bool String Ascii Lia.
From Stdlib Require Import DecimalString.
Import ListNotations.

Set Implicit Arguments.

(* ================================================================== *)
(** ** Python strings *)

Definition char := N.
Definition str := list char.

Definition LF : char := 10%N.
Definition CR : char := 13%N.

Definition str_eqb (a b : str) : bool :=
  if list_eq_dec N.eq_dec a b then true else false.

(** Decoding of a UTF-8 literal into code points (used for the literals of
    the source only). *)
Fixpoint utf8_decode (bs : list N) : str :=
  match bs with
  | [] => []
  | b :: r =>
    if (b <? 128)%N then b :: utf8_decode r
    else if (b <? 224)%N then
      match r with
      | b1 :: r1 => ((b - 192) * 64 + (b1 - 128))%N :: utf8_decode r1
      | _ => []
      end
    else if (b <? 240)%N then
      match r with
      | b1 :: b2 :: r2 =>
        ((b - 224) * 4096 + (b1 - 128) * 64 + (b2 - 128))%N :: utf8_decode r2
      | _ => []
      end
    else
      match r with
      | b1 :: b2 :: b3 :: r3 =>
        ((b - 240) * 262144 + (b1 - 128) * 4096 + (b2 - 128) * 64
         + (b3 - 128))%N :: utf8_decode r3
      | _ => []
      end
  end.

Definition py (s : string) : str :=
  utf8_decode (map N_of_ascii (list_ascii_of_string s)).

(** [str(n)] and [f"{n}"] for an [int]. *)
Definition str_of_int (z : Z) : str :=
  py (NilZero.string_of_int (Z.to_int z)).

(** [c.isspace()], Python 3 (Unicode 14 and later). *)
Definition isspace (c : char) : bool :=
  ((9 <=? c) && (c <=? 13) || (28 <=? c) && (c <=? 32)
   || (c =? 133) || (c =? 160) || (c =? 5760)
   || (8192 <=? c) && (c <=? 8202)
   || (c =? 8232) || (c =? 8233) || (c =? 8239) || (c =? 8287)
   || (c =? 12288))%N.

Fixpoint lstrip (s : str) : str :=
  match s with
  | [] => []
  | c :: r => if isspace c then lstrip r else s
  end.

Definition rstrip (s : str) : str := rev (lstrip (rev s)).

(** [s.strip()] *)
Definition strip (s : str) : str := rstrip (lstrip s).

(** [x in s] for a one-character [x]. *)
Definition contains_char (x : char) (s : str) : bool :=
  existsb (N.eqb x) s.

(** [bool(s)] for a string. *)
Definition truthy (s : str) : bool :=
  match s with [] => false | _ => true end.

(** [bool(v)] for a value that is [None] or a string. *)
Definition truthy_opt (v : option str) : bool :=
  match v with None => false | Some s => truthy s end.

(** [f"{v}"] for a value that is [None] or a string. *)
Definition fmt_opt (v : option str) : str :=
  match v with None => py "None" | Some s => s end.

(** *** Reading a text file line by line

    [open(path, "r")] decodes with universal newlines: the decoder turns
    "\r\n" and a lone "\r" into "\n" ([pending_cr] is the decoder's flag for
    a "\r" just seen); iterating the file then yields the lines, each with
    its final "\n" when it has one. *)
Fixpoint universal_newlines (pending_cr : bool) (s : str) : str :=
  match s with
  | [] => []
  | c :: r =>
    if (c =? CR)%N then LF :: universal_newlines true r
    else if (c =? LF)%N && pending_cr then universal_newlines false r
    else c :: universal_newlines false r
  end.

Fixpoint readlines (s : str) : list str :=
  match s with
  | [] => []
  | c :: r =>
    if (c =? LF)%N then [c] :: readlines r
    else match readlines r with
         | [] => [[c]]
         | l :: ls => (c :: l) :: ls
         end
  end.

(** The lines of a file, [[]] when the file does not exist (the callers
    test [os.path.exists] before they open it). *)
Definition file_lines (f : option str) : list str :=
  match f with
  | None => []
  | Some text => readlines (universal_newlines false text)
  end.

(** [open(path, "a")] followed by [f.write(s)]: creates the file when it
    does not exist. *)
Definition file_append (f : option str) (s : str) : option str :=
  match f with
  | None => Some s
  | Some text => Some (text ++ s)
  end.

(** A Python [set] of strings, as a list without repetition. *)
Definition set_mem (x : str) (s : list str) : bool :=
  existsb (str_eqb x) s.

Definition set_add (x : str) (s : list str) : list str :=
  if set_mem x s then s else s ++ [x].

Arguments py s%_string.

(* ================================================================== *)
(** ** The outside world: spreadsheet, HTTP, program state *)

(** A cell of the sheet [Stats], as [load_workbook] gives it.
    [Rounded z] is the number read back for an integer [z] that was
    written with a magnitude of 2^53 or more: a floating-point number near
    [z]; the model does not say which.  [Altered s] is the text read back
    for a text [s] that was written with a carriage return or with a
    character that XML 1.0 does not have; the model does not say which
    text, and takes no look-up to find it. *)
Inductive cell :=
| Empty
| Text (s : str)
| Number (z : Z)
| Rounded (z : Z)
| Altered (s : str).

(** One row: columns A .. F. *)
Record stats_row := mkRow {
  col_post_id : cell;
  col_content : cell;
  col_likes : cell;
  col_comments : cell;
  col_shares : cell;
  col_last_update : cell
}.

Inductive method := GET | POST.

(** The arguments of a [requests.get] / [requests.post] call.  A [params]
    entry whose value is [None] is one that [requests] leaves out of the
    query string. *)
Record request := mkRequest {
  meth : method;
  url : str;
  params : list (str * option str);
  data : list (str * str)
}.

(** The JSON objects of the Graph API, on the fields the program reads. *)
Record summary_obj := { total_count : option Z }.
Record shares_obj := { count : option Z }.
Record from_obj := { name : option str }.
Record comment_obj := {
  c_id : option str;
  c_message : option str;
  c_from : option from_obj
}.
Record json_obj := {
  j_id : option str;
  j_summary : option summary_obj;
  j_shares : option shares_obj;
  j_data : option (list comment_obj)
}.

(** A response; [json] is [inl msg] when [r.json()] raises with message
    [msg]. *)
Record response := {
  status_code : Z;
  text : str;
  json : str + json_obj
}.

(** What an HTTP call does: raise (transport error, timeout) or answer. *)
Inductive http_result :=
| Failed (msg : str)
| Answered (r : response).

Record State := mkState {
  processed_comments_file : option str;   (* processed_comments.txt *)
  posted_posts_file : option str;         (* posted_posts.txt *)
  stats_sheet : list stats_row;           (* post_stats.xlsx, sheet Stats *)
  log_file : option str;                  (* log_facebook.txt *)
  exchanges : list (request * http_result); (* HTTP calls made so far *)
  stdout : list str;                      (* lines printed *)
  clock_reads : nat                       (* calls of datetime.now() *)
}.

Definition set_processed_comments_file (f : option str) (s : State) :=
  mkState f (posted_posts_file s) (stats_sheet s) (log_file s)
          (exchanges s) (stdout s) (clock_reads s).
Definition set_posted_posts_file (f : option str) (s : State) :=
  mkState (processed_comments_file s) f (stats_sheet s) (log_file s)
          (exchanges s) (stdout s) (clock_reads s).
Definition set_stats_sheet (ws : list stats_row) (s : State) :=
  mkState (processed_comments_file s) (posted_posts_file s) ws (log_file s)
          (exchanges s) (stdout s) (clock_reads s).
Definition set_log_file (f : option str) (s : State) :=
  mkState (processed_comments_file s) (posted_posts_file s) (stats_sheet s) f
          (exchanges s) (stdout s) (clock_reads s).
Definition set_exchanges (x : list (request * http_result)) (s : State) :=
  mkState (processed_comments_file s) (posted_posts_file s) (stats_sheet s)
          (log_file s) x (stdout s) (clock_reads s).
Definition set_stdout (o : list str) (s : State) :=
  mkState (processed_comments_file s) (posted_posts_file s) (stats_sheet s)
          (log_file s) (exchanges s) o (clock_reads s).
Definition set_clock_reads (n : nat) (s : State) :=
  mkState (processed_comments_file s) (posted_posts_file s) (stats_sheet s)
          (log_file s) (exchanges s) (stdout s) n.

(* ================================================================== *)
(** ** State and exception monad *)

Inductive exn :=
| RequestException (msg : str)
| ValueError (msg : str)
| TypeError (msg : str)
| IllegalCharacterError (msg : str)
| OverflowError (msg : str).

(** [str(e)] *)
Definition exn_str (e : exn) : str :=
  match e with
  | RequestException m | ValueError m | TypeError m
  | IllegalCharacterError m | OverflowError m => m
  end.

Inductive outcome (A : Type) :=
| Ret (a : A)
| Raise (e : exn).
Arguments Ret {A} a.
Arguments Raise {A} e.

Definition M (A : Type) := State -> outcome A * State.

Definition ret {A} (a : A) : M A := fun s => (Ret a, s).

Definition raise {A} (e : exn) : M A := fun s => (Raise e, s).

Definition bind {A B} (m : M A) (k : A -> M B) : M B :=
  fun s =>
    match m s with
    | (Ret a, s') => k a s'
    | (Raise e, s') => (Raise e, s')
    end.

(** [try: m  except Exception as e: h e] *)
Definition try_except {A} (m : M A) (h : exn -> M A) : M A :=
  fun s =>
    match m s with
    | (Ret a, s') => (Ret a, s')
    | (Raise e, s') => h e s'
    end.

Definition gets {A} (f : State -> A) : M A := fun s => (Ret (f s), s).

Definition modify (f : State -> State) : M unit := fun s => (Ret tt, f s).

Declare Scope monad_scope.
Delimit Scope monad_scope with monad.
Notation "x <- m ;; k" := (bind m (fun x => k))
  (at level 61, m at next level, right associativity) : monad_scope.
Notation "' p <- m ;; k" := (bind m (fun x => let 'p := x in k))
  (at level 61, p pattern, m at next level, right associativity) : monad_scope.
Notation "m ;; k" := (bind m (fun _ => k))
  (at level 61, right associativity) : monad_scope.
Open Scope monad_scope.

(** [for x in l: body x] *)
Fixpoint for_each {A} (l : list A) (body : A -> M unit) : M unit :=
  match l with
  | [] => ret tt
  | x :: r => body x ;; for_each r body
  end.

(** [print(line)] *)
Definition print (line : str) : M unit :=
  modify (fun s => set_stdout (stdout s ++ [line]) s).

(* ================================================================== *)
(** ** The program *)

Section Bot.

(** Settings read from the environment at start-up; [None] when the
    variable is not set. *)
Variable FACEBOOK_PAGE_ACCESS_TOKEN : option str.
Variable FACEBOOK_PAGE_ID : option str.

(** The network: the answer to the n-th HTTP call of the run. *)
Variable net : nat -> request -> http_result.

(** [datetime.now().strftime("%Y-%m-%d %H:%M:%S")] at its n-th call. *)
Variable clock : nat -> str.

(** The Unicode tables behind [str.isdigit] and [str.lower]. *)
Variable isdigit : char -> bool.
Variable lower : str -> str.

Definition CHECK_INTERVAL : Z := 30.

Definition REPLY_TEMPLATE (author comment : str) : str :=
  py "Привет, " ++ author ++ py "!" ++ [LF]
  ++ py "Спасибо за комментарий, " ++ comment ++ [LF]
  ++ py "Мы ценим вашу активность!" ++ [LF].

Definition now : M str :=
  fun s => (Ret (clock (clock_reads s)), set_clock_reads (S (clock_reads s)) s).

Definition log_action (action info : str) : M unit :=
  now_s <- now ;;
  modify (fun s =>
    set_log_file
      (file_append (log_file s)
         (py "[" ++ now_s ++ py "] " ++ action ++ py ": " ++ info ++ [LF])) s).

(** *** Record store *)

Definition load_processed_comments : M (list str) :=
  gets (fun st =>
    fold_left
      (fun s line =>
         let c_id := strip line in
         if truthy c_id then set_add c_id s else s)
      (file_lines (processed_comments_file st)) []).

(** The file is opened (and so created) before [comment_id + "\n"] is
    evaluated; that sum raises [TypeError] when [comment_id] is [None]. *)
Definition save_processed_comment (comment_id : option str) : M unit :=
  modify (fun s =>
    set_processed_comments_file
      (file_append (processed_comments_file s) []) s) ;;
  match comment_id with
  | None =>
    raise (TypeError
      (py "unsupported operand type(s) for +: 'NoneType' and 'str'"))
  | Some c =>
    modify (fun s =>
      set_processed_comments_file
        (file_append (processed_comments_file s) (c ++ [LF])) s)
  end.

Definition load_posted_posts : M (list str) :=
  gets (fun st =>
    fold_left
      (fun posts line =>
         let p_id := strip line in
         if truthy p_id then posts ++ [p_id] else posts)
      (file_lines (posted_posts_file st)) []).

Definition save_posted_post (post_id : str) : M unit :=
  posts <- load_posted_posts ;;
  if negb (existsb (str_eqb post_id) posts) then
    modify (fun s =>
      set_posted_posts_file
        (file_append (posted_posts_file s) (post_id ++ [LF])) s)
  else ret tt.

(** The first row whose column A equals [post_id] (index in the list of
    rows: row number minus 2). *)
Fixpoint find_row (post_id : str) (ws : list stats_row) : option nat :=
  match ws with
  | [] => None
  | r :: rest =>
    match col_post_id r with
    | Text v =>
      if str_eqb v post_id then Some O
      else option_map S (find_row post_id rest)
    | _ => option_map S (find_row post_id rest)
    end
  end.

Fixpoint update_row (n : nat) (f : stats_row -> stats_row)
         (ws : list stats_row) {struct ws} : list stats_row :=
  match ws, n with
  | [], _ => []
  | r :: rest, O => f r :: rest
  | r :: rest, S n' => r :: update_row n' f rest
  end.

(** openpyxl refuses these characters in the text of a cell: the control
    characters other than tab, line feed and carriage return. *)
Definition illegal_char (c : char) : bool :=
  ((c <=? 8) || (c =? 11) || (c =? 12) || (14 <=? c) && (c <=? 31))%N.

Definition max_cell_length : nat := N.to_nat 32767.

(** openpyxl, [Cell.check_string]: the text is cut after 32767 characters,
    then refused when it has an illegal character. *)
Definition check_string (value : str) : exn + str :=
  let value := firstn max_cell_length value in
  if existsb illegal_char value
  then inl (IllegalCharacterError
              (value ++ py " cannot be used in worksheets."))
  else inr value.

(** A character that a cell gives back as it was written: a character of
    XML 1.0 other than the carriage return, and none that the sheet
    refuses. *)
Definition sheet_char (c : char) : bool :=
  (negb (illegal_char c) && negb (c =? CR)
   && negb ((55296 <=? c) && (c <=? 57343))
   && negb (c =? 65534) && negb (c =? 65535) && (c <=? 1114111))%N.

(** The cell that the next [load_workbook] finds for a string that was
    written: an empty text is saved as an empty cell. *)
Definition text_cell (value : str) : exn + cell :=
  match check_string value with
  | inl e => inl e
  | inr [] => inr Empty
  | inr v => inr (if forallb sheet_char v then Text v else Altered v)
  end.

(** [ws.cell(...).value = value] for a string [value]. *)
Definition set_text (value : str) : M cell :=
  match text_cell value with
  | inl e => raise e
  | inr c => ret c
  end.

(** The cell that the next [load_workbook] finds for an integer: it was
    written as ["%.16g" % value]. *)
Definition saved_number (z : Z) : cell :=
  if (Z.abs z <? 2 ^ 53)%Z then Number z else Rounded z.

(** ["%.16g" % value] raises for an integer that no floating-point number
    holds. *)
Definition storable (z : Z) : bool := (Z.abs z <? 2 ^ 1024 - 2 ^ 970)%Z.

Definition counters_storable (likes comments shares : Z) : bool :=
  storable likes && storable comments && storable shares.

(** [wb.save(STATS_XLSX_FILE)] after the counters of the call were put in
    their cells.  It raises for a counter that cannot be written; it has
    then opened the file, which the model does not show: its rows stay
    those last saved. *)
Definition save_sheet (likes comments shares : Z) (ws : list stats_row)
  : M unit :=
  if counters_storable likes comments shares
  then modify (set_stats_sheet ws)
  else raise (OverflowError (py "int too large to convert to float")).

(** A cell assignment that raises leaves the function before [wb.save]:
    the sheet on disk is as it was.  The time stamp is written as it is,
    it has no character that the sheet refuses. *)
Definition update_post_stats (post_id : str) (likes comments shares : Z)
           (content : option str) : M unit :=
  ws <- gets stats_sheet ;;
  let found_row := find_row post_id ws in
  now_str <- now ;;
  '(found_row, ws) <-
    match found_row with
    | None =>
      a <- set_text post_id ;;
      b <- (if truthy_opt content
            then match content with
                 | Some c => set_text c
                 | None => ret Empty
                 end
            else ret Empty) ;;
      ret (List.length ws, ws ++ [mkRow a b Empty Empty Empty Empty])
    | Some r => ret (r, ws)
    end ;;
  let ws :=
    update_row found_row
      (fun r => mkRow (col_post_id r) (col_content r)
                      (saved_number likes) (saved_number comments)
                      (saved_number shares) (Text now_str)) ws in
  save_sheet likes comments shares ws.

(** *** Remote gateway *)

(** One [requests.get] / [requests.post] call. *)
Definition http (req : request) : M response :=
  fun s =>
    let res := net (List.length (exchanges s)) req in
    let s' := set_exchanges (exchanges s ++ [(req, res)]) s in
    match res with
    | Failed msg => (Raise (RequestException msg), s')
    | Answered r => (Ret r, s')
    end.

(** [r.json()] *)
Definition json_of (r : response) : M json_obj :=
  match json r with
  | inl msg => raise (ValueError msg)
  | inr o => ret o
  end.

Definition graph : str := py "https://graph.facebook.com/".

Definition default {A} (d : A) (v : option A) : A :=
  match v with Some x => x | None => d end.

Definition publish_request (message : str) : request :=
  mkRequest POST (graph ++ fmt_opt FACEBOOK_PAGE_ID ++ py "/feed")
    [(py "access_token", FACEBOOK_PAGE_ACCESS_TOKEN)]
    [(py "message", message); (py "published", py "true")].

Definition post_to_facebook (message : str) : M str :=
  if negb (truthy_opt FACEBOOK_PAGE_ACCESS_TOKEN)
     || negb (truthy_opt FACEBOOK_PAGE_ID) then
    let error_msg := py "Нет токена или ID страницы!" in
    log_action (py "post_to_facebook") error_msg ;;
    ret error_msg
  else
    try_except
      (r <- http (publish_request message) ;;
       if (status_code r =? 200)%Z then
         body <- json_of r ;;
         let new_post_id := default [] (j_id body) in
         let msg := py "Пост опубликован! ID: " ++ new_post_id in
         log_action (py "post_to_facebook") msg ;;
         save_posted_post new_post_id ;;
         update_post_stats new_post_id 0 0 0 (Some message) ;;
         ret new_post_id
       else
         let err := py "Ошибка постинга: " ++ str_of_int (status_code r)
                    ++ py " " ++ text r in
         log_action (py "post_to_facebook") err ;;
         ret err)
      (fun e =>
         let err := py "Исключение: " ++ exn_str e in
         log_action (py "post_to_facebook") err ;;
         ret err).

(** A sub-query of [get_post_insights]: [kind] is the word used in its log
    lines, [read] the path to the counter in the decoded body, [current]
    the value the counter has before the [try]. *)
Definition insight_query (kind post_id : str) (req : request)
           (read : json_obj -> Z) (current : Z) : M Z :=
  try_except
    (r <- http req ;;
     if (status_code r =? 200)%Z then
       body <- json_of r ;;
       ret (read body)
     else
       log_action (py "get_post_insights")
         (py "Ошибка " ++ kind ++ py " " ++ post_id ++ py ": "
          ++ str_of_int (status_code r) ++ py " " ++ text r) ;;
       ret current)
    (fun e =>
       log_action (py "get_post_insights")
         (py "Исключение " ++ kind ++ py " " ++ post_id ++ py ": "
          ++ exn_str e) ;;
       ret current).

Definition likes_request (post_id : str) : request :=
  mkRequest GET (graph ++ post_id ++ py "/likes")
    [(py "summary", Some (py "true"));
     (py "access_token", FACEBOOK_PAGE_ACCESS_TOKEN)] [].

Definition comments_summary_request (post_id : str) : request :=
  mkRequest GET (graph ++ post_id ++ py "/comments")
    [(py "summary", Some (py "true"));
     (py "access_token", FACEBOOK_PAGE_ACCESS_TOKEN)] [].

Definition shares_request (post_id : str) : request :=
  mkRequest GET (graph ++ post_id)
    [(py "fields", Some (py "shares"));
     (py "access_token", FACEBOOK_PAGE_ACCESS_TOKEN)] [].

(** [data.get("summary", {}).get("total_count", 0)] *)
Definition read_total_count (body : json_obj) : Z :=
  default 0%Z (total_count (default {| total_count := None |} (j_summary body))).

(** [data.get("shares", {}).get("count", 0)] *)
Definition read_shares_count (body : json_obj) : Z :=
  default 0%Z (count (default {| count := None |} (j_shares body))).

Definition get_post_insights (post_id : str) : M (Z * Z * Z) :=
  let likes_count := 0%Z in
  let comments_count := 0%Z in
  let shares_count := 0%Z in
  if negb (truthy_opt FACEBOOK_PAGE_ACCESS_TOKEN) then ret (0, 0, 0)%Z
  else
    likes_count <-
      insight_query (py "likes") post_id (likes_request post_id)
        read_total_count likes_count ;;
    comments_count <-
      insight_query (py "comments") post_id (comments_summary_request post_id)
        read_total_count comments_count ;;
    shares_count <-
      insight_query (py "shares") post_id (shares_request post_id)
        read_shares_count shares_count ;;
    ret (likes_count, comments_count, shares_count).

(** A fetched comment: [(id, message, from_name)]; the id is [None] when
    the comment object has no "id". *)
Definition comment := (option str * str * str)%type.

(** The integer [limit] is kept as the text [requests] puts in the query
    string. *)
Definition comments_request (post_id : str) (limit : Z) : request :=
  mkRequest GET (graph ++ post_id ++ py "/comments")
    [(py "access_token", FACEBOOK_PAGE_ACCESS_TOKEN);
     (py "fields", Some (py "id,message,from"));
     (py "limit", Some (str_of_int limit))] [].

Definition comment_tuple (c : comment_obj) : comment :=
  let cid := c_id c in
  let msg := default [] (c_message c) in
  let author_name :=
    default (py "NoName") (name (default {| name := None |} (c_from c))) in
  (cid, msg, author_name).

Definition get_post_comments (post_id : str) (limit : Z) : M (list comment) :=
  try_except
    (r <- http (comments_request post_id limit) ;;
     if (status_code r =? 200)%Z then
       body <- json_of r ;;
       let comments := default [] (j_data body) in
       ret (map comment_tuple comments)
     else
       log_action (py "get_post_comments")
         (py "Ошибка " ++ str_of_int (status_code r) ++ py " " ++ text r) ;;
       ret [])
    (fun e =>
       log_action (py "get_post_comments") (py "Исключение: " ++ exn_str e) ;;
       ret []).

Definition like_request (comment_id : option str) : request :=
  mkRequest POST (graph ++ fmt_opt comment_id ++ py "/likes")
    [(py "access_token", FACEBOOK_PAGE_ACCESS_TOKEN)] [].

Definition like_comment (comment_id : option str) : M unit :=
  try_except
    (r <- http (like_request comment_id) ;;
     if (status_code r =? 200)%Z then
       log_action (py "like_comment")
         (py "Лайк на комментарий " ++ fmt_opt comment_id)
     else
       log_action (py "like_comment")
         (py "Ошибка " ++ fmt_opt comment_id ++ py ": "
          ++ str_of_int (status_code r) ++ py " " ++ text r))
    (fun e =>
       log_action (py "like_comment")
         (py "Исключение " ++ fmt_opt comment_id ++ py ": " ++ exn_str e)).

Definition reply_request (comment_id : option str) (reply : str) : request :=
  mkRequest POST (graph ++ fmt_opt comment_id ++ py "/comments")
    [(py "access_token", FACEBOOK_PAGE_ACCESS_TOKEN)]
    [(py "message", reply)].

Definition reply_to_comment (comment_id : option str) (reply : str) : M unit :=
  try_except
    (r <- http (reply_request comment_id reply) ;;
     if (status_code r =? 200)%Z then
       log_action (py "reply_to_comment")
         (py "Ответ на комментарий " ++ fmt_opt comment_id)
     else
       log_action (py "reply_to_comment")
         (py "Ошибка " ++ fmt_opt comment_id ++ py ": "
          ++ str_of_int (status_code r) ++ py " " ++ text r))
    (fun e =>
       log_action (py "reply_to_comment")
         (py "Исключение " ++ fmt_opt comment_id ++ py ": " ++ exn_str e)).

(** *** Monitoring loop *)

(** [cid not in processed_ids] *)
Definition not_in (cid : option str) (processed_ids : list str) : bool :=
  match cid with
  | None => true
  | Some c => negb (set_mem c processed_ids)
  end.

(** Body of the inner [for] of [monitor_posts_loop]. *)
Definition monitor_comment (processed_ids : list str) (c : comment) : M unit :=
  let '(cid, ctext, cauthor) := c in
  if not_in cid processed_ids then
    like_comment cid ;;
    let reply_text := REPLY_TEMPLATE cauthor ctext in
    reply_to_comment cid reply_text ;;
    save_processed_comment cid
  else ret tt.

(** Body of the outer [for] of [monitor_posts_loop]. *)
Definition monitor_post (processed_ids : list str) (post_id : str) : M unit :=
  '(likes_count, comments_count, shares_count) <- get_post_insights post_id ;;
  update_post_stats post_id likes_count comments_count shares_count None ;;
  comment_list <- get_post_comments post_id 50 ;;
  for_each comment_list (monitor_comment processed_ids).

(** Body of the [while True] of [monitor_posts_loop] (without the sleep). *)
Definition monitor_cycle : M unit :=
  post_ids <- load_posted_posts ;;
  processed_ids <- load_processed_comments ;;
  for_each post_ids (monitor_post processed_ids).

(** [monitor_posts_loop], cut after [cycles] turns of the [while True]. *)
Fixpoint monitor_posts_loop (cycles : nat) : M unit :=
  match cycles with
  | O => ret tt
  | S n => monitor_cycle ;; monitor_posts_loop n
  end.

(** *** Console *)

(** [s.startswith(p)] *)
Fixpoint startswith (p s : str) : bool :=
  match p, s with
  | [], _ => true
  | _ :: _, [] => false
  | a :: p', b :: s' => (a =? b)%N && startswith p' s'
  end.

(** [s.isdigit()] *)
Definition str_isdigit (s : str) : bool :=
  truthy s && forallb isdigit s.

Definition underscore : char := 95%N.

(** The test of [console_loop] on the value of [post_to_facebook]. *)
Definition looks_published (result : str) : bool :=
  contains_char underscore result || str_isdigit result.

(** The branch [if post_text:] of [console_loop]. *)
Definition console_publish (post_text : str) : M unit :=
  result <- post_to_facebook post_text ;;
  if looks_published result then
    print (py "Новый пост опубликован: " ++ result)
  else
    print (py "Ошибка публикации: " ++ result).

(** One turn of the [while True] of [console_loop]; [line] is what
    [sys.stdin.readline()] gave. *)
Definition console_turn (line : str) : M unit :=
  if negb (truthy line) then ret tt
  else
    let line := strip line in
    if startswith (py "/post ") (lower line) then
      let post_text := strip (skipn 6 line) in
      if truthy post_text then console_publish post_text
      else
        print (py "Не указан текст поста. Формат: /post Текст_поста")
    else ret tt.

End Bot.

(* ================================================================== *)
(** ** Observations on states and runs *)

Definition str_eq_dec : forall a b : str, {a = b} + {a <> b} :=
  list_eq_dec N.eq_dec.

(** The value of a run that returned, [d] for one that raised. *)
Definition value {A} (d : A) (r : outcome A * State) : A :=
  match fst r with
  | Ret a => a
  | Raise _ => d
  end.

(** The set [load_processed_comments()] returns in state [st]. *)
Definition processed_set (st : State) : list str :=
  value [] (load_processed_comments st).

(** [id in load_processed_comments()] *)
Definition isCommentProcessed (id : str) (st : State) : bool :=
  set_mem id (processed_set st).

(** The list [load_posted_posts()] returns in state [st]. *)
Definition posted_posts (st : State) : list str :=
  value [] (load_posted_posts st).

(** An identifier that a line of a data file gives back: not empty, no
    white space at either end, no line break inside. *)
Definition plain_char (c : char) : bool :=
  negb (c =? LF)%N && negb (c =? CR)%N.

Definition line_id (id : str) : bool :=
  truthy id && str_eqb (strip id) id && forallb plain_char id.

(** A data file that is absent, empty, or ends with "\n" (every write of
    the program ends with "\n"). *)
Definition newline_terminated (f : option str) : bool :=
  match f with
  | None => true
  | Some t =>
    match rev t with
    | [] => true
    | c :: _ => (c =? LF)%N
    end
  end.

(** The HTTP calls made between two states of one run. *)
Definition new_exchanges (before after : State) : list (request * http_result) :=
  skipn (List.length (exchanges before)) (exchanges after).

(** The request is the one [like_comment(id)] sends. *)
Definition is_like_of (id : str) (r : request) : bool :=
  match meth r with
  | POST => str_eqb (url r) (graph ++ id ++ py "/likes")
  | GET => false
  end.

(** The request is one [reply_to_comment(id, _)] sends. *)
Definition is_reply_to (id : str) (r : request) : bool :=
  match meth r with
  | POST => str_eqb (url r) (graph ++ id ++ py "/comments")
  | GET => false
  end.

Definition like_calls (id : str) (tr : list (request * http_result)) : nat :=
  List.length (filter (fun x => is_like_of id (fst x)) tr).

Definition reply_calls (id : str) (tr : list (request * http_result)) : nat :=
  List.length (filter (fun x => is_reply_to id (fst x)) tr).

(** The request is one [get_post_comments] sends. *)
Definition is_comments_fetch (r : request) : bool :=
  match meth r with
  | GET =>
    existsb (fun kv =>
               str_eqb (fst kv) (py "fields")
               && match snd kv with
                  | Some v => str_eqb v (py "id,message,from")
                  | None => false
                  end) (params r)
  | POST => false
  end.

(** The comment list [get_post_comments] makes of an HTTP result. *)
Definition comments_of (res : http_result) : list comment :=
  match res with
  | Failed _ => []
  | Answered r =>
    if (status_code r =? 200)%Z then
      match json r with
      | inr body => map comment_tuple (default [] (j_data body))
      | inl _ => []
      end
    else []
  end.

(** All comments fetched in a stretch of HTTP calls, in order. *)
Definition fetched_comments (tr : list (request * http_result)) : list comment :=
  flat_map (fun x => if is_comments_fetch (fst x) then comments_of (snd x) else [])
           tr.

Definition has_id (id : str) (c : comment) : bool :=
  match fst (fst c) with
  | Some i => str_eqb i id
  | None => false
  end.

(** How many of the comments carry the id [id]. *)
Definition occurrences (id : str) (cs : list comment) : nat :=
  List.length (filter (has_id id) cs).

(** A sub-query of [get_post_insights] failed: the call raised, the status
    is not 200, or the body could not be decoded. *)
Definition query_failed (res : http_result) : bool :=
  match res with
  | Failed _ => true
  | Answered r =>
    negb (status_code r =? 200)%Z
    || match json r with inl _ => true | inr _ => false end
  end.

(** The gateway rejected [publish]: transport error or status other than
    200. *)
Definition publish_rejected (res : http_result) : bool :=
  match res with
  | Failed _ => true
  | Answered r => negb (status_code r =? 200)%Z
  end.

(** A line was added to the action log between the two states. *)
Definition logged (before after : State) : Prop :=
  exists line, line <> [] /\
    log_file after = file_append (log_file before) line.

(** The loop bodies of [load_processed_comments] and [load_posted_posts]. *)
Definition add_comment_line (s : list str) (line : str) : list str :=
  let c_id := strip line in if truthy c_id then set_add c_id s else s.

Definition add_post_line (posts : list str) (line : str) : list str :=
  let p_id := strip line in if truthy p_id then posts ++ [p_id] else posts.

(** *** The record-store claims, as they are stated *)

(** Marking twice: both calls return, the id is in the processed set after
    either call, and the set holds it once. *)
Definition marks_idempotently (st : State) (id : str) : Prop :=
  exists st1 st2,
    save_processed_comment (Some id) st = (Ret tt, st1) /\
    save_processed_comment (Some id) st1 = (Ret tt, st2) /\
    isCommentProcessed id st1 = true /\
    isCommentProcessed id st2 = true /\
    count_occ str_eq_dec (processed_set st2) id = 1.

(** Adding a post twice: both calls return, the list holds the id once
    after either call, and a call that finds the id changes nothing. *)
Definition adds_idempotently (st : State) (id : str) : Prop :=
  exists st1 st2,
    save_posted_post id st = (Ret tt, st1) /\
    save_posted_post id st1 = (Ret tt, st2) /\
    count_occ str_eq_dec (posted_posts st1) id = 1 /\
    count_occ str_eq_dec (posted_posts st2) id = 1 /\
    (In id (posted_posts st) -> st1 = st) /\
    st2 = st1.

(** The metrics record of a post: the first row whose column A is the
    post id. *)
Definition stats_record (post_id : str) (ws : list stats_row) : option stats_row :=
  match find_row post_id ws with
  | Some n => nth_error ws n
  | None => None
  end.

(** Column B of a record created with [content]: the text when it is given
    and not empty, an empty cell otherwise. *)
Definition content_cell (content : option str) : cell :=
  match content with
  | Some (c :: r) => Text (c :: r)
  | _ => Empty
  end.

(** A record with the counters and the time stamp overwritten. *)
Definition refreshed (r : stats_row) (likes comments shares : Z) (t : str) :=
  mkRow (col_post_id r) (col_content r)
        (saved_number likes) (saved_number comments) (saved_number shares)
        (Text t).

(** A text that a cell holds in full and gives back as it was written. *)
Definition sheet_text (s : str) : bool :=
  (List.length s <=? max_cell_length)%nat && forallb sheet_char s.

(** A post id under which a record can be created and found again. *)
Definition sheet_id (post_id : str) : bool :=
  truthy post_id && sheet_text post_id.

(** A content that can be written: none, or a text for a cell. *)
Definition sheet_content (content : option str) : bool :=
  match content with
  | None => true
  | Some c => sheet_text c
  end.

(** An integer that the sheet gives back exactly. *)
Definition exact_number (z : Z) : bool := (Z.abs z <? 2 ^ 53)%Z.

(** Every counter in the answer is an integer that can be saved. *)
Definition storable_counts (res : http_result) : bool :=
  match res with
  | Failed _ => true
  | Answered r =>
    match json r with
    | inl _ => true
    | inr body =>
      storable (read_total_count body) && storable (read_shares_count body)
    end
  end.

(** A text that [Cell.check_string] does not refuse. *)
Definition accepted_text (s : str) : bool :=
  negb (existsb illegal_char (firstn max_cell_length s)).

(** The row that [update_post_stats] makes for a post without a record,
    before the counters are written, or the exception of the cell that
    refuses its text. *)
Definition created_row (post_id : str) (content : option str)
  : exn + stats_row :=
  match text_cell post_id with
  | inl e => inl e
  | inr a =>
    match content with
    | Some (c :: r) =>
      match text_cell (c :: r) with
      | inl e => inl e
      | inr b => inr (mkRow a b Empty Empty Empty Empty)
      end
    | _ => inr (mkRow a Empty Empty Empty Empty Empty)
    end
  end.

(** The merge of [update_post_stats], as it is claimed: the call returns;
    a post without a record gets one with the given content when that is
    given and not empty, and an empty content otherwise; a post with a
    record keeps its content and gets the new counters and time stamp;
    the records of the other posts stay as they are. *)
Definition upsert_merges (clock : nat -> str) (st : State)
           (post_id : str) (likes comments shares : Z)
           (content : option str) : Prop :=
  let run := update_post_stats clock post_id likes comments shares content st in
  let ws := stats_sheet st in
  let ws' := stats_sheet (snd run) in
  let t := clock (clock_reads st) in
  fst run = Ret tt /\
  match stats_record post_id ws with
  | None =>
    let created := mkRow (Text post_id) (content_cell content)
                         (Number likes) (Number comments) (Number shares)
                         (Text t) in
    ws' = ws ++ [created] /\ stats_record post_id ws' = Some created
  | Some r =>
    stats_record post_id ws'
    = Some (mkRow (col_post_id r) (col_content r)
                  (Number likes) (Number comments) (Number shares) (Text t))
    /\ List.length ws' = List.length ws
  end /\
  (forall q, q <> post_id -> stats_record q ws' = stats_record q ws).

(** *** The gateway and loop claims, as they are stated *)

(** An error was reported to the log or to the operator. *)
Definition reports_error (before after : State) : Prop :=
  logged before after \/ stdout after <> stdout before.

(** A gateway call that fails fast with an error: it returns, sends no
    request and reports an error. *)
Definition fails_fast_with_error {A} (m : M A) (st : State) : Prop :=
  exists a st', m st = (Ret a, st') /\
    exchanges st' = exchanges st /\ reports_error st st'.

(** A call that only talks to the gateway: one request with its result is
    added to the exchanges, the data files, the sheet and the console are
    left alone. *)
Definition gateway_step (req : request) (res : http_result)
           (st st' : State) : Prop :=
  exchanges st' = exchanges st ++ [(req, res)] /\
  processed_comments_file st' = processed_comments_file st /\
  posted_posts_file st' = posted_posts_file st /\
  stats_sheet st' = stats_sheet st /\
  stdout st' = stdout st.

(** Every run of one or more cycles from [st] that returns has sent
    exactly one like and one reply for the comment [id]. *)
Definition engages_once (token : option str)
           (net : nat -> request -> http_result) (clock : nat -> str)
           (st : State) (id : str) : Prop :=
  forall n st',
    monitor_posts_loop token net clock (S n) st = (Ret tt, st') ->
    like_calls id (new_exchanges st st') = 1
    /\ reply_calls id (new_exchanges st st') = 1.

(** The character is in the string. *)
Definition has_char (c : char) (s : str) : Prop := In c s.

(** The string is not empty and all its characters are digits. *)
Definition all_digits (isdigit : char -> bool) (s : str) : Prop :=
  s <> [] /\ forall c, In c s -> isdigit c = true.

(** [v] is the counter a sub-query of [get_post_insights] yields from the
    result [res]: 0 when the sub-query failed, what [read] finds in the body
    when it succeeded. *)
Definition counts (read : json_obj -> Z) (res : http_result) (v : Z) : Prop :=
  (query_failed res = true -> v = 0%Z) /\
  (forall r body,
      res = Answered r -> status_code r = 200%Z -> json r = inr body ->
      v = read body).

(** The error text [post_to_facebook] returns for a rejected publish. *)
Definition publish_error (res : http_result) : str :=
  match res with
  | Failed msg => py "Исключение: " ++ msg
  | Answered r =>
    py "Ошибка постинга: " ++ str_of_int (status_code r) ++ py " " ++ text r
  end.

(** The two lines [console_loop] prints after a publish. *)
Definition success_line (result : str) : str :=
  py "Новый пост опубликован: " ++ result.

Definition failure_line (result : str) : str :=
  py "Ошибка публикации: " ++ result.

(** The data files and the sheet are the same in both states. *)
Definition same_store (st st' : State) : Prop :=
  processed_comments_file st' = processed_comments_file st /\
  posted_posts_file st' = posted_posts_file st /\
  stats_sheet st' = stats_sheet st.

(** *** Stretches of the monitoring loop *)

(** The processed-comment file was only appended to, by whole lines: from
    a well-ended file one gets a well-ended file whose set has kept its
    members. *)
Definition processed_grows (st st' : State) : Prop :=
  newline_terminated (processed_comments_file st) = true ->
  newline_terminated (processed_comments_file st') = true
  /\ forall x, In x (processed_set st) -> In x (processed_set st').

(** How often the comment [x] is engaged when it is met [n] times by a
    loop that tests membership in the snapshot [snapshot]. *)
Definition engaged (snapshot : list str) (x : str) (n : nat) : nat :=
  if set_mem x snapshot then 0 else n.

(** A stretch of a cycle that works with the snapshot [snapshot]: every
    comment id is liked and replied to as often as it was fetched in the
    stretch unless the snapshot has it, and an id that a line gives back
    is in the processed set afterwards. *)
Definition engaged_as_fetched (snapshot : list str) (st st' : State) : Prop :=
  posted_posts_file st' = posted_posts_file st
  /\ processed_grows st st'
  /\ exists tr,
      exchanges st' = exchanges st ++ tr
      /\ forall x,
          like_calls x tr = engaged snapshot x (occurrences x (fetched_comments tr))
          /\ reply_calls x tr
             = engaged snapshot x (occurrences x (fetched_comments tr))
          /\ (line_id x = true ->
              newline_terminated (processed_comments_file st) = true ->
              set_mem x snapshot = false ->
              1 <= occurrences x (fetched_comments tr) ->
              In x (processed_set st')).

(** The same for the inner loop over one fetched list [cl], which sends
    no fetch of its own. *)
Definition engaged_from_list (snapshot : list str) (cl : list comment)
           (st st' : State) : Prop :=
  posted_posts_file st' = posted_posts_file st
  /\ processed_grows st st'
  /\ exists tr,
      exchanges st' = exchanges st ++ tr
      /\ fetched_comments tr = []
      /\ forall x,
          like_calls x tr = engaged snapshot x (occurrences x cl)
          /\ reply_calls x tr = engaged snapshot x (occurrences x cl)
          /\ (line_id x = true ->
              newline_terminated (processed_comments_file st) = true ->
              set_mem x snapshot = false ->
              1 <= occurrences x cl ->
              In x (processed_set st')).

(** *** Sample data *)

Module Sample.

Definition empty_state : State := mkState None None [] None [] [] 0.

Definition token : option str := Some (py "EAAB").
Definition page : option str := Some (py "1001").
Definition clock (n : nat) : str := py "2024-05-01 12:00:00".

Definition answer (status : Z) (body_text : str) (body : json_obj) : http_result :=
  Answered {| status_code := status; text := body_text; json := inr body |}.

Definition no_fields : json_obj :=
  {| j_id := None; j_summary := None; j_shares := None; j_data := None |}.

Definition with_total (n : Z) : json_obj :=
  {| j_id := None; j_summary := Some {| total_count := Some n |};
     j_shares := None; j_data := None |}.

Definition ann (id : str) : comment_obj :=
  {| c_id := Some id; c_message := Some (py "Nice!");
     c_from := Some {| name := Some (py "Ann") |} |}.

Definition with_comments (cs : list comment_obj) : json_obj :=
  {| j_id := None; j_summary := None; j_shares := None; j_data := Some cs |}.

(** A network that is down. *)
Definition net_down (n : nat) (r : request) : http_result :=
  Failed (py "connection refused").

(** A gateway that rejects every call with status 400. *)
Definition net_rejecting (n : nat) (r : request) : http_result :=
  answer 400 (py "invalid_token") no_fields.

(** Likes and comments are counted (7 each), the shares query fails. *)
Definition net_shares_down (n : nat) (r : request) : http_result :=
  match n with
  | 2%nat => Failed (py "timed out")
  | _ => answer 200 [] (with_total 7)
  end.

(** Every comment fetch returns comment "c1" [k] times; everything else
    succeeds with empty bodies. *)
Definition net_c1 (k : nat) (n : nat) (r : request) : http_result :=
  if is_comments_fetch r
  then answer 200 [] (with_comments (repeat (ann (py "c1")) k))
  else answer 200 [] no_fields.

(** Every comment fetch returns one comment whose id has a leading
    blank. *)
Definition net_padded_id (n : nat) (r : request) : http_result :=
  if is_comments_fetch r
  then answer 200 [] (with_comments [ann (py " c1")])
  else answer 200 [] no_fields.

(** Every comment fetch returns one comment object without an "id". *)
Definition net_no_id (n : nat) (r : request) : http_result :=
  if is_comments_fetch r
  then answer 200 []
         (with_comments [{| c_id := None; c_message := Some (py "Nice!");
                            c_from := None |}])
  else answer 200 [] no_fields.

(** A state whose processed-comment file was edited by hand and does not
    end with a line break. *)
Definition unterminated : State :=
  mkState (Some (py "c0")) None [] None [] [] 0.

(** A state whose posted-post file lists a post twice. *)
Definition listed_twice : State :=
  mkState None (Some (py "1001_1" ++ [LF] ++ py "1001_1" ++ [LF]))
          [] None [] [] 0.

(** A state with one posted post and nothing processed. *)
Definition one_post : State :=
  mkState None (Some (py "1001_1" ++ [LF])) [] None [] [] 0.

(** A state with two posted posts and nothing processed. *)
Definition two_posts : State :=
  mkState None (Some (py "1001_1" ++ [LF] ++ py "1001_2" ++ [LF]))
          [] None [] [] 0.

End Sample.

(** ** Further observations *)

(** Running [m] from any state leaves a state related to it by [R],
    whether [m] returns or raises. *)
Definition keeps (R : State -> State -> Prop) {A} (m : M A) : Prop :=
  forall st, R st (snd (m st)).

(** The part [p] of the state is the same in both states. *)
Definition unchanged {X} (p : State -> X) (st st' : State) : Prop :=
  p st' = p st.

(** The comment fetches among the requests of a stretch of HTTP calls. *)
Definition comment_fetches (tr : list (request * http_result)) : list request :=
  filter is_comments_fetch (map fst tr).

(** Between the two states HTTP calls were made, none of them a comment
    fetch. *)
Definition sends_no_fetch (st st' : State) : Prop :=
  exists tr, exchanges st' = exchanges st ++ tr /\ comment_fetches tr = [].

(** Every request may be sent. *)
Definition any_request (r : request) : bool := true.

(** Every request but a comment fetch may be sent. *)
Definition no_fetch (r : request) : bool := negb (is_comments_fetch r).

(** A state with one posted post and one processed comment. *)
Definition one_post_one_comment : State :=
  mkState (Some (py "c0" ++ [LF])) (Some (py "1001_1" ++ [LF]))
          [] None [] [] 0.

(** A state with one posted post whose metrics were recorded. *)
Definition polled_post : State :=
  mkState None (Some (py "1001_1" ++ [LF]))
          [mkRow (Text (py "1001_1")) (Text (py "hello"))
                 (Number 5) (Number 2) (Number 1)
                 (Text (py "2024-05-01 11:59:30"))]
          None [] [] 0.

(** The gateway accepts every publish and names the new post "1001_9". *)
Definition net_accepting (n : nat) (r : request) : http_result :=
  Sample.answer 200 []
    {| j_id := Some (py "1001_9"); j_summary := None; j_shares := None;
       j_data := None |}.

(** The record [update_post_stats] leaves for a post: a new one when
    [old] is [None], the old one refreshed otherwise. *)
Definition upserted (old : option stats_row) (post_id : str)
           (content : option str) (likes comments shares : Z) (t : str)
  : stats_row :=
  match old with
  | Some r => refreshed r likes comments shares t
  | None =>
    mkRow (Text post_id) (content_cell content)
          (saved_number likes) (saved_number comments) (saved_number shares)
          (Text t)
  end.

(** A stretch of the loop in which nothing was engaged: the two id files
    are as they were and no like and no reply was sent. *)
Definition idle_stretch (st st' : State) : Prop :=
  processed_comments_file st' = processed_comments_file st
  /\ posted_posts_file st' = posted_posts_file st
  /\ exists tr,
      exchanges st' = exchanges st ++ tr
      /\ forall x, like_calls x tr = 0 /\ reply_calls x tr = 0.

(** Every comment fetch returns the processed comment "c0"; everything
    else succeeds with empty bodies. *)
Definition net_c0 (n : nat) (r : request) : http_result :=
  if is_comments_fetch r
  then Sample.answer 200 [] (Sample.with_comments [Sample.ann (py "c0")])
  else Sample.answer 200 [] Sample.no_fields.

(** The end of an accepted publish, from the run of [update_post_stats]
    that seeds the metrics: the post id when the record was written; the
    text of the exception, which is logged, when the sheet refused it. *)
Definition publish_end (clock : nat -> str) (id : str)
           (seed : outcome unit * State) : outcome str * State :=
  match fst seed with
  | Ret _ => (Ret id, snd seed)
  | Raise e =>
    let err := py "Исключение: " ++ exn_str e in
    (Ret err, snd (log_action clock (py "post_to_facebook") err (snd seed)))
  end.

(* ================================================================== *)
(** ** Properties *)

Unset Implicit Arguments.

(** *** Strings and lines *)

Lemma str_eqb_eq (a b : str) : str_eqb a b = true <-> a = b.
Proof.
  unfold str_eqb. destruct (list_eq_dec N.eq_dec a b); split; congruence.
Qed.

Lemma str_eqb_refl (a : str) : str_eqb a a = true.
Proof. now apply str_eqb_eq. Qed.

Lemma str_eqb_neq (a b : str) : str_eqb a b = false <-> a <> b.
Proof.
  unfold str_eqb. destruct (list_eq_dec N.eq_dec a b); split; congruence.
Qed.

Lemma set_mem_In (x : str) (s : list str) : set_mem x s = true <-> In x s.
Proof.
  unfold set_mem. rewrite existsb_exists. split.
  - intros [y [Hy E]]. apply str_eqb_eq in E. now subst.
  - intros H. exists x. split; [assumption | apply str_eqb_refl].
Qed.

Lemma line_id_inv (id : str) :
  line_id id = true ->
  id <> [] /\ strip id = id /\ forallb plain_char id = true.
Proof.
  unfold line_id. intros H.
  apply andb_prop in H as [H H3]. apply andb_prop in H as [H1 H2].
  apply str_eqb_eq in H2. repeat split; try assumption.
  intros ->. discriminate.
Qed.

(** The newline decoder leaves a line of plain characters as it is. *)
Lemma universal_newlines_plain (s : str) (rest : str) :
  forallb plain_char s = true ->
  universal_newlines false (s ++ LF :: rest)
  = s ++ LF :: universal_newlines false rest.
Proof.
  induction s as [|c s IH]; intros H; simpl.
  - reflexivity.
  - simpl in H. apply andb_prop in H as [Hc Hs].
    unfold plain_char in Hc. apply andb_prop in Hc as [Hlf Hcr].
    apply negb_true_iff in Hlf, Hcr. rewrite Hcr, Hlf. simpl.
    now rewrite IH.
Qed.

Lemma universal_newlines_line (b : bool) (id : str) :
  id <> [] -> forallb plain_char id = true ->
  universal_newlines b (id ++ [LF]) = id ++ [LF].
Proof.
  destruct id as [|c s]; [congruence|]. intros _ H.
  simpl in H. apply andb_prop in H as [Hc Hs].
  unfold plain_char in Hc. apply andb_prop in Hc as [Hlf Hcr].
  apply negb_true_iff in Hlf, Hcr.
  simpl. rewrite Hcr, Hlf. simpl.
  now rewrite (universal_newlines_plain s [] Hs).
Qed.

Lemma universal_newlines_app (a l : str) (b : bool) :
  (forall b', universal_newlines b' l = l) ->
  universal_newlines b (a ++ l) = universal_newlines b a ++ l.
Proof.
  intros Hl. revert b.
  induction a as [|c a IH]; intros b; simpl.
  - apply Hl.
  - destruct (c =? CR)%N.
    + now rewrite IH.
    + destruct ((c =? LF)%N && b); now rewrite IH.
Qed.

(** Text that ends with "\n" still does after decoding. *)
Lemma universal_newlines_terminated (a : str) :
  forall (b : bool) (p : str),
    (b = true -> exists x, p = x ++ [LF]) ->
    exists x, p ++ universal_newlines b (a ++ [LF]) = x ++ [LF].
Proof.
  induction a as [|c a IH]; intros b p Hp; simpl.
  - destruct b; simpl.
    + rewrite app_nil_r. now apply Hp.
    + now exists p.
  - destruct (c =? CR)%N eqn:Hcr.
    + destruct (IH true (p ++ [LF])) as [x Hx].
      * intros _. now exists p.
      * exists x. rewrite <- Hx. now rewrite <- app_assoc.
    + destruct ((c =? LF)%N && b) eqn:Hlf.
      * apply IH. intros; discriminate.
      * destruct (IH false (p ++ [c])) as [x Hx].
        -- intros; discriminate.
        -- exists x. rewrite <- Hx. now rewrite <- app_assoc.
Qed.

Lemma readlines_nil (s : str) : readlines s = [] -> s = [].
Proof.
  destruct s as [|c s]; [reflexivity|]. simpl.
  destruct (c =? LF)%N; [discriminate|].
  destruct (readlines s); discriminate.
Qed.

Lemma readlines_app (x rest : str) :
  readlines ((x ++ [LF]) ++ rest) = readlines (x ++ [LF]) ++ readlines rest.
Proof.
  induction x as [|c x IH]; simpl.
  - reflexivity.
  - destruct (c =? LF)%N.
    + simpl. f_equal. exact IH.
    + rewrite IH.
      destruct (readlines (x ++ [LF])) eqn:E.
      * apply readlines_nil in E. destruct x; discriminate.
      * reflexivity.
Qed.

Lemma readlines_line (id : str) :
  forallb plain_char id = true -> readlines (id ++ [LF]) = [id ++ [LF]].
Proof.
  induction id as [|c s IH]; intros H; simpl.
  - reflexivity.
  - simpl in H. apply andb_prop in H as [Hc Hs].
    unfold plain_char in Hc. apply andb_prop in Hc as [Hlf _].
    apply negb_true_iff in Hlf. rewrite Hlf. now rewrite IH.
Qed.

Lemma newline_terminated_inv (t : str) :
  newline_terminated (Some t) = true -> t = [] \/ exists x, t = x ++ [LF].
Proof.
  unfold newline_terminated.
  destruct (rev t) as [|c r] eqn:E; intros H.
  - left. apply (f_equal (@rev _)) in E. now rewrite rev_involutive in E.
  - right. apply N.eqb_eq in H. subst c. exists (rev r).
    apply (f_equal (@rev _)) in E. now rewrite rev_involutive in E.
Qed.

Lemma newline_terminated_append (f : option str) (x : str) :
  newline_terminated (file_append f (x ++ [LF])) = true.
Proof.
  destruct f as [t|]; simpl.
  - rewrite app_assoc, rev_unit. reflexivity.
  - rewrite rev_unit. reflexivity.
Qed.

(** Appending [id + "\n"] to a well-ended file adds exactly one line. *)
Lemma file_lines_append (f : option str) (id : str) :
  newline_terminated f = true -> line_id id = true ->
  file_lines (file_append f (id ++ [LF])) = file_lines f ++ [id ++ [LF]].
Proof.
  intros Hf Hid. apply line_id_inv in Hid as (Hne & _ & Hplain).
  destruct f as [t|]; simpl.
  - rewrite (universal_newlines_app t (id ++ [LF]) false)
      by (intros; now apply universal_newlines_line).
    destruct (newline_terminated_inv _ Hf) as [-> | [x ->]].
    + simpl. now apply readlines_line.
    + destruct (universal_newlines_terminated x false []) as [y Hy];
        [intros; discriminate|].
      simpl in Hy. rewrite Hy, readlines_app.
      now rewrite (readlines_line _ Hplain).
  - rewrite universal_newlines_line by assumption.
    now apply readlines_line.
Qed.

Lemma lstrip_length (u : str) : List.length (lstrip u) <= List.length u.
Proof.
  induction u as [|d u IH]; simpl; [lia|].
  destruct (isspace d); simpl; lia.
Qed.

Lemma lstrip_same_length (u : str) :
  List.length (lstrip u) = List.length u -> lstrip u = u.
Proof.
  destruct u as [|d u]; simpl; [reflexivity|].
  destruct (isspace d); [|reflexivity].
  intros H. pose proof (lstrip_length u). lia.
Qed.

Lemma strip_fixed_inv (id : str) :
  strip id = id -> lstrip id = id /\ lstrip (rev id) = rev id.
Proof.
  intros H. unfold strip, rstrip in H.
  assert (Hl : lstrip id = id).
  { apply lstrip_same_length.
    apply (f_equal (@List.length _)) in H. rewrite length_rev in H.
    pose proof (lstrip_length (rev (lstrip id))) as L1.
    rewrite length_rev in L1.
    pose proof (lstrip_length id). lia. }
  split; [assumption|].
  rewrite Hl in H. apply (f_equal (@rev _)) in H.
  now rewrite rev_involutive in H.
Qed.

(** [(id + "\n").strip()] is [id] again. *)
Lemma strip_line (id : str) : strip id = id -> strip (id ++ [LF]) = id.
Proof.
  intros H. apply strip_fixed_inv in H as [Hl Hr].
  unfold strip, rstrip.
  destruct id as [|c s]; [reflexivity|].
  assert (Hl' : lstrip ((c :: s) ++ [LF]) = (c :: s) ++ [LF]).
  { simpl in *. destruct (isspace c); [|reflexivity].
    exfalso. pose proof (lstrip_length s) as L.
    rewrite Hl in L. simpl in L. lia. }
  rewrite Hl', rev_unit.
  change (lstrip (LF :: rev (c :: s))) with (lstrip (rev (c :: s))).
  rewrite Hr. apply rev_involutive.
Qed.

(** *** The processed-comment set and the posted-post list *)

Lemma set_add_In (x y : str) (s : list str) :
  In y (set_add x s) <-> In y s \/ y = x.
Proof.
  unfold set_add. destruct (set_mem x s) eqn:E.
  - apply set_mem_In in E. split; [tauto|]. intros [H | ->]; assumption.
  - rewrite in_app_iff. simpl. intuition congruence.
Qed.

Lemma set_add_NoDup (x : str) (s : list str) : NoDup s -> NoDup (set_add x s).
Proof.
  intros H. unfold set_add. destruct (set_mem x s) eqn:E; [assumption|].
  apply NoDup_app; [assumption | repeat constructor; intros [] |].
  intros y Hy [<- | []].
  apply set_mem_In in Hy. congruence.
Qed.

Lemma processed_set_eq (st : State) :
  processed_set st
  = fold_left add_comment_line (file_lines (processed_comments_file st)) [].
Proof. reflexivity. Qed.

Lemma posted_posts_eq (st : State) :
  posted_posts st
  = fold_left add_post_line (file_lines (posted_posts_file st)) [].
Proof. reflexivity. Qed.

Lemma fold_comment_lines_In (lines : list str) :
  forall (acc : list str) (x : str),
    In x (fold_left add_comment_line lines acc)
    <-> In x acc \/ (x <> [] /\ exists l, In l lines /\ strip l = x).
Proof.
  induction lines as [|l lines IH]; intros acc x; simpl.
  - split; [auto|]. intros [H | (_ & l & [] & _)]. exact H.
  - rewrite IH. unfold add_comment_line.
    destruct (strip l) as [|c r] eqn:E; simpl.
    + split.
      * intros [H | (Hx & l' & Hl' & E')]; [now left|].
        right. split; [assumption|]. exists l'. auto.
      * intros [H | (Hx & l' & [<- | Hl'] & E')]; [now left | congruence |].
        right. split; [assumption|]. exists l'. auto.
    + rewrite set_add_In. split.
      * intros [[H | ->] | (Hx & l' & Hl' & E')].
        -- now left.
        -- right. split; [discriminate|]. exists l. auto.
        -- right. split; [assumption|]. exists l'. auto.
      * intros [H | (Hx & l' & [<- | Hl'] & E')].
        -- left. now left.
        -- left. right. congruence.
        -- right. split; [assumption|]. exists l'. auto.
Qed.

Lemma fold_comment_lines_NoDup (lines : list str) :
  forall acc, NoDup acc -> NoDup (fold_left add_comment_line lines acc).
Proof.
  induction lines as [|l lines IH]; intros acc H; simpl; [assumption|].
  apply IH. unfold add_comment_line.
  destruct (truthy (strip l)); [now apply set_add_NoDup | assumption].
Qed.

Lemma processed_set_NoDup (st : State) : NoDup (processed_set st).
Proof. rewrite processed_set_eq. apply fold_comment_lines_NoDup. constructor. Qed.

Lemma fold_left_app_step {A B} (f : A -> B -> A) (l : list B) (x : B) (a : A) :
  fold_left f (l ++ [x]) a = f (fold_left f l a) x.
Proof. now rewrite fold_left_app. Qed.

Lemma isCommentProcessed_In (id : str) (st : State) :
  isCommentProcessed id st = true <-> In id (processed_set st).
Proof. apply set_mem_In. Qed.

(** What [save_processed_comment] does for a string id. *)
Lemma save_processed_comment_Some (c : str) (st : State) :
  save_processed_comment (Some c) st
  = (Ret tt,
     set_processed_comments_file
       (file_append (processed_comments_file st) (c ++ [LF])) st).
Proof.
  unfold save_processed_comment, bind, modify. simpl.
  destruct st as [pc pp ws lg ex out ck]; simpl.
  unfold set_processed_comments_file; simpl.
  destruct pc; simpl; [rewrite app_nil_r|]; reflexivity.
Qed.

(** Marking a line id in a well-ended file adds exactly that id to the set
    and nothing else leaves or enters. *)
Lemma processed_set_after_save (c : str) (st : State) :
  line_id c = true ->
  newline_terminated (processed_comments_file st) = true ->
  forall x,
    In x (processed_set (snd (save_processed_comment (Some c) st)))
    <-> In x (processed_set st) \/ x = c.
Proof.
  intros Hc Hf x. rewrite save_processed_comment_Some. simpl.
  rewrite !processed_set_eq.
  destruct st as [pc pp ws lg ex out ck]; simpl in *.
  rewrite file_lines_append, fold_left_app_step by assumption.
  unfold add_comment_line at 1.
  apply line_id_inv in Hc as (Hne & Hs & _).
  rewrite (strip_line _ Hs).
  destruct c as [|d c]; [congruence|]. simpl.
  apply set_add_In.
Qed.

Lemma fold_post_lines (lines : list str) :
  forall acc,
    fold_left add_post_line lines acc
    = acc ++ filter truthy (map strip lines).
Proof.
  induction lines as [|l lines IH]; intros acc; simpl.
  - now rewrite app_nil_r.
  - rewrite IH. unfold add_post_line.
    destruct (truthy (strip l)); [|reflexivity].
    now rewrite <- app_assoc.
Qed.

Lemma existsb_str_In (x : str) (l : list str) :
  existsb (str_eqb x) l = true <-> In x l.
Proof. apply set_mem_In. Qed.

(** What [save_posted_post] does. *)
Lemma save_posted_post_eq (id : str) (st : State) :
  save_posted_post id st
  = (Ret tt,
     if existsb (str_eqb id) (posted_posts st) then st
     else set_posted_posts_file
            (file_append (posted_posts_file st) (id ++ [LF])) st).
Proof.
  unfold save_posted_post, bind. simpl.
  change (fold_left _ (file_lines (posted_posts_file st)) [])
    with (posted_posts st).
  destruct (existsb (str_eqb id) (posted_posts st)); reflexivity.
Qed.

Lemma posted_posts_after_append (id : str) (st : State) :
  line_id id = true ->
  newline_terminated (posted_posts_file st) = true ->
  posted_posts
    (set_posted_posts_file (file_append (posted_posts_file st) (id ++ [LF])) st)
  = posted_posts st ++ [id].
Proof.
  intros Hid Hf. rewrite !posted_posts_eq. simpl.
  rewrite file_lines_append, fold_left_app_step by assumption.
  unfold add_post_line at 1.
  apply line_id_inv in Hid as (Hne & Hs & _).
  rewrite (strip_line _ Hs).
  destruct id; [congruence | reflexivity].
Qed.

Lemma count_occ_absent (x : str) (l : list str) :
  ~ In x l -> count_occ str_eq_dec l x = 0.
Proof. apply count_occ_not_In. Qed.

(** *** C3: marking a comment processed *)

(** C3 (as amended).  For every comment id that a line of the file gives
    back (not empty, no white space at its ends, no line break inside) and
    every processed-comment file that is absent, empty or ends with a line
    break: [save_processed_comment] called twice returns both times, the id
    is in the set of [load_processed_comments] after either call, and that
    set holds the id exactly once. *)
Theorem save_processed_comment_idempotent (st : State) (id : str) :
  line_id id = true ->
  newline_terminated (processed_comments_file st) = true ->
  marks_idempotently st id.
Proof.
  intros Hid Hf.
  pose (st1 := snd (save_processed_comment (Some id) st)).
  pose (st2 := snd (save_processed_comment (Some id) st1)).
  assert (Hf1 : newline_terminated (processed_comments_file st1) = true).
  { subst st1. rewrite save_processed_comment_Some. simpl.
    apply newline_terminated_append. }
  assert (H1 : In id (processed_set st1)).
  { apply (processed_set_after_save id st Hid Hf). now right. }
  assert (H2 : In id (processed_set st2)).
  { apply (processed_set_after_save id st1 Hid Hf1). now right. }
  exists st1, st2.
  split; [unfold st1; now rewrite save_processed_comment_Some|].
  split; [unfold st2; now rewrite (save_processed_comment_Some id st1)|].
  repeat apply conj.
  - now apply isCommentProcessed_In.
  - now apply isCommentProcessed_In.
  - apply NoDup_count_occ'; [apply processed_set_NoDup | assumption].
Qed.

Lemma save_processed_comment_idempotent_witness :
  marks_idempotently Sample.empty_state (py "1001_1_77").
Proof.
  apply save_processed_comment_idempotent; reflexivity.
Defined.

(** C3 (as stated) fails for the empty id: after two calls the file holds
    two blank lines, which [load_processed_comments] skips, so the id is
    not in the set. *)
Lemma save_processed_comment_empty_id :
  ~ marks_idempotently Sample.empty_state [].
Proof.
  intros (st1 & st2 & H1 & H2 & H3 & _).
  rewrite save_processed_comment_Some in H1.
  inversion H1; subst st1. vm_compute in H3. discriminate.
Qed.

(** The condition on the file is needed: after a file that does not end
    with a line break, the id is glued to the last line and is not read
    back, while the id that was there is lost. *)
Example save_processed_comment_unterminated :
  let st1 := snd (save_processed_comment (Some (py "c1")) Sample.unterminated) in
  isCommentProcessed (py "c0") Sample.unterminated = true
  /\ isCommentProcessed (py "c1") st1 = false
  /\ isCommentProcessed (py "c0") st1 = false.
Proof. vm_compute. repeat split; reflexivity. Qed.

(** *** C7: registering a posted post *)

(** C7 (as amended).  For every post id that a line of the file gives back
    and every posted-post file that is absent, empty or ends with a line
    break and lists the id at most once: [save_posted_post] called twice
    returns both times and leaves the list of [load_posted_posts] holding
    the id exactly once; a call that finds the id already listed changes
    nothing. *)
Theorem save_posted_post_idempotent (st : State) (id : str) :
  line_id id = true ->
  newline_terminated (posted_posts_file st) = true ->
  count_occ str_eq_dec (posted_posts st) id <= 1 ->
  adds_idempotently st id.
Proof.
  intros Hid Hf Hc.
  destruct (existsb (str_eqb id) (posted_posts st)) eqn:E.
  - assert (Hin : In id (posted_posts st)) by now apply existsb_str_In.
    assert (H1 : count_occ str_eq_dec (posted_posts st) id = 1).
    { apply (count_occ_In str_eq_dec) in Hin. lia. }
    exists st, st. rewrite save_posted_post_eq, E. auto 10.
  - assert (Hout : ~ In id (posted_posts st)).
    { rewrite <- existsb_str_In. congruence. }
    pose (st1 := set_posted_posts_file
                   (file_append (posted_posts_file st) (id ++ [LF])) st).
    assert (P1 : posted_posts st1 = posted_posts st ++ [id])
      by now apply posted_posts_after_append.
    assert (C1 : count_occ str_eq_dec (posted_posts st1) id = 1).
    { rewrite P1, count_occ_app, (count_occ_absent _ _ Hout). simpl.
      destruct (str_eq_dec id id); [reflexivity | congruence]. }
    assert (E1 : existsb (str_eqb id) (posted_posts st1) = true).
    { apply existsb_str_In. rewrite P1. apply in_or_app. right. now left. }
    exists st1, st1. rewrite !save_posted_post_eq, E. fold st1. rewrite E1.
    repeat split; auto. intros Hin. contradiction.
Qed.

Lemma save_posted_post_idempotent_witness :
  adds_idempotently Sample.empty_state (py "1001_1").
Proof.
  apply save_posted_post_idempotent; [reflexivity | reflexivity | simpl; lia].
Defined.

(** C7 (as stated) fails for the empty id, the one [post_to_facebook]
    passes when the answer to a publish has no "id": each call appends a
    blank line, and [load_posted_posts] skips blank lines, so the list
    never holds the id. *)
Lemma save_posted_post_empty_id :
  ~ adds_idempotently Sample.empty_state [].
Proof.
  intros (st1 & st2 & H1 & _ & H3 & _).
  rewrite save_posted_post_eq in H1.
  inversion H1; subst st1. vm_compute in H3. discriminate.
Qed.

(** The condition on the list is needed: a file that lists the id twice
    still does after the calls. *)
Example save_posted_post_listed_twice :
  let st2 := snd (save_posted_post (py "1001_1")
                    (snd (save_posted_post (py "1001_1") Sample.listed_twice))) in
  st2 = Sample.listed_twice
  /\ count_occ str_eq_dec (posted_posts st2) (py "1001_1") = 2.
Proof. vm_compute. split; reflexivity. Qed.

(** *** C4: the metrics upsert *)

Lemma find_row_Some (q : str) (ws : list stats_row) :
  forall n, find_row q ws = Some n ->
    exists r, nth_error ws n = Some r /\ col_post_id r = Text q.
Proof.
  induction ws as [|r ws IH]; intros n H; simpl in H; [discriminate|].
  assert (Hrest : option_map S (find_row q ws) = Some n ->
                  exists r0, nth_error (r :: ws) n = Some r0
                             /\ col_post_id r0 = Text q).
  { destruct (find_row q ws) as [m|]; simpl; [|discriminate].
    intros [= <-]. simpl. now apply IH. }
  destruct (col_post_id r) as [|v|z|z|v'] eqn:E; try now apply Hrest.
  destruct (str_eqb v q) eqn:Ev; [|now apply Hrest].
  injection H as <-. apply str_eqb_eq in Ev. subst v.
  exists r. now split.
Qed.

Lemma find_row_app_Some (q : str) (ws l : list stats_row) :
  forall n, find_row q ws = Some n -> find_row q (ws ++ l) = Some n.
Proof.
  induction ws as [|r ws IH]; intros n H; simpl in *; [discriminate|].
  assert (Hrest : option_map S (find_row q ws) = Some n ->
                  option_map S (find_row q (ws ++ l)) = Some n).
  { destruct (find_row q ws) as [m|]; simpl; [|discriminate].
    intros [= <-]. now rewrite (IH m). }
  destruct (col_post_id r) as [|v|z|z|v']; try now apply Hrest.
  destruct (str_eqb v q); [assumption | now apply Hrest].
Qed.

Lemma find_row_app_None (q : str) (ws l : list stats_row) :
  find_row q ws = None ->
  find_row q (ws ++ l)
  = option_map (fun n => List.length ws + n) (find_row q l).
Proof.
  induction ws as [|r ws IH]; intros H; simpl in *.
  - destruct (find_row q l); reflexivity.
  - assert (Hrest : option_map S (find_row q ws) = None ->
                    option_map S (find_row q (ws ++ l))
                    = option_map (fun n => S (List.length ws + n))
                                 (find_row q l)).
    { destruct (find_row q ws) as [m|]; simpl; [discriminate|].
      intros _. rewrite IH by reflexivity.
      destruct (find_row q l); reflexivity. }
    destruct (col_post_id r) as [|v|z|z|v']; try now apply Hrest.
    destruct (str_eqb v q); [discriminate | now apply Hrest].
Qed.

Lemma find_row_update_row (q : str) (f : stats_row -> stats_row) :
  (forall r, col_post_id (f r) = col_post_id r) ->
  forall ws n, find_row q (update_row n f ws) = find_row q ws.
Proof.
  intros Hf. induction ws as [|r ws IH]; intros n; [reflexivity|].
  destruct n as [|n]; simpl.
  - now rewrite Hf.
  - now rewrite IH.
Qed.

Lemma nth_error_update_row_same (f : stats_row -> stats_row) :
  forall ws n r, nth_error ws n = Some r ->
    nth_error (update_row n f ws) n = Some (f r).
Proof.
  induction ws as [|r0 ws IH]; intros [|n] r H; simpl in *;
    try discriminate.
  - now injection H as ->.
  - now apply IH.
Qed.

Lemma nth_error_update_row_other (f : stats_row -> stats_row) :
  forall ws n m, m <> n ->
    nth_error (update_row n f ws) m = nth_error ws m.
Proof.
  induction ws as [|r0 ws IH]; intros [|n] [|m] H; simpl; try reflexivity.
  - congruence.
  - apply IH. congruence.
Qed.

Lemma update_row_last (f : stats_row -> stats_row) (r : stats_row) :
  forall ws, update_row (List.length ws) f (ws ++ [r]) = ws ++ [f r].
Proof.
  induction ws as [|r0 ws IH]; simpl; [reflexivity | now rewrite IH].
Qed.

(** [Cell.check_string] accepts a text for a cell as it is. *)
Lemma sheet_char_legal (v : str) :
  forallb sheet_char v = true -> existsb illegal_char v = false.
Proof.
  induction v as [|c v IH]; [reflexivity|]. cbn [forallb existsb].
  intros H. apply andb_prop in H as [Hc Hv]. rewrite (IH Hv).
  unfold sheet_char in Hc.
  destruct (illegal_char c); [discriminate | reflexivity].
Qed.

Lemma check_string_sheet_text (v : str) :
  sheet_text v = true -> check_string v = inr v.
Proof.
  unfold sheet_text, check_string. intros H.
  apply andb_prop in H as [Hl Hv]. apply Nat.leb_le in Hl.
  rewrite firstn_all2 by exact Hl. now rewrite (sheet_char_legal v Hv).
Qed.

Lemma text_cell_sheet_text (c : char) (v : str) :
  sheet_text (c :: v) = true -> text_cell (c :: v) = inr (Text (c :: v)).
Proof.
  intros H. unfold text_cell. rewrite (check_string_sheet_text _ H).
  unfold sheet_text in H. apply andb_prop in H as [_ ->]. reflexivity.
Qed.

Lemma created_row_sheet (post_id : str) (content : option str) :
  sheet_id post_id = true -> sheet_content content = true ->
  created_row post_id content
  = inr (mkRow (Text post_id) (content_cell content) Empty Empty Empty Empty).
Proof.
  unfold sheet_id, created_row. intros Hid Hc.
  apply andb_prop in Hid as [Hne Hid].
  destruct post_id as [|p post_id]; [discriminate|].
  rewrite (text_cell_sheet_text _ _ Hid).
  destruct content as [[|c r]|]; try reflexivity.
  simpl in Hc. now rewrite (text_cell_sheet_text _ _ Hc).
Qed.

Lemma sheet_text_accepted (v : str) :
  sheet_text v = true -> accepted_text v = true.
Proof.
  unfold sheet_text, accepted_text. intros H.
  apply andb_prop in H as [Hl Hv]. apply Nat.leb_le in Hl.
  rewrite firstn_all2 by exact Hl. now rewrite (sheet_char_legal v Hv).
Qed.

Lemma saved_number_exact (z : Z) :
  exact_number z = true -> saved_number z = Number z.
Proof. unfold exact_number, saved_number. now intros ->. Qed.

Lemma exact_number_storable (z : Z) :
  exact_number z = true -> storable z = true.
Proof.
  unfold exact_number, storable. intros H.
  apply Z.ltb_lt in H. apply Z.ltb_lt.
  assert (B : (2 ^ 53 <=? 2 ^ 1024 - 2 ^ 970)%Z = true) by reflexivity.
  apply Z.leb_le in B. eapply Z.lt_le_trans; eassumption.
Qed.

Lemma exact_counters_storable (likes comments shares : Z) :
  exact_number likes = true -> exact_number comments = true ->
  exact_number shares = true ->
  counters_storable likes comments shares = true.
Proof.
  intros Hl Hc Hs. unfold counters_storable.
  now rewrite !exact_number_storable.
Qed.

(** What [update_post_stats] does, in one equation. *)
Lemma update_post_stats_eq (clock : nat -> str) (post_id : str)
      (likes comments shares : Z) (content : option str) (st : State) :
  update_post_stats clock post_id likes comments shares content st
  = match find_row post_id (stats_sheet st) with
    | Some n =>
      save_sheet likes comments shares
         (update_row n
            (fun r => refreshed r likes comments shares (clock (clock_reads st)))
            (stats_sheet st))
         (set_clock_reads (S (clock_reads st)) st)
    | None =>
      match created_row post_id content with
      | inl e => (Raise e, set_clock_reads (S (clock_reads st)) st)
      | inr r =>
        save_sheet likes comments shares
           (stats_sheet st
            ++ [refreshed r likes comments shares (clock (clock_reads st))])
           (set_clock_reads (S (clock_reads st)) st)
      end
    end.
Proof.
  unfold update_post_stats, bind, gets, now, created_row, set_text.
  simpl.
  destruct (find_row post_id (stats_sheet st)) as [n|]; [reflexivity|].
  destruct (text_cell post_id) as [e|a]; simpl; [reflexivity|].
  destruct content as [[|c0 r]|]; simpl;
    try (rewrite update_row_last; reflexivity).
  destruct (text_cell (c0 :: r)) as [e|b]; simpl; [reflexivity|].
  rewrite update_row_last. reflexivity.
Qed.

(** Whether it returns or raises, [update_post_stats] reads the clock once
    and touches nothing but the sheet. *)
Lemma update_post_stats_shape (clock : nat -> str) (post_id : str)
      (likes comments shares : Z) (content : option str) (st : State) :
  exists o ws',
    update_post_stats clock post_id likes comments shares content st
    = (o, set_stats_sheet ws' (set_clock_reads (S (clock_reads st)) st)).
Proof.
  assert (HS : forall ws s,
             exists o ws',
               save_sheet likes comments shares ws s
               = (o, set_stats_sheet ws' s)).
  { intros ws s. unfold save_sheet.
    destruct (counters_storable likes comments shares).
    - eexists _, _. reflexivity.
    - eexists _, (stats_sheet s). unfold raise. now destruct s. }
  rewrite update_post_stats_eq.
  destruct (find_row post_id (stats_sheet st)) as [n|]; [apply HS|].
  destruct (created_row post_id content) as [e|r]; [|apply HS].
  exists (Raise e), (stats_sheet st). now destruct st.
Qed.

(** A call with counters that can be saved raises only when it cannot
    create the record. *)
Lemma update_post_stats_Raise (clock : nat -> str) (post_id : str)
      (likes comments shares : Z) (content : option str) (st st' : State)
      (e : exn) :
  counters_storable likes comments shares = true ->
  update_post_stats clock post_id likes comments shares content st
  = (Raise e, st') ->
  st' = set_clock_reads (S (clock_reads st)) st
  /\ find_row post_id (stats_sheet st) = None
  /\ created_row post_id content = inl e.
Proof.
  intros Hs. rewrite update_post_stats_eq. unfold save_sheet. rewrite Hs.
  destruct (find_row post_id (stats_sheet st)) as [n|]; [discriminate|].
  destruct (created_row post_id content) as [e'|r]; [|discriminate].
  intros [= -> <-]. auto.
Qed.

Lemma stats_record_None (q : str) (ws : list stats_row) :
  stats_record q ws = None <-> find_row q ws = None.
Proof.
  unfold stats_record. destruct (find_row q ws) as [n|] eqn:E.
  - destruct (find_row_Some q ws n E) as (r & -> & _).
    split; discriminate.
  - tauto.
Qed.

Lemma find_row_other_row (q post_id : str) (r : stats_row) :
  q <> post_id -> col_post_id r = Text post_id -> find_row q [r] = None.
Proof.
  intros Hq Hr. simpl. rewrite Hr.
  destruct (str_eqb post_id q) eqn:E; [|reflexivity].
  apply str_eqb_eq in E. congruence.
Qed.

(** The merge of [update_post_stats], with the cells as the sheet gives
    them back.  A post without a record gets one when its id and content
    are texts for a cell. *)
Lemma update_post_stats_upsert (clock : nat -> str) (st : State)
      (post_id : str) (likes comments shares : Z) (content : option str) :
  (stats_record post_id (stats_sheet st) = None ->
   sheet_id post_id = true /\ sheet_content content = true) ->
  counters_storable likes comments shares = true ->
  let run := update_post_stats clock post_id likes comments shares content st in
  let ws := stats_sheet st in
  let ws' := stats_sheet (snd run) in
  let t := clock (clock_reads st) in
  fst run = Ret tt /\
  match stats_record post_id ws with
  | None =>
    let created := upserted None post_id content likes comments shares t in
    ws' = ws ++ [created] /\ stats_record post_id ws' = Some created
  | Some r =>
    stats_record post_id ws' = Some (refreshed r likes comments shares t)
    /\ List.length ws' = List.length ws
  end /\
  (forall q, q <> post_id -> stats_record q ws' = stats_record q ws).
Proof.
  intros Hnew Hst run ws ws' t. subst run ws'.
  rewrite update_post_stats_eq. unfold save_sheet. rewrite Hst.
  fold ws. fold t.
  unfold stats_record at 1. unfold stats_record in Hnew. fold ws in Hnew.
  destruct (find_row post_id ws) as [n|] eqn:E.
  - cbn [fst snd stats_sheet set_stats_sheet modify].
    split; [reflexivity|].
    destruct (find_row_Some _ _ _ E) as (r & Hr & Hid). rewrite Hr.
    set (f := fun r0 => refreshed r0 likes comments shares t).
    assert (Hf : forall r0, col_post_id (f r0) = col_post_id r0)
      by reflexivity.
    split; [split|].
    + unfold stats_record. rewrite (find_row_update_row _ f Hf), E.
      now rewrite (nth_error_update_row_same f ws n r Hr).
    + clear. revert n. induction ws as [|r0 ws IH]; intros [|n]; simpl;
        try reflexivity. now rewrite IH.
    + intros q Hq. unfold stats_record.
      rewrite (find_row_update_row _ f Hf).
      destruct (find_row q ws) as [m|] eqn:Em; [|reflexivity].
      apply nth_error_update_row_other. intros ->.
      destruct (find_row_Some _ _ _ Em) as (r' & Hr' & Hid').
      rewrite Hr in Hr'. injection Hr' as <-. congruence.
  - destruct (Hnew eq_refl) as [Hid Hc].
    rewrite (created_row_sheet _ _ Hid Hc).
    cbn [fst snd stats_sheet set_stats_sheet modify].
    split; [reflexivity|].
    split; [split; [reflexivity|]|].
    + unfold stats_record.
      rewrite (find_row_app_None _ _ _ E). simpl.
      rewrite str_eqb_refl. simpl. rewrite Nat.add_0_r.
      rewrite nth_error_app2, Nat.sub_diag by lia. reflexivity.
    + intros q Hq. unfold stats_record.
      destruct (find_row q ws) as [m|] eqn:Em.
      * rewrite (find_row_app_Some _ _ _ _ Em).
        destruct (find_row_Some _ _ _ Em) as (r' & Hr' & _).
        rewrite nth_error_app1; [reflexivity|].
        apply nth_error_Some. congruence.
      * rewrite (find_row_app_None _ _ _ Em).
        rewrite (find_row_other_row q post_id); auto.
Qed.

(** C4 (as stated) fails for a text that the sheet refuses: the call for
    a new post "P1" with the content "a", U+0001, "b" raises the
    exception of the cell, and the sheet has no record of the post. *)
Lemma update_post_stats_refused_content :
  ~ upsert_merges Sample.clock Sample.empty_state (py "P1") 0 0 0
                  (Some (py "a" ++ [1%N] ++ py "b")).
Proof.
  intros [H _]. vm_compute in H. discriminate.
Qed.

(** The same call: what it raises, and the sheet after it. *)
Example update_post_stats_raises_for_content :
  let run := update_post_stats Sample.clock (py "P1") 0 0 0
                               (Some (py "a" ++ [1%N] ++ py "b"))
                               Sample.empty_state in
  fst run = Raise (IllegalCharacterError
                     (py "a" ++ [1%N] ++ py "b cannot be used in worksheets."))
  /\ stats_sheet (snd run) = [].
Proof. vm_compute. split; reflexivity. Qed.

(** It fails for the empty post id as well, the one [post_to_facebook]
    passes when the answer to a publish has no "id": the row has an empty
    cell in column A, no look-up finds it, and the next call adds a second
    row. *)
Example update_post_stats_empty_id :
  let st1 := snd (update_post_stats Sample.clock [] 0 0 0 (Some (py "hello"))
                                    Sample.empty_state) in
  let st2 := snd (update_post_stats Sample.clock [] 6 2 1 None st1) in
  stats_sheet st1
  = [mkRow Empty (Text (py "hello")) (Number 0) (Number 0) (Number 0)
           (Text (Sample.clock 0))]
  /\ stats_record [] (stats_sheet st1) = None
  /\ List.length (stats_sheet st2) = 2.
Proof. vm_compute. repeat split. Qed.

(** An integer of 2^53 or more is not read back as it was written. *)
Example update_post_stats_large_counter :
  let st1 := snd (update_post_stats Sample.clock (py "P1")
                                    9007199254740993 0 0 None
                                    Sample.empty_state) in
  stats_sheet st1
  = [mkRow (Text (py "P1")) Empty (Rounded 9007199254740993) (Number 0)
           (Number 0) (Text (Sample.clock 0))].
Proof. vm_compute. reflexivity. Qed.

(** An integer that no floating-point number holds cannot be saved. *)
Example update_post_stats_unstorable_counter :
  let run := update_post_stats Sample.clock (py "P1") (10 ^ 400) 0 0 None
                               Sample.empty_state in
  fst run = Raise (OverflowError (py "int too large to convert to float"))
  /\ stats_sheet (snd run) = [].
Proof. vm_compute. split; reflexivity. Qed.

(** C4 (as amended).  When the counters are integers that the sheet gives
    back exactly, and, for a post without a record, the post id is a
    non-empty text for a cell and the content is absent or a text for a
    cell, [update_post_stats] returns, and
    - when the sheet has no record for the post id, it appends one whose
      content is the given content if that is given and not empty, an empty
      cell otherwise;
    - when the sheet has a record, the record keeps its content, whatever
      content is passed, and gets the new likes, comments, shares and time
      stamp;
    - the records of the other posts stay as they are. *)
Theorem update_post_stats_merge (clock : nat -> str) (st : State)
        (post_id : str) (likes comments shares : Z) (content : option str) :
  (stats_record post_id (stats_sheet st) = None ->
   sheet_id post_id = true /\ sheet_content content = true) ->
  exact_number likes = true ->
  exact_number comments = true ->
  exact_number shares = true ->
  upsert_merges clock st post_id likes comments shares content.
Proof.
  intros Hnew Hl Hc Hs.
  pose proof (update_post_stats_upsert clock st post_id likes comments shares
                content Hnew (exact_counters_storable _ _ _ Hl Hc Hs)) as H.
  unfold upsert_merges. cbv zeta in *.
  unfold upserted, refreshed in H.
  rewrite (saved_number_exact _ Hl), (saved_number_exact _ Hc),
    (saved_number_exact _ Hs) in H.
  exact H.
Qed.

Lemma update_post_stats_merge_witness :
  upsert_merges Sample.clock Sample.empty_state (py "P1") 5 2 1 None.
Proof.
  apply update_post_stats_merge.
  - intros _. split; reflexivity.
  - reflexivity.
  - reflexivity.
  - reflexivity.
Defined.

(** The two calls of the specification's example: the record is created
    with an empty content, and the second call leaves the content empty
    while the counters become (6, 2, 1). *)
Example update_post_stats_P1 :
  let st1 := snd (update_post_stats Sample.clock (py "P1") 5 2 1 None
                                    Sample.empty_state) in
  let st2 := snd (update_post_stats Sample.clock (py "P1") 6 2 1
                                    (Some (py "ignored")) st1) in
  stats_record (py "P1") (stats_sheet st1)
  = Some (mkRow (Text (py "P1")) Empty (Number 5) (Number 2) (Number 1)
                (Text (Sample.clock 0)))
  /\ stats_record (py "P1") (stats_sheet st2)
     = Some (mkRow (Text (py "P1")) Empty (Number 6) (Number 2) (Number 1)
                   (Text (Sample.clock 1))).
Proof. split; reflexivity. Qed.

(** *** Runs of the monad *)

Arguments py : simpl never.
Arguments str_of_int : simpl never.
Arguments graph : simpl never.

Lemma bind_Ret_inv {A B} (m : M A) (k : A -> M B) (st st' : State) (b : B) :
  bind m k st = (Ret b, st') ->
  exists a st1, m st = (Ret a, st1) /\ k a st1 = (Ret b, st').
Proof.
  unfold bind. destruct (m st) as [[a|e] st1]; intros H.
  - now exists a, st1.
  - discriminate.
Qed.

Lemma bind_Ret {A B} (m : M A) (k : A -> M B) (st st1 : State) (a : A) :
  m st = (Ret a, st1) -> bind m k st = k a st1.
Proof. unfold bind. now intros ->. Qed.

Lemma bind_Raise {A B} (m : M A) (k : A -> M B) (st st1 : State) (e : exn) :
  m st = (Raise e, st1) -> bind m k st = (Raise e, st1).
Proof. unfold bind. now intros ->. Qed.

Lemma log_action_eq (clock : nat -> str) (action info : str) (st : State) :
  log_action clock action info st
  = (Ret tt,
     set_log_file
       (file_append (log_file st)
          (py "[" ++ clock (clock_reads st) ++ py "] " ++ action ++ py ": "
           ++ info ++ [LF]))
       (set_clock_reads (S (clock_reads st)) st)).
Proof. reflexivity. Qed.

Lemma new_exchanges_app (st st' : State) (tr : list (request * http_result)) :
  exchanges st' = exchanges st ++ tr -> new_exchanges st st' = tr.
Proof.
  intros H. unfold new_exchanges. rewrite H.
  rewrite skipn_app, Nat.sub_diag, skipn_all. reflexivity.
Qed.

Ltac run_gateway :=
  unfold try_except, bind, http, json_of, log_action, now, modify, ret, raise;
  cbn -[py str_of_int graph app].

(** *** The gateway calls *)

Section Gateway.

Variable token : option str.
Variable net : nat -> request -> http_result.
Variable clock : nat -> str.

(** [like_comment] returns whatever the network does. *)
Lemma like_comment_step (cid : option str) (st : State) :
  exists st',
    like_comment token net clock cid st = (Ret tt, st')
    /\ gateway_step (like_request token cid)
                    (net (List.length (exchanges st)) (like_request token cid))
                    st st'.
Proof.
  unfold like_comment, gateway_step. run_gateway.
  destruct (net _ _) as [msg|r]; cbn -[py str_of_int graph app];
    [|destruct (status_code r =? 200)%Z];
    eexists; (split; [reflexivity|]); cbn; auto.
Qed.

(** [reply_to_comment] returns whatever the network does. *)
Lemma reply_to_comment_step (cid : option str) (reply : str) (st : State) :
  exists st',
    reply_to_comment token net clock cid reply st = (Ret tt, st')
    /\ gateway_step (reply_request token cid reply)
                    (net (List.length (exchanges st))
                         (reply_request token cid reply))
                    st st'.
Proof.
  unfold reply_to_comment, gateway_step. run_gateway.
  destruct (net _ _) as [msg|r]; cbn -[py str_of_int graph app];
    [|destruct (status_code r =? 200)%Z];
    eexists; (split; [reflexivity|]); cbn; auto.
Qed.

(** [get_post_comments] returns the comments of the answer, [[]] on any
    failure. *)
Lemma get_post_comments_step (post_id : str) (limit : Z) (st : State) :
  let req := comments_request token post_id limit in
  let res := net (List.length (exchanges st)) req in
  exists st',
    get_post_comments token net clock post_id limit st
    = (Ret (comments_of res), st')
    /\ gateway_step req res st st'.
Proof.
  unfold get_post_comments, gateway_step, comments_of. run_gateway.
  destruct (net _ _) as [msg|r]; cbn -[py str_of_int graph app];
    [|destruct (status_code r =? 200)%Z; [destruct (json r) as [m|body]|]];
    cbn -[py str_of_int graph app];
    eexists; (split; [reflexivity|]); cbn; auto.
Qed.

End Gateway.

(** *** C6: the three sub-queries of [get_post_insights] *)

Section Insights.

Variable token : option str.
Variable net : nat -> request -> http_result.
Variable clock : nat -> str.

Lemma insight_query_step (kind post_id : str) (req : request)
      (read : json_obj -> Z) (st : State) :
  let res := net (List.length (exchanges st)) req in
  exists v st',
    insight_query net clock kind post_id req read 0%Z st = (Ret v, st')
    /\ gateway_step req res st st'
    /\ counts read res v.
Proof.
  unfold insight_query, gateway_step, counts, query_failed. run_gateway.
  destruct (net _ _) as [msg|r]; cbn -[py str_of_int graph app].
  - eexists _, _. split; [reflexivity|]. cbn. repeat split; auto.
    intros; discriminate.
  - destruct (status_code r =? 200)%Z eqn:Es;
      [destruct (json r) as [m|body] eqn:Ej|];
      cbn -[py str_of_int graph app];
      eexists _, _; (split; [reflexivity|]); cbn; repeat split; auto;
      try (intros; discriminate).
    + intros r' body' [= <-] _ Hb. congruence.
    + intros r' body' [= <-] _ Hb. congruence.
    + intros r' body' [= <-] Hs. apply Z.eqb_neq in Es. congruence.
Qed.

Lemma gateway_step_length (req : request) (res : http_result) (st st' : State) :
  gateway_step req res st st' ->
  List.length (exchanges st') = S (List.length (exchanges st)).
Proof.
  intros (H & _). rewrite H, length_app. simpl. lia.
Qed.

(** C6.  With a token, [get_post_insights] returns (it raises nothing) and
    sends its three requests whatever their results are; each counter is 0
    when its own sub-query failed and the count of its own answer when it
    succeeded.  So when the shares query fails and the two others succeed,
    the result has the likes and comments of the answers and 0 shares. *)
Theorem get_post_insights_isolated (post_id : str) (st : State) :
  truthy_opt token = true ->
  let k := List.length (exchanges st) in
  let q1 := likes_request token post_id in
  let q2 := comments_summary_request token post_id in
  let q3 := shares_request token post_id in
  let a1 := net k q1 in
  let a2 := net (S k) q2 in
  let a3 := net (S (S k)) q3 in
  exists likes comments shares st',
    get_post_insights token net clock post_id st
    = (Ret (likes, comments, shares), st')
    /\ exchanges st' = exchanges st ++ [(q1, a1); (q2, a2); (q3, a3)]
    /\ counts read_total_count a1 likes
    /\ counts read_total_count a2 comments
    /\ counts read_shares_count a3 shares.
Proof.
  intros Ht k q1 q2 q3 a1 a2 a3.
  unfold get_post_insights. rewrite Ht. cbn [negb].
  destruct (insight_query_step (py "likes") post_id q1 read_total_count st)
    as (likes & st1 & R1 & G1 & C1).
  destruct (insight_query_step (py "comments") post_id q2 read_total_count st1)
    as (comments & st2 & R2 & G2 & C2).
  destruct (insight_query_step (py "shares") post_id q3 read_shares_count st2)
    as (shares & st3 & R3 & G3 & C3).
  assert (L1 : List.length (exchanges st1) = S k)
    by apply (gateway_step_length _ _ _ _ G1).
  assert (L2 : List.length (exchanges st2) = S (S k))
    by (rewrite (gateway_step_length _ _ _ _ G2); now rewrite L1).
  cbv zeta in G1, G2, G3, C1, C2, C3.
  rewrite L1 in G2, C2. rewrite L2 in G3, C3.
  exists likes, comments, shares, st3.
  split.
  - fold q1 q2 q3.
    rewrite (bind_Ret _ _ _ _ _ R1), (bind_Ret _ _ _ _ _ R2),
      (bind_Ret _ _ _ _ _ R3).
    reflexivity.
  - split; [|repeat split; first [apply C1 | apply C2 | apply C3]].
    destruct G1 as (E1 & _), G2 as (E2 & _), G3 as (E3 & _).
    rewrite E3, E2, E1, <- !app_assoc. reflexivity.
Qed.

End Insights.

Lemma get_post_insights_isolated_witness :
  exists st',
    get_post_insights Sample.token Sample.net_shares_down Sample.clock
                      (py "1001_1") Sample.empty_state
    = (Ret (7, 7, 0)%Z, st').
Proof.
  destruct (get_post_insights_isolated Sample.token Sample.net_shares_down
              Sample.clock (py "1001_1") Sample.empty_state eq_refl)
    as (likes & comments & shares & st' & R & _ & C1 & C2 & C3).
  exists st'. rewrite R.
  rewrite (proj2 C1 _ _ eq_refl eq_refl eq_refl).
  rewrite (proj2 C2 _ _ eq_refl eq_refl eq_refl).
  rewrite (proj1 C3 eq_refl).
  reflexivity.
Defined.

(** *** C5, C8, C9: publishing *)

Section Publish.

Variable token page : option str.
Variable net : nat -> request -> http_result.
Variable clock : nat -> str.

(** Without a token or a page id [post_to_facebook] only logs and returns
    its message. *)
Lemma post_to_facebook_no_credentials (message : str) (st : State) :
  truthy_opt token && truthy_opt page = false ->
  exists st',
    post_to_facebook token page net clock message st
    = (Ret (py "Нет токена или ID страницы!"), st')
    /\ exchanges st' = exchanges st
    /\ same_store st st'
    /\ logged st st'.
Proof.
  intros H. unfold post_to_facebook.
  replace (negb (truthy_opt token) || negb (truthy_opt page)) with true
    by (destruct (truthy_opt token), (truthy_opt page); simpl in *; congruence).
  run_gateway. eexists. split; [reflexivity|]. cbn.
  repeat split. unfold logged. cbn. eexists. split; [|reflexivity].
  destruct (clock (clock_reads st)); discriminate.
Qed.

(** A rejected publish: the error text comes back, the store is as it
    was. *)
Lemma post_to_facebook_rejected (message : str) (st : State) :
  truthy_opt token = true -> truthy_opt page = true ->
  let req := publish_request token page message in
  let res := net (List.length (exchanges st)) req in
  publish_rejected res = true ->
  exists st',
    post_to_facebook token page net clock message st
    = (Ret (publish_error res), st')
    /\ gateway_step req res st st'.
Proof.
  intros Ht Hp req res Hr. unfold post_to_facebook. rewrite Ht, Hp.
  cbn [negb orb]. subst req res. unfold gateway_step, publish_error.
  run_gateway.
  destruct (net _ _) as [msg|r]; cbn -[py str_of_int graph app] in *.
  - eexists. split; [reflexivity|]. cbn. auto.
  - apply negb_true_iff in Hr. rewrite Hr. cbn -[py str_of_int graph app].
    eexists. split; [reflexivity|]. cbn. auto.
Qed.

(** A publish answered with 200 and a body that cannot be decoded: the
    exception text comes back, the store is as it was. *)
Lemma post_to_facebook_undecodable (message : str) (st : State)
      (r : response) (msg : str) :
  truthy_opt token = true -> truthy_opt page = true ->
  let req := publish_request token page message in
  net (List.length (exchanges st)) req = Answered r ->
  status_code r = 200%Z -> json r = inl msg ->
  exists st',
    post_to_facebook token page net clock message st
    = (Ret (py "Исключение: " ++ msg), st')
    /\ gateway_step req (Answered r) st st'.
Proof.
  intros Ht Hp req Hn Hs Hj. unfold post_to_facebook. rewrite Ht, Hp.
  cbn [negb orb]. subst req. unfold gateway_step.
  run_gateway. rewrite Hn. cbn -[py str_of_int graph app].
  rewrite Hs, Hj. cbn -[py str_of_int graph app].
  eexists. split; [reflexivity|]. cbn. auto.
Qed.

(** An accepted publish: after the request and its log line, the post is
    registered and its metrics are seeded; an exception of the sheet is
    caught like one of the request. *)
Lemma post_to_facebook_accepted (message : str) (st : State)
      (r : response) (body : json_obj) :
  truthy_opt token = true -> truthy_opt page = true ->
  let req := publish_request token page message in
  net (List.length (exchanges st)) req = Answered r ->
  status_code r = 200%Z -> json r = inr body ->
  let id := default [] (j_id body) in
  exists st1,
    gateway_step req (Answered r) st st1
    /\ post_to_facebook token page net clock message st
       = publish_end clock id
           (update_post_stats clock id 0 0 0 (Some message)
              (snd (save_posted_post id st1))).
Proof.
  intros Ht Hp req Hn Hs Hj id.
  pose (st0 := set_exchanges (exchanges st ++ [(req, Answered r)]) st).
  assert (R0 : http net req st = (Ret r, st0)).
  { unfold http. rewrite Hn. reflexivity. }
  destruct (log_action clock (py "post_to_facebook")
              (py "Пост опубликован! ID: " ++ id) st0) as [o st1] eqn:R1.
  assert (o = Ret tt) by (rewrite log_action_eq in R1; congruence). subst o.
  exists st1. split.
  { rewrite log_action_eq in R1. injection R1 as <-.
    unfold gateway_step. cbn. auto. }
  unfold post_to_facebook. rewrite Ht, Hp. cbn [negb orb].
  fold req. unfold try_except.
  rewrite (bind_Ret _ _ _ _ _ R0), Hs. cbn [Z.eqb Pos.eqb].
  unfold json_of. rewrite Hj. unfold bind at 1. unfold ret at 1.
  fold id. rewrite (bind_Ret _ _ _ _ _ R1).
  assert (R2 : save_posted_post id st1
               = (Ret tt, snd (save_posted_post id st1)))
    by now rewrite save_posted_post_eq.
  rewrite (bind_Ret _ _ _ _ _ R2).
  set (st2 := snd (save_posted_post id st1)).
  unfold publish_end.
  destruct (update_post_stats clock id 0 0 0 (Some message) st2)
    as [[[]|e] st3] eqn:R3.
  - rewrite (bind_Ret _ _ _ _ _ R3). reflexivity.
  - rewrite (bind_Raise _ _ _ _ _ R3). reflexivity.
Qed.

End Publish.

(** C5.  With credentials set, [post_to_facebook]
    - for a rejected publish (the call raised, or the status is not 200)
      returns the error text and leaves the posted-post file, the metrics
      sheet and the processed-comment file as they were;
    - for an answer 200 whose body cannot be decoded does the same with the
      exception text;
    - for an answer 200 with a decoded body runs [save_posted_post id] and
      [update_post_stats id 0 0 0 message], in that order, on a store that
      the request left as it was; it returns the new post id when the
      update returns, and when the update raises (the sheet refuses the id
      or the message) it logs and returns the text of the exception, with
      the post already added to the posted-post file. *)
Theorem post_to_facebook_failure_keeps_store
        (token page : option str) (net : nat -> request -> http_result)
        (clock : nat -> str) (message : str) (st : State) :
  truthy_opt token = true -> truthy_opt page = true ->
  let req := publish_request token page message in
  let res := net (List.length (exchanges st)) req in
  let run := post_to_facebook token page net clock message st in
  (publish_rejected res = true ->
   fst run = Ret (publish_error res) /\ same_store st (snd run))
  /\ (forall r msg,
        res = Answered r -> status_code r = 200%Z -> json r = inl msg ->
        fst run = Ret (py "Исключение: " ++ msg) /\ same_store st (snd run))
  /\ (forall r body,
        res = Answered r -> status_code r = 200%Z -> json r = inr body ->
        let id := default [] (j_id body) in
        exists st1,
          same_store st st1
          /\ run = publish_end clock id
                     (update_post_stats clock id 0 0 0 (Some message)
                        (snd (save_posted_post id st1)))).
Proof.
  intros Ht Hp req res run. repeat apply conj.
  - intros Hr.
    destruct (post_to_facebook_rejected token page net clock message st
                Ht Hp Hr) as (st' & R & G).
    subst run. rewrite R. split; [reflexivity|].
    unfold same_store. cbn. destruct G as (_ & ? & ? & ? & _). auto.
  - intros r msg Hn Hs Hj.
    destruct (post_to_facebook_undecodable token page net clock message st
                r msg Ht Hp Hn Hs Hj) as (st' & R & G).
    subst run. rewrite R. split; [reflexivity|].
    unfold same_store. cbn. destruct G as (_ & ? & ? & ? & _). auto.
  - intros r body Hn Hs Hj id.
    destruct (post_to_facebook_accepted token page net clock message st
                r body Ht Hp Hn Hs Hj) as (st1 & G & R).
    exists st1. split; [|exact R].
    unfold same_store. destruct G as (_ & ? & ? & ? & _). auto.
Qed.

Lemma post_to_facebook_failure_keeps_store_witness :
  let run := post_to_facebook Sample.token Sample.page Sample.net_down
                              Sample.clock (py "hello") Sample.one_post in
  fst run = Ret (py "Исключение: connection refused")
  /\ same_store Sample.one_post (snd run).
Proof.
  exact (proj1 (post_to_facebook_failure_keeps_store
                  Sample.token Sample.page Sample.net_down Sample.clock
                  (py "hello") Sample.one_post eq_refl eq_refl) eq_refl).
Defined.

(** A publish that the gateway accepts and the sheet refuses: the message
    "a", U+0001, "b" is published as post "1001_9"; the id is added to
    the posted-post file, the sheet gets no record, and the value is the
    text of the exception. *)
Example post_to_facebook_refused_message :
  let run := post_to_facebook Sample.token Sample.page net_accepting
                              Sample.clock (py "a" ++ [1%N] ++ py "b")
                              Sample.one_post in
  fst run = Ret (py "Исключение: a" ++ [1%N]
                 ++ py "b cannot be used in worksheets.")
  /\ posted_posts (snd run) = [py "1001_1"; py "1001_9"]
  /\ stats_sheet (snd run) = [].
Proof. vm_compute. repeat split. Qed.

(** C8 (as amended).  When the access token is absent,
    - [post_to_facebook] returns the text "Нет токена или ID страницы!",
      writes it to the log and sends no request;
    - [get_post_insights] returns (0, 0, 0) and changes nothing: no
      request, no log line, no message;
    - [get_post_comments], [like_comment] and [reply_to_comment] have no
      check of the token: each sends its request and returns. *)
Theorem missing_token_calls
        (token page : option str) (net : nat -> request -> http_result)
        (clock : nat -> str) (st : State)
        (message post_id reply : str) (limit : Z) (cid : option str) :
  truthy_opt token = false ->
  (exists st',
      post_to_facebook token page net clock message st
      = (Ret (py "Нет токена или ID страницы!"), st')
      /\ exchanges st' = exchanges st /\ logged st st')
  /\ get_post_insights token net clock post_id st = (Ret (0, 0, 0)%Z, st)
  /\ (exists cs st',
        get_post_comments token net clock post_id limit st = (Ret cs, st')
        /\ List.length (exchanges st') = S (List.length (exchanges st)))
  /\ (exists st',
        like_comment token net clock cid st = (Ret tt, st')
        /\ List.length (exchanges st') = S (List.length (exchanges st)))
  /\ (exists st',
        reply_to_comment token net clock cid reply st = (Ret tt, st')
        /\ List.length (exchanges st') = S (List.length (exchanges st))).
Proof.
  intros Ht. repeat apply conj.
  - destruct (post_to_facebook_no_credentials token page net clock message st)
      as (st' & R & E & _ & L); [now rewrite Ht|].
    now exists st'.
  - unfold get_post_insights. now rewrite Ht.
  - destruct (get_post_comments_step token net clock post_id limit st)
      as (st' & R & G).
    eexists _, st'. split; [exact R|].
    apply (gateway_step_length _ _ _ _ G).
  - destruct (like_comment_step token net clock cid st) as (st' & R & G).
    exists st'. split; [exact R|]. apply (gateway_step_length _ _ _ _ G).
  - destruct (reply_to_comment_step token net clock cid reply st)
      as (st' & R & G).
    exists st'. split; [exact R|]. apply (gateway_step_length _ _ _ _ G).
Qed.

Lemma missing_token_calls_witness :
  get_post_insights None Sample.net_down Sample.clock (py "1001_1")
                    Sample.empty_state
  = (Ret (0, 0, 0)%Z, Sample.empty_state)
  /\ exists st',
      like_comment None Sample.net_down Sample.clock (Some (py "c1"))
                   Sample.empty_state = (Ret tt, st')
      /\ List.length (exchanges st') = 1.
Proof.
  pose proof (missing_token_calls None Sample.page Sample.net_down
                Sample.clock Sample.empty_state (py "hello") (py "1001_1")
                (py "thanks") 50 (Some (py "c1")) eq_refl)
    as (_ & H2 & _ & H4 & _).
  split; [exact H2 | exact H4].
Defined.

(** C8 (as stated) fails for [get_post_insights]: without a token it
    returns (0, 0, 0) and reports no error at all, neither in the log nor
    on the console. *)
Lemma get_post_insights_missing_token_silent :
  ~ fails_fast_with_error
      (get_post_insights None Sample.net_down Sample.clock (py "1001_1"))
      Sample.empty_state.
Proof.
  intros (a & st' & R & _ & [(line & Hl & E) | Hout]).
  - injection R as _ <-. discriminate E.
  - injection R as _ <-. now apply Hout.
Qed.

(** C8 (as stated) fails for [like_comment] too: without a token it sends
    its request all the same. *)
Lemma like_comment_missing_token_sends :
  ~ fails_fast_with_error
      (like_comment None Sample.net_down Sample.clock (Some (py "c1")))
      Sample.empty_state.
Proof.
  intros (a & st' & R & E & _).
  destruct (like_comment_step None Sample.net_down Sample.clock
              (Some (py "c1")) Sample.empty_state) as (st2 & R2 & G).
  rewrite R2 in R. injection R as _ <-.
  apply gateway_step_length in G. rewrite E in G. simpl in G. lia.
Qed.

(** *** C9: the console's test of the publish result *)

Lemma contains_char_In (c : char) (s : str) :
  contains_char c s = true <-> In c s.
Proof.
  unfold contains_char. rewrite existsb_exists. split.
  - intros (x & Hx & E). apply N.eqb_eq in E. now subst.
  - intros H. exists c. split; [assumption | apply N.eqb_refl].
Qed.

Lemma looks_published_iff (isdigit : char -> bool) (result : str) :
  looks_published isdigit result = true
  <-> has_char underscore result \/ all_digits isdigit result.
Proof.
  unfold looks_published, str_isdigit, has_char, all_digits.
  rewrite orb_true_iff, andb_true_iff, contains_char_In, forallb_forall.
  destruct result; simpl; intuition congruence.
Qed.

Lemma post_to_facebook_returns
      (token page : option str) (net : nat -> request -> http_result)
      (clock : nat -> str) (message : str) (st : State) :
  exists result st',
    post_to_facebook token page net clock message st = (Ret result, st')
    /\ stdout st' = stdout st.
Proof.
  destruct (truthy_opt token && truthy_opt page) eqn:C.
  - apply andb_prop in C as [Ht Hp].
    pose (res := net (List.length (exchanges st))
                     (publish_request token page message)).
    destruct (publish_rejected res) eqn:Hr.
    + destruct (post_to_facebook_rejected token page net clock message st
                  Ht Hp Hr) as (st' & R & G).
      eexists _, st'. split; [exact R | apply G].
    + destruct res as [msg|r] eqn:Eres; [discriminate|].
      simpl in Hr. apply negb_false_iff, Z.eqb_eq in Hr.
      destruct (json r) as [msg|body] eqn:Ej.
      * destruct (post_to_facebook_undecodable token page net clock message
                    st r msg Ht Hp Eres Hr Ej) as (st' & R & G).
        eexists _, st'. split; [exact R | apply G].
      * destruct (post_to_facebook_accepted token page net clock message
                    st r body Ht Hp Eres Hr Ej) as (st1 & G & R).
        rewrite R.
        destruct (update_post_stats_shape clock (default [] (j_id body))
                    0 0 0 (Some message)
                    (snd (save_posted_post (default [] (j_id body)) st1)))
          as (o & ws' & ->).
        unfold publish_end. rewrite save_posted_post_eq.
        destruct o as [[]|e]; cbn -[py app]; eexists _, _;
          (split; [reflexivity|]); cbn;
          destruct (existsb _ _); cbn; apply G.
  - destruct (post_to_facebook_no_credentials token page net clock message st C)
      as (st' & R & _ & _ & (line & _ & L)).
    eexists _, st'. split; [exact R|].
    revert R. unfold post_to_facebook.
    replace (negb (truthy_opt token) || negb (truthy_opt page)) with true
      by (destruct (truthy_opt token), (truthy_opt page); simpl in *; congruence).
    run_gateway. now intros [= <-].
Qed.

(** C9.  After a publish the console prints one line: the success line
    when the value of [post_to_facebook] contains an underscore or is a
    non-empty string of digits, the failure line otherwise.  So a rejected
    publish whose error text contains an underscore is announced as
    published, while the store has not changed. *)
Theorem console_publish_test
        (isdigit : char -> bool) (token page : option str)
        (net : nat -> request -> http_result) (clock : nat -> str)
        (post_text : str) (st : State) :
  (exists result st1,
      post_to_facebook token page net clock post_text st = (Ret result, st1)
      /\ fst (console_publish token page net clock isdigit post_text st)
         = Ret tt
      /\ (has_char underscore result \/ all_digits isdigit result ->
          stdout (snd (console_publish token page net clock isdigit post_text st))
          = stdout st ++ [success_line result])
      /\ (~ (has_char underscore result \/ all_digits isdigit result) ->
          stdout (snd (console_publish token page net clock isdigit post_text st))
          = stdout st ++ [failure_line result]))
  /\ (truthy_opt token = true -> truthy_opt page = true ->
      let res := net (List.length (exchanges st))
                     (publish_request token page post_text) in
      publish_rejected res = true ->
      has_char underscore (publish_error res) ->
      let st' := snd (console_publish token page net clock isdigit post_text st) in
      stdout st' = stdout st ++ [success_line (publish_error res)]
      /\ same_store st st').
Proof.
  split.
  - destruct (post_to_facebook_returns token page net clock post_text st)
      as (result & st1 & R & Hout).
    exists result, st1. split; [exact R|].
    unfold console_publish. rewrite (bind_Ret _ _ _ _ _ R).
    pose proof (looks_published_iff isdigit result) as L.
    unfold success_line, failure_line.
    destruct (looks_published isdigit result); cbn; rewrite Hout.
    + split; [reflexivity|]. split; [intros _; reflexivity|].
      intros N. exfalso. apply N, L. reflexivity.
    + split; [reflexivity|]. split; [|intros _; reflexivity].
      intros Y. apply L in Y. discriminate.
  - intros Ht Hp res Hr Hu st'.
    destruct (post_to_facebook_rejected token page net clock post_text st
                Ht Hp Hr) as (st1 & R & G).
    subst st'. unfold console_publish. rewrite (bind_Ret _ _ _ _ _ R).
    fold res.
    replace (looks_published isdigit (publish_error res)) with true
      by (symmetry; apply looks_published_iff; now left).
    cbn. destruct G as (_ & ? & ? & ? & Hout). rewrite Hout.
    unfold same_store, success_line. auto.
Qed.

Lemma console_publish_test_witness :
  let st' := snd (console_publish Sample.token Sample.page
                    Sample.net_rejecting Sample.clock (fun _ => false)
                    (py "hello") Sample.one_post) in
  stdout st'
  = [py "Новый пост опубликован: Ошибка постинга: 400 invalid_token"]
  /\ same_store Sample.one_post st'.
Proof.
  refine (proj2 (console_publish_test (fun _ => false) Sample.token
                   Sample.page Sample.net_rejecting Sample.clock
                   (py "hello") Sample.one_post) eq_refl eq_refl eq_refl _).
  apply contains_char_In. vm_compute. reflexivity.
Defined.

(** The same run seen from [console_loop]: the line "/post hello" is
    answered with the success line. *)
Example console_turn_rejected_publish :
  stdout (snd (console_turn Sample.token Sample.page Sample.net_rejecting
                 Sample.clock (fun _ => false) (fun s => s)
                 (py "/post hello" ++ [LF]) Sample.one_post))
  = [py "Новый пост опубликован: Ошибка постинга: 400 invalid_token"].
Proof. vm_compute. reflexivity. Qed.

(** *** The requests of the monitoring loop *)

Lemma graph_url_inj (a b suffix : str) :
  graph ++ a ++ suffix = graph ++ b ++ suffix -> a = b.
Proof.
  intros H. apply app_inv_head in H. now apply app_inv_tail in H.
Qed.

Lemma likes_not_comments (a b : str) :
  graph ++ a ++ py "/comments" <> graph ++ b ++ py "/likes".
Proof.
  intros H. apply app_inv_head in H.
  apply (f_equal (@rev _)) in H. rewrite !rev_app_distr in H.
  vm_compute in H. discriminate H.
Qed.

Section Requests.

Variable token : option str.

Lemma is_like_of_like_request (x id : str) :
  is_like_of x (like_request token (Some id)) = str_eqb id x.
Proof.
  unfold is_like_of, like_request. cbn [meth url fmt_opt].
  destruct (str_eqb id x) eqn:E.
  - apply str_eqb_eq in E. subst. apply str_eqb_refl.
  - apply str_eqb_neq. apply str_eqb_neq in E.
    intros H. apply E. eapply graph_url_inj, H.
Qed.

Lemma is_like_of_reply_request (x : str) (cid : option str) (reply : str) :
  is_like_of x (reply_request token cid reply) = false.
Proof.
  unfold is_like_of, reply_request. cbn [meth url].
  apply str_eqb_neq, likes_not_comments.
Qed.

Lemma is_reply_to_reply_request (x id reply : str) :
  is_reply_to x (reply_request token (Some id) reply) = str_eqb id x.
Proof.
  unfold is_reply_to, reply_request. cbn [meth url fmt_opt].
  destruct (str_eqb id x) eqn:E.
  - apply str_eqb_eq in E. subst. apply str_eqb_refl.
  - apply str_eqb_neq. apply str_eqb_neq in E.
    intros H. apply E. eapply graph_url_inj, H.
Qed.

Lemma is_reply_to_like_request (x : str) (cid : option str) :
  is_reply_to x (like_request token cid) = false.
Proof.
  unfold is_reply_to, like_request. cbn [meth url].
  apply str_eqb_neq. intros H. symmetry in H.
  exact (likes_not_comments _ _ H).
Qed.

Lemma is_comments_fetch_comments_request (post_id : str) (limit : Z) :
  is_comments_fetch (comments_request token post_id limit) = true.
Proof. reflexivity. Qed.

Lemma is_comments_fetch_likes_request (post_id : str) :
  is_comments_fetch (likes_request token post_id) = false.
Proof. reflexivity. Qed.

Lemma is_comments_fetch_comments_summary_request (post_id : str) :
  is_comments_fetch (comments_summary_request token post_id) = false.
Proof. reflexivity. Qed.

Lemma is_comments_fetch_shares_request (post_id : str) :
  is_comments_fetch (shares_request token post_id) = false.
Proof. reflexivity. Qed.

End Requests.

Lemma like_calls_app (x : str) (t1 t2 : list (request * http_result)) :
  like_calls x (t1 ++ t2) = like_calls x t1 + like_calls x t2.
Proof. unfold like_calls. now rewrite filter_app, length_app. Qed.

Lemma reply_calls_app (x : str) (t1 t2 : list (request * http_result)) :
  reply_calls x (t1 ++ t2) = reply_calls x t1 + reply_calls x t2.
Proof. unfold reply_calls. now rewrite filter_app, length_app. Qed.

Lemma fetched_comments_app (t1 t2 : list (request * http_result)) :
  fetched_comments (t1 ++ t2) = fetched_comments t1 ++ fetched_comments t2.
Proof. apply flat_map_app. Qed.

Lemma occurrences_app (x : str) (c1 c2 : list comment) :
  occurrences x (c1 ++ c2) = occurrences x c1 + occurrences x c2.
Proof. unfold occurrences. now rewrite filter_app, length_app. Qed.

Lemma engaged_add (snapshot : list str) (x : str) (n m : nat) :
  engaged snapshot x (n + m) = engaged snapshot x n + engaged snapshot x m.
Proof. unfold engaged. now destruct (set_mem x snapshot). Qed.

(** *** The processed-comment file only grows *)

Lemma universal_newlines_after_line (a x : str) :
  forall b,
    universal_newlines b ((a ++ [LF]) ++ x)
    = universal_newlines b (a ++ [LF]) ++ universal_newlines false x.
Proof.
  induction a as [|c a IH]; intros b.
  - destruct b; reflexivity.
  - simpl. destruct (c =? CR)%N.
    + simpl. f_equal. apply IH.
    + destruct ((c =? LF)%N && b); [apply IH|].
      simpl. f_equal. apply IH.
Qed.

Lemma file_lines_grow (t x : str) :
  newline_terminated (Some t) = true ->
  file_lines (Some (t ++ x))
  = file_lines (Some t) ++ readlines (universal_newlines false x).
Proof.
  intros H. destruct (newline_terminated_inv _ H) as [-> | [a ->]].
  - reflexivity.
  - simpl. rewrite universal_newlines_after_line.
    destruct (universal_newlines_terminated a false []) as [y Hy];
      [intros; discriminate|].
    simpl in Hy. rewrite Hy. apply readlines_app.
Qed.

Lemma processed_set_same_file (st st' : State) :
  processed_comments_file st' = processed_comments_file st ->
  processed_set st' = processed_set st.
Proof. intros H. rewrite !processed_set_eq. now rewrite H. Qed.

Lemma processed_grows_refl (st : State) : processed_grows st st.
Proof. intros H. auto. Qed.

Lemma processed_grows_trans (st1 st2 st3 : State) :
  processed_grows st1 st2 -> processed_grows st2 st3 -> processed_grows st1 st3.
Proof.
  intros H12 H23 H1. destruct (H12 H1) as [H2 M12].
  destruct (H23 H2) as [H3 M23]. auto.
Qed.

Lemma processed_grows_same_file (st st' : State) :
  processed_comments_file st' = processed_comments_file st ->
  processed_grows st st'.
Proof.
  intros H T. rewrite (processed_set_same_file _ _ H), H. auto.
Qed.

(** Appending a string that ends with "\n" to a well-ended file keeps the
    file well-ended and the set at least as large. *)
Lemma processed_grows_append (st st' : State) (s : str) :
  processed_comments_file st'
  = file_append (processed_comments_file st) (s ++ [LF]) ->
  processed_grows st st'.
Proof.
  intros H T. split.
  - rewrite H. apply newline_terminated_append.
  - intros x. rewrite !processed_set_eq, H.
    destruct (processed_comments_file st) as [t|]; simpl file_append.
    + rewrite (file_lines_grow _ _ T), fold_left_app.
      intros Hx. apply fold_comment_lines_In. now left.
    + intros [].
Qed.

Lemma processed_set_after_append (st st' : State) (c : str) :
  processed_comments_file st'
  = file_append (processed_comments_file st) (c ++ [LF]) ->
  line_id c = true ->
  newline_terminated (processed_comments_file st) = true ->
  In c (processed_set st').
Proof.
  intros H Hc T.
  assert (E : processed_set st'
              = processed_set (snd (save_processed_comment (Some c) st))).
  { apply processed_set_same_file. rewrite save_processed_comment_Some.
    exact H. }
  rewrite E. apply (processed_set_after_save c st Hc T). now right.
Qed.

(** *** One comment, one list of comments *)

Lemma occurrences_one (x : str) (c : comment) :
  occurrences x [c] = if has_id x c then 1 else 0.
Proof. unfold occurrences. simpl. now destruct (has_id x c). Qed.

Lemma engaged_from_list_nil (snapshot : list str) (st : State) :
  engaged_from_list snapshot [] st st.
Proof.
  split; [reflexivity|]. split; [apply processed_grows_refl|].
  exists []. rewrite app_nil_r. split; [reflexivity|].
  split; [reflexivity|]. intros x. unfold engaged.
  destruct (set_mem x snapshot); simpl; repeat split; auto.
  all: intros; cbn in *; lia.
Qed.

Lemma engaged_from_list_app (snapshot : list str) (c1 c2 : list comment)
      (st st1 st2 : State) :
  engaged_from_list snapshot c1 st st1 ->
  engaged_from_list snapshot c2 st1 st2 ->
  engaged_from_list snapshot (c1 ++ c2) st st2.
Proof.
  intros (P1 & G1 & t1 & E1 & F1 & C1) (P2 & G2 & t2 & E2 & F2 & C2).
  split; [congruence|].
  split; [eapply processed_grows_trans; eassumption|].
  exists (t1 ++ t2). split; [rewrite E2, E1; symmetry; apply app_assoc|].
  split; [rewrite fetched_comments_app, F1, F2; reflexivity|].
  intros x. destruct (C1 x) as (L1 & R1 & I1), (C2 x) as (L2 & R2 & I2).
  rewrite like_calls_app, reply_calls_app, occurrences_app, engaged_add.
  split; [congruence|]. split; [congruence|].
  intros Hx T Hm Ho.
  destruct (G1 T) as [T1 M1]. destruct (G2 T1) as [T2 M2].
  destruct (occurrences x c1) eqn:O1.
  - apply I2; auto.
  - apply M2, I1; auto. lia.
Qed.

Section Loop.

Variable token : option str.
Variable net : nat -> request -> http_result.
Variable clock : nat -> str.

(** An unprocessed comment: the like and the reply both return, and the
    marking step runs on the state they leave. *)
Lemma monitor_comment_run (snapshot : list str) (cid : option str)
      (ctext cauthor : str) (st : State) :
  not_in cid snapshot = true ->
  exists st1 st2,
    like_comment token net clock cid st = (Ret tt, st1)
    /\ gateway_step (like_request token cid)
                    (net (List.length (exchanges st)) (like_request token cid))
                    st st1
    /\ reply_to_comment token net clock cid (REPLY_TEMPLATE cauthor ctext) st1
       = (Ret tt, st2)
    /\ gateway_step (reply_request token cid (REPLY_TEMPLATE cauthor ctext))
                    (net (List.length (exchanges st1))
                         (reply_request token cid (REPLY_TEMPLATE cauthor ctext)))
                    st1 st2
    /\ monitor_comment token net clock snapshot (cid, ctext, cauthor) st
       = save_processed_comment cid st2.
Proof.
  intros Hn.
  destruct (like_comment_step token net clock cid st) as (st1 & R1 & G1).
  destruct (reply_to_comment_step token net clock cid
              (REPLY_TEMPLATE cauthor ctext) st1) as (st2 & R2 & G2).
  exists st1, st2. repeat (split; [assumption|]).
  unfold monitor_comment. rewrite Hn.
  rewrite (bind_Ret _ _ _ _ _ R1), (bind_Ret _ _ _ _ _ R2). reflexivity.
Qed.

Lemma save_processed_comment_None (st : State) :
  exists e st', save_processed_comment None st = (Raise e, st')
    /\ processed_comments_file st'
       = file_append (processed_comments_file st) [].
Proof. eexists _, _. split; reflexivity. Qed.

(** A comment whose turn of the inner loop returned. *)
Lemma monitor_comment_Ret (snapshot : list str) (c : comment) (st st' : State) :
  monitor_comment token net clock snapshot c st = (Ret tt, st') ->
  engaged_from_list snapshot [c] st st'.
Proof.
  destruct c as [[cid ctext] cauthor]. intros H.
  destruct (not_in cid snapshot) eqn:Hn.
  - destruct (monitor_comment_run snapshot cid ctext cauthor st Hn)
      as (st1 & st2 & _ & G1 & _ & G2 & E).
    rewrite E in H. destruct cid as [id|].
    2:{ destruct (save_processed_comment_None st2) as (e & s & R & _).
        rewrite R in H. discriminate. }
    rewrite save_processed_comment_Some in H. injection H as <-.
    destruct G1 as (X1 & P1 & Q1 & _), G2 as (X2 & P2 & Q2 & _).
    simpl in Hn. apply negb_true_iff in Hn.
    assert (F : processed_comments_file
                  (set_processed_comments_file
                     (file_append (processed_comments_file st2) (id ++ [LF]))
                     st2)
                = file_append (processed_comments_file st) (id ++ [LF])).
    { cbn. now rewrite P2, P1. }
    split; [cbn; congruence|].
    split; [eapply processed_grows_append; exact F|].
    eexists. split; [cbn; rewrite X2, X1, <- app_assoc; reflexivity|].
    cbn [app]. split; [reflexivity|].
    intros x. rewrite occurrences_one. unfold has_id. cbn [fst].
    unfold like_calls, reply_calls. cbn [filter fst].
    rewrite is_like_of_like_request, is_like_of_reply_request,
      is_reply_to_like_request, is_reply_to_reply_request.
    unfold engaged. destruct (str_eqb id x) eqn:Ex.
    + apply str_eqb_eq in Ex. subst x. rewrite Hn.
      repeat split; auto. intros Hx T _ _.
      eapply processed_set_after_append; eassumption.
    + destruct (set_mem x snapshot); repeat split; auto; intros; lia.
  - unfold monitor_comment in H. rewrite Hn in H. injection H as <-.
    split; [reflexivity|]. split; [apply processed_grows_refl|].
    exists []. rewrite app_nil_r. split; [reflexivity|].
    split; [reflexivity|].
    intros x. rewrite occurrences_one. unfold has_id. cbn [fst].
    unfold engaged. destruct cid as [id|]; [|discriminate].
    simpl in Hn. apply negb_false_iff in Hn.
    destruct (str_eqb id x) eqn:Ex.
    + apply str_eqb_eq in Ex. subst x. rewrite Hn.
      repeat split; auto. intros; discriminate.
    + destruct (set_mem x snapshot); repeat split; auto; intros; lia.
Qed.

(** The inner loop over a fetched list, when it returned. *)
Lemma monitor_comments_Ret (snapshot : list str) (cl : list comment) :
  forall st st',
    for_each cl (monitor_comment token net clock snapshot) st = (Ret tt, st') ->
    engaged_from_list snapshot cl st st'.
Proof.
  induction cl as [|c cl IH]; intros st st' H.
  - injection H as <-. apply engaged_from_list_nil.
  - simpl in H. apply bind_Ret_inv in H as ([] & st1 & H1 & H2).
    change (c :: cl) with ([c] ++ cl).
    eapply engaged_from_list_app.
    + apply monitor_comment_Ret. exact H1.
    + apply IH. exact H2.
Qed.

End Loop.

(** *** C2: marking follows the like and the reply, whatever they did *)



(** *** One post, one cycle *)

Lemma engaged_as_fetched_refl (snapshot : list str) (st : State) :
  engaged_as_fetched snapshot st st.
Proof.
  split; [reflexivity|]. split; [apply processed_grows_refl|].
  exists []. rewrite app_nil_r. split; [reflexivity|].
  intros x. unfold engaged. cbn.
  destruct (set_mem x snapshot); repeat split; auto; intros; lia.
Qed.

Lemma engaged_as_fetched_trans (snapshot : list str) (st st1 st2 : State) :
  engaged_as_fetched snapshot st st1 ->
  engaged_as_fetched snapshot st1 st2 ->
  engaged_as_fetched snapshot st st2.
Proof.
  intros (P1 & G1 & t1 & E1 & C1) (P2 & G2 & t2 & E2 & C2).
  split; [congruence|].
  split; [eapply processed_grows_trans; eassumption|].
  exists (t1 ++ t2). split; [rewrite E2, E1; symmetry; apply app_assoc|].
  intros x. destruct (C1 x) as (L1 & R1 & I1), (C2 x) as (L2 & R2 & I2).
  rewrite like_calls_app, reply_calls_app, fetched_comments_app,
    occurrences_app, engaged_add.
  split; [congruence|]. split; [congruence|].
  intros Hx T Hm Ho.
  destruct (G1 T) as [T1 M1]. destruct (G2 T1) as [T2 M2].
  destruct (occurrences x (fetched_comments t1)) eqn:O1.
  - apply I2; auto.
  - apply M2, I1; auto. lia.
Qed.

Section Cycle.

Variable token : option str.
Variable net : nat -> request -> http_result.
Variable clock : nat -> str.

(** [get_post_insights] returns, leaves the data files alone and sends
    neither a like, nor a reply, nor a comment fetch. *)
Lemma get_post_insights_quiet (post_id : str) (st : State) :
  exists v st' tr,
    get_post_insights token net clock post_id st = (Ret v, st')
    /\ exchanges st' = exchanges st ++ tr
    /\ processed_comments_file st' = processed_comments_file st
    /\ posted_posts_file st' = posted_posts_file st
    /\ fetched_comments tr = []
    /\ forall x, like_calls x tr = 0 /\ reply_calls x tr = 0.
Proof.
  unfold get_post_insights. destruct (truthy_opt token); cbn [negb].
  - destruct (insight_query_step net clock (py "likes") post_id
                (likes_request token post_id) read_total_count st)
      as (v1 & st1 & R1 & (X1 & P1 & Q1 & _) & _).
    destruct (insight_query_step net clock (py "comments") post_id
                (comments_summary_request token post_id) read_total_count st1)
      as (v2 & st2 & R2 & (X2 & P2 & Q2 & _) & _).
    destruct (insight_query_step net clock (py "shares") post_id
                (shares_request token post_id) read_shares_count st2)
      as (v3 & st3 & R3 & (X3 & P3 & Q3 & _) & _).
    rewrite (bind_Ret _ _ _ _ _ R1), (bind_Ret _ _ _ _ _ R2),
      (bind_Ret _ _ _ _ _ R3).
    eexists _, st3, _. split; [reflexivity|].
    split; [rewrite X3, X2, X1, <- !app_assoc; reflexivity|].
    cbn [app]. split; [congruence|]. split; [congruence|].
    split; [reflexivity|]. intros x. split; reflexivity.
  - exists (0, 0, 0)%Z, st, []. rewrite app_nil_r.
    do 5 (split; [reflexivity|]). intros x. split; reflexivity.
Qed.

(** [update_post_stats], whether it returns or raises, sends nothing and
    leaves the data files alone. *)
Lemma update_post_stats_frame (post_id : str) (likes comments shares : Z)
      (content : option str) (st : State) :
  exists o st',
    update_post_stats clock post_id likes comments shares content st
    = (o, st')
    /\ exchanges st' = exchanges st
    /\ processed_comments_file st' = processed_comments_file st
    /\ posted_posts_file st' = posted_posts_file st.
Proof.
  destruct (update_post_stats_shape clock post_id likes comments shares
              content st) as (o & ws' & ->).
  eexists _, _. split; [reflexivity|]. cbn. auto.
Qed.

(** A turn of the outer loop that returned. *)
Lemma monitor_post_Ret (snapshot : list str) (post_id : str) (st st' : State) :
  monitor_post token net clock snapshot post_id st = (Ret tt, st') ->
  engaged_as_fetched snapshot st st'.
Proof.
  unfold monitor_post. intros H.
  destruct (get_post_insights_quiet post_id st)
    as ([[l c] s] & st1 & tr1 & R1 & X1 & P1 & Q1 & F1 & C1).
  rewrite (bind_Ret _ _ _ _ _ R1) in H. cbv beta iota in H.
  destruct (update_post_stats_frame post_id l c s None st1)
    as ([[]|e] & st2 & R2 & X2 & P2 & Q2);
    [|rewrite (bind_Raise _ _ _ _ _ R2) in H; discriminate].
  rewrite (bind_Ret _ _ _ _ _ R2) in H.
  destruct (get_post_comments_step token net clock post_id 50 st2)
    as (st3 & R3 & (X3 & P3 & Q3 & _)).
  rewrite (bind_Ret _ _ _ _ _ R3) in H.
  set (res := net (List.length (exchanges st2))
                  (comments_request token post_id 50)) in *.
  clearbody res.
  apply monitor_comments_Ret in H.
  destruct H as (Q4 & G4 & tr4 & X4 & F4 & C4).
  assert (P : processed_comments_file st3 = processed_comments_file st)
    by congruence.
  split; [congruence|].
  split.
  { eapply processed_grows_trans; [|exact G4].
    now apply processed_grows_same_file. }
  eexists. split.
  { rewrite X4, X3, X2, X1, <- !app_assoc. reflexivity. }
  intros x.
  rewrite !like_calls_app, !reply_calls_app, !fetched_comments_app, F1, F4.
  destruct (C1 x) as [-> ->]. destruct (C4 x) as (L4 & R4 & I4).
  unfold fetched_comments at 1 2 3. cbn [flat_map fst snd].
  rewrite is_comments_fetch_comments_request, !app_nil_r. cbn [app].
  split; [exact L4|]. split; [exact R4|].
  intros Hx T. apply I4; [exact Hx|]. now rewrite P.
Qed.

(** The outer loop, when it returned. *)
Lemma monitor_posts_Ret (snapshot : list str) (post_ids : list str) :
  forall st st',
    for_each post_ids (monitor_post token net clock snapshot) st
    = (Ret tt, st') ->
    engaged_as_fetched snapshot st st'.
Proof.
  induction post_ids as [|p ps IH]; intros st st' H.
  - injection H as <-. apply engaged_as_fetched_refl.
  - simpl in H. apply bind_Ret_inv in H as ([] & st1 & H1 & H2).
    eapply engaged_as_fetched_trans.
    + apply monitor_post_Ret in H1. exact H1.
    + apply IH. exact H2.
Qed.

(** A cycle that returned worked with the set the processed-comment file
    gave at its start. *)
Lemma monitor_cycle_Ret (st st' : State) :
  monitor_cycle token net clock st = (Ret tt, st') ->
  engaged_as_fetched (processed_set st) st st'.
Proof.
  unfold monitor_cycle. intros H.
  apply bind_Ret_inv in H as (posts & s1 & H1 & H).
  injection H1 as <- <-.
  apply bind_Ret_inv in H as (ids & s2 & H2 & H).
  injection H2 as <- <-.
  apply monitor_posts_Ret in H. exact H.
Qed.

End Cycle.

(** *** C10 and C1: engagement within a cycle and across cycles *)

(** Cycles that start with the id in the set of a well-ended file send
    nothing for it and keep it in the set. *)
Lemma monitor_posts_loop_quiet
      (token : option str) (net : nat -> request -> http_result)
      (clock : nat -> str) (x : str) (n : nat) :
  forall st st',
    newline_terminated (processed_comments_file st) = true ->
    In x (processed_set st) ->
    monitor_posts_loop token net clock n st = (Ret tt, st') ->
    exists tr,
      exchanges st' = exchanges st ++ tr
      /\ like_calls x tr = 0 /\ reply_calls x tr = 0
      /\ newline_terminated (processed_comments_file st') = true
      /\ In x (processed_set st').
Proof.
  induction n as [|n IH]; intros st st' T Hx H.
  - injection H as <-. exists []. rewrite app_nil_r. auto.
  - simpl in H. apply bind_Ret_inv in H as ([] & st1 & H1 & H2).
    apply monitor_cycle_Ret in H1.
    destruct H1 as (_ & G & t1 & E1 & C1).
    destruct (G T) as [T1 M1].
    destruct (IH st1 st' T1 (M1 x Hx) H2) as (t2 & E2 & L2 & R2 & T2 & I2).
    exists (t1 ++ t2). split; [rewrite E2, E1; symmetry; apply app_assoc|].
    destruct (C1 x) as (L1 & R1 & _).
    apply set_mem_In in Hx. unfold engaged in L1, R1. rewrite Hx in L1, R1.
    rewrite like_calls_app, reply_calls_app, L1, L2, R1, R2. auto.
Qed.

(** C10.  In a cycle that returns, a comment id that is not in the
    processed set at the start of the cycle gets one like and one reply for
    each of its occurrences among the comments fetched in the cycle, in one
    list or in the lists of several posts: twice when it occurs twice.
    The snapshot is not refreshed, although the id is in the file after its
    first occurrence. *)
Theorem monitor_cycle_engages_every_occurrence
        (token : option str) (net : nat -> request -> http_result)
        (clock : nat -> str) (st st' : State) (id : str) :
  monitor_cycle token net clock st = (Ret tt, st') ->
  isCommentProcessed id st = false ->
  let tr := new_exchanges st st' in
  like_calls id tr = occurrences id (fetched_comments tr)
  /\ reply_calls id tr = occurrences id (fetched_comments tr)
  /\ (line_id id = true ->
      newline_terminated (processed_comments_file st) = true ->
      1 <= occurrences id (fetched_comments tr) ->
      isCommentProcessed id st' = true).
Proof.
  intros H Hid tr. apply monitor_cycle_Ret in H.
  destruct H as (_ & _ & t & E & C).
  subst tr. rewrite (new_exchanges_app _ _ _ E).
  destruct (C id) as (L & R & I).
  unfold isCommentProcessed in Hid. unfold engaged in L, R.
  rewrite Hid in L, R.
  split; [exact L|]. split; [exact R|].
  intros Hl T Ho. apply isCommentProcessed_In. now apply I.
Qed.

Lemma monitor_cycle_engages_every_occurrence_witness :
  let st' := snd (monitor_cycle Sample.token (Sample.net_c1 2) Sample.clock
                                Sample.one_post) in
  like_calls (py "c1") (new_exchanges Sample.one_post st') = 2
  /\ reply_calls (py "c1") (new_exchanges Sample.one_post st') = 2.
Proof.
  intros st'.
  assert (H : monitor_cycle Sample.token (Sample.net_c1 2) Sample.clock
                            Sample.one_post = (Ret tt, st'))
    by (vm_compute; reflexivity).
  destruct (monitor_cycle_engages_every_occurrence
              Sample.token (Sample.net_c1 2) Sample.clock
              Sample.one_post st' (py "c1") H eq_refl) as (L & R & _).
  rewrite L, R. vm_compute. split; reflexivity.
Defined.

(** The same with the id in the lists of two posts, once in each. *)
Example monitor_cycle_two_posts :
  let st' := snd (monitor_cycle Sample.token (Sample.net_c1 1) Sample.clock
                                Sample.two_posts) in
  like_calls (py "c1") (new_exchanges Sample.two_posts st') = 2
  /\ reply_calls (py "c1") (new_exchanges Sample.two_posts st') = 2.
Proof. vm_compute. split; reflexivity. Qed.

(** C1 (as amended).  Take a comment id that a line of the file gives
    back and a processed-comment file that is absent, empty or ends with a
    line break.  If the id is not in the processed set at the start of a
    cycle and is fetched exactly once in that cycle, then every run of one
    or more cycles from there that returns has sent exactly one like and
    one reply for the id, however often later cycles fetch it, and ends
    with the id in the processed set.  And from any state whose file is
    well-ended and whose processed set holds the id, no run of cycles that
    returns sends a like or a reply for it. *)
Theorem monitor_engages_once
        (token : option str) (net : nat -> request -> http_result)
        (clock : nat -> str) (st : State) (id : str) :
  line_id id = true ->
  newline_terminated (processed_comments_file st) = true ->
  isCommentProcessed id st = false ->
  occurrences id
    (fetched_comments
       (new_exchanges st (snd (monitor_cycle token net clock st)))) = 1 ->
  engages_once token net clock st id
  /\ (forall n st',
        monitor_posts_loop token net clock (S n) st = (Ret tt, st') ->
        isCommentProcessed id st' = true)
  /\ (forall n st0 st',
        newline_terminated (processed_comments_file st0) = true ->
        isCommentProcessed id st0 = true ->
        monitor_posts_loop token net clock n st0 = (Ret tt, st') ->
        like_calls id (new_exchanges st0 st') = 0
        /\ reply_calls id (new_exchanges st0 st') = 0
        /\ isCommentProcessed id st' = true).
Proof.
  intros Hl T Hid Ho.
  assert (First : forall n st',
             monitor_posts_loop token net clock (S n) st = (Ret tt, st') ->
             like_calls id (new_exchanges st st') = 1
             /\ reply_calls id (new_exchanges st st') = 1
             /\ isCommentProcessed id st' = true).
  { intros n st' H. simpl in H.
    apply bind_Ret_inv in H as ([] & st1 & H1 & H2).
    rewrite H1 in Ho. cbn [snd] in Ho.
    apply monitor_cycle_Ret in H1.
    destruct H1 as (_ & G & t1 & E1 & C1).
    rewrite (new_exchanges_app _ _ _ E1) in Ho.
    destruct (C1 id) as (L1 & R1 & I1).
    unfold isCommentProcessed in Hid. unfold engaged in L1, R1.
    rewrite Hid, Ho in L1, R1.
    destruct (G T) as [T1 _].
    assert (In1 : In id (processed_set st1)) by (apply I1; auto; lia).
    destruct (monitor_posts_loop_quiet token net clock id n st1 st' T1 In1 H2)
      as (t2 & E2 & L2 & R2 & _ & In2).
    assert (E : exchanges st' = exchanges st ++ (t1 ++ t2))
      by (rewrite E2, E1; symmetry; apply app_assoc).
    rewrite (new_exchanges_app _ _ _ E), like_calls_app, reply_calls_app.
    rewrite L1, L2, R1, R2. repeat split; auto.
    now apply isCommentProcessed_In. }
  split; [|split].
  - intros n st' H. destruct (First n st' H) as (L & R & _). auto.
  - intros n st' H. now destruct (First n st' H) as (_ & _ & I).
  - intros n st0 st' T0 I0 H. apply isCommentProcessed_In in I0.
    destruct (monitor_posts_loop_quiet token net clock id n st0 st' T0 I0 H)
      as (t & E & L & R & _ & I).
    rewrite (new_exchanges_app _ _ _ E).
    repeat split; auto. now apply isCommentProcessed_In.
Qed.

Lemma monitor_engages_once_witness :
  engages_once Sample.token (Sample.net_c1 1) Sample.clock
               Sample.one_post (py "c1").
Proof.
  apply (monitor_engages_once Sample.token (Sample.net_c1 1) Sample.clock
           Sample.one_post (py "c1"));
    vm_compute; reflexivity.
Defined.

(** Three cycles of that run, evaluated: the comment comes back in every
    fetch and is liked and answered once. *)
Example monitor_three_cycles :
  let st' := snd (monitor_posts_loop Sample.token (Sample.net_c1 1)
                    Sample.clock 3 Sample.one_post) in
  like_calls (py "c1") (new_exchanges Sample.one_post st') = 1
  /\ reply_calls (py "c1") (new_exchanges Sample.one_post st') = 1
  /\ occurrences (py "c1")
       (fetched_comments (new_exchanges Sample.one_post st')) = 3.
Proof. vm_compute. repeat split; reflexivity. Qed.

(** C1 (as stated) fails when the id is fetched twice in the cycle that
    first meets it: the comment "c1" is not in the processed set, and the
    first cycle sends two likes and two replies for it. *)
Lemma monitor_engages_twice_in_first_cycle :
  isCommentProcessed (py "c1") Sample.one_post = false
  /\ ~ engages_once Sample.token (Sample.net_c1 2) Sample.clock
                    Sample.one_post (py "c1").
Proof.
  split; [reflexivity|]. intros H.
  specialize (H 0
    (snd (monitor_posts_loop Sample.token (Sample.net_c1 2) Sample.clock 1
                             Sample.one_post))).
  assert (R : monitor_posts_loop Sample.token (Sample.net_c1 2) Sample.clock 1
                Sample.one_post
              = (Ret tt,
                 snd (monitor_posts_loop Sample.token (Sample.net_c1 2)
                        Sample.clock 1 Sample.one_post)))
    by (vm_compute; reflexivity).
  destruct (H R) as [L _]. vm_compute in L. discriminate L.
Qed.

(** The condition on the id is needed: an id with a blank at its left end
    is written to the file but read back without the blank, so the comment
    is engaged again in every cycle. *)
Example monitor_padded_id_every_cycle :
  let st' := snd (monitor_posts_loop Sample.token Sample.net_padded_id
                    Sample.clock 2 Sample.one_post) in
  like_calls (py " c1") (new_exchanges Sample.one_post st') = 2
  /\ isCommentProcessed (py " c1") st' = false.
Proof. vm_compute. split; reflexivity. Qed.

(** A cycle does not return when a fetched comment has no id: the like and
    the reply are sent to the node "None", then [save_processed_comment]
    raises and the loop ends. *)
Example monitor_cycle_comment_without_id :
  let run := monitor_cycle Sample.token Sample.net_no_id Sample.clock
                           Sample.one_post in
  fst run
  = Raise (TypeError
             (py "unsupported operand type(s) for +: 'NoneType' and 'str'"))
  /\ like_calls (py "None") (new_exchanges Sample.one_post (snd run)) = 1
  /\ processed_comments_file (snd run) = Some [].
Proof. vm_compute. repeat split; reflexivity. Qed.

(* ================================================================== *)
(** ** Further properties of the program *)

(** *** What a run keeps, whether it returns or raises *)

Section Keeps.

Variable R : State -> State -> Prop.
Hypothesis R_refl : forall s, R s s.
Hypothesis R_trans : forall s1 s2 s3, R s1 s2 -> R s2 s3 -> R s1 s3.

Lemma keeps_ret {A} (a : A) : keeps R (ret a).
Proof. intros st. apply R_refl. Qed.

Lemma keeps_raise {A} (e : exn) : keeps R (@raise A e).
Proof. intros st. apply R_refl. Qed.

Lemma keeps_gets {A} (f : State -> A) : keeps R (gets f).
Proof. intros st. apply R_refl. Qed.

Lemma keeps_modify (f : State -> State) :
  (forall s, R s (f s)) -> keeps R (modify f).
Proof. intros H st. apply H. Qed.

Lemma keeps_bind {A B} (m : M A) (k : A -> M B) :
  keeps R m -> (forall a, keeps R (k a)) -> keeps R (bind m k).
Proof.
  intros Hm Hk st. unfold bind. specialize (Hm st).
  destruct (m st) as [[a|e] s1]; simpl in *.
  - eapply R_trans; [exact Hm | apply Hk].
  - exact Hm.
Qed.

Lemma keeps_try_except {A} (m : M A) (h : exn -> M A) :
  keeps R m -> (forall e, keeps R (h e)) -> keeps R (try_except m h).
Proof.
  intros Hm Hh st. unfold try_except. specialize (Hm st).
  destruct (m st) as [[a|e] s1]; simpl in *.
  - exact Hm.
  - eapply R_trans; [exact Hm | apply Hh].
Qed.

Lemma keeps_for_each {A} (body : A -> M unit) (l : list A) :
  (forall x, keeps R (body x)) -> keeps R (for_each l body).
Proof.
  intros H. induction l as [|x l IH]; simpl.
  - apply keeps_ret.
  - apply keeps_bind; [apply H | intros _; exact IH].
Qed.

(** [allowed] tells which requests [R] lets a run send. *)
Variable allowed : request -> bool.

Hypothesis R_log : forall f s, R s (set_log_file f s).
Hypothesis R_clock : forall n s, R s (set_clock_reads n s).
Hypothesis R_http :
  forall req res s,
    allowed req = true ->
    R s (set_exchanges (exchanges s ++ [(req, res)]) s).

Variable token page : option str.
Variable net : nat -> request -> http_result.
Variable clock : nat -> str.

Lemma keeps_log_action (action info : str) :
  keeps R (log_action clock action info).
Proof.
  intros st. rewrite log_action_eq. cbn [snd].
  eapply R_trans; [apply R_clock | apply R_log].
Qed.

Lemma keeps_http (req : request) :
  allowed req = true -> keeps R (http net req).
Proof.
  intros H st. unfold http.
  destruct (net _ req); cbn [snd]; now apply R_http.
Qed.

Lemma keeps_json_of (r : response) : keeps R (json_of r).
Proof.
  unfold json_of. destruct (json r); [apply keeps_raise | apply keeps_ret].
Qed.

Lemma keeps_like_comment (cid : option str) :
  allowed (like_request token cid) = true ->
  keeps R (like_comment token net clock cid).
Proof.
  intros H. unfold like_comment. apply keeps_try_except.
  - apply keeps_bind; [now apply keeps_http|].
    intros r. destruct (status_code r =? 200)%Z; apply keeps_log_action.
  - intros e. apply keeps_log_action.
Qed.

Lemma keeps_reply_to_comment (cid : option str) (reply : str) :
  allowed (reply_request token cid reply) = true ->
  keeps R (reply_to_comment token net clock cid reply).
Proof.
  intros H. unfold reply_to_comment. apply keeps_try_except.
  - apply keeps_bind; [now apply keeps_http|].
    intros r. destruct (status_code r =? 200)%Z; apply keeps_log_action.
  - intros e. apply keeps_log_action.
Qed.

Lemma keeps_get_post_comments (post_id : str) (limit : Z) :
  allowed (comments_request token post_id limit) = true ->
  keeps R (get_post_comments token net clock post_id limit).
Proof.
  intros H. unfold get_post_comments. apply keeps_try_except.
  - apply keeps_bind; [now apply keeps_http|].
    intros r. destruct (status_code r =? 200)%Z.
    + apply keeps_bind; [apply keeps_json_of | intros; apply keeps_ret].
    + apply keeps_bind; [apply keeps_log_action | intros; apply keeps_ret].
  - intros e.
    apply keeps_bind; [apply keeps_log_action | intros; apply keeps_ret].
Qed.

Lemma keeps_insight_query (kind post_id : str) (req : request)
      (read : json_obj -> Z) (current : Z) :
  allowed req = true ->
  keeps R (insight_query net clock kind post_id req read current).
Proof.
  intros H. unfold insight_query. apply keeps_try_except.
  - apply keeps_bind; [now apply keeps_http|].
    intros r. destruct (status_code r =? 200)%Z.
    + apply keeps_bind; [apply keeps_json_of | intros; apply keeps_ret].
    + apply keeps_bind; [apply keeps_log_action | intros; apply keeps_ret].
  - intros e.
    apply keeps_bind; [apply keeps_log_action | intros; apply keeps_ret].
Qed.

Lemma keeps_get_post_insights (post_id : str) :
  allowed (likes_request token post_id) = true ->
  allowed (comments_summary_request token post_id) = true ->
  allowed (shares_request token post_id) = true ->
  keeps R (get_post_insights token net clock post_id).
Proof.
  intros H1 H2 H3. unfold get_post_insights.
  destruct (negb (truthy_opt token)); [apply keeps_ret|].
  apply keeps_bind; [now apply keeps_insight_query | intros l].
  apply keeps_bind; [now apply keeps_insight_query | intros c].
  apply keeps_bind; [now apply keeps_insight_query | intros s].
  apply keeps_ret.
Qed.

Hypothesis R_stats : forall ws s, R s (set_stats_sheet ws s).

Lemma keeps_update_post_stats (post_id : str) (likes comments shares : Z)
      (content : option str) :
  keeps R (update_post_stats clock post_id likes comments shares content).
Proof.
  intros st.
  destruct (update_post_stats_shape clock post_id likes comments shares
              content st) as (o & ws' & ->).
  cbn [snd]. eapply R_trans; [apply R_clock | apply R_stats].
Qed.

Section MonitorKeeps.

Hypothesis R_touch :
  forall s,
    R s (set_processed_comments_file
           (file_append (processed_comments_file s) []) s).
Hypothesis R_mark :
  forall c s,
    R s (set_processed_comments_file
           (file_append (processed_comments_file s) (c ++ [LF])) s).

Lemma keeps_save_processed_comment (cid : option str) :
  keeps R (save_processed_comment cid).
Proof.
  unfold save_processed_comment.
  apply keeps_bind; [apply keeps_modify, R_touch | intros _].
  destruct cid as [c|]; [apply keeps_modify, R_mark | apply keeps_raise].
Qed.

Hypothesis allowed_like :
  forall cid, allowed (like_request token cid) = true.
Hypothesis allowed_reply :
  forall cid reply, allowed (reply_request token cid reply) = true.

Lemma keeps_monitor_comment (snapshot : list str) (c : comment) :
  keeps R (monitor_comment token net clock snapshot c).
Proof.
  destruct c as [[cid ctext] cauthor]. unfold monitor_comment.
  destruct (not_in cid snapshot); [|apply keeps_ret].
  apply keeps_bind; [apply keeps_like_comment, allowed_like | intros _].
  apply keeps_bind; [apply keeps_reply_to_comment, allowed_reply | intros _].
  apply keeps_save_processed_comment.
Qed.

Lemma keeps_monitor_comments (snapshot : list str) (cl : list comment) :
  keeps R (for_each cl (monitor_comment token net clock snapshot)).
Proof. apply keeps_for_each. intros c. apply keeps_monitor_comment. Qed.

Hypothesis allowed_get : forall r, meth r = GET -> allowed r = true.

Lemma keeps_monitor_post (snapshot : list str) (post_id : str) :
  keeps R (monitor_post token net clock snapshot post_id).
Proof.
  unfold monitor_post.
  apply keeps_bind;
    [apply keeps_get_post_insights; now apply allowed_get|].
  intros [[l c] s].
  apply keeps_bind; [apply keeps_update_post_stats | intros _].
  apply keeps_bind;
    [apply keeps_get_post_comments; now apply allowed_get | intros cl].
  apply keeps_monitor_comments.
Qed.

Lemma keeps_monitor_cycle : keeps R (monitor_cycle token net clock).
Proof.
  unfold monitor_cycle.
  apply keeps_bind; [apply keeps_gets | intros posts].
  apply keeps_bind; [apply keeps_gets | intros ids].
  apply keeps_for_each. intros p. apply keeps_monitor_post.
Qed.

Lemma keeps_monitor_posts_loop (n : nat) :
  keeps R (monitor_posts_loop token net clock n).
Proof.
  induction n as [|n IH]; simpl.
  - apply keeps_ret.
  - apply keeps_bind; [apply keeps_monitor_cycle | intros _; exact IH].
Qed.

End MonitorKeeps.

Section ConsoleKeeps.

Hypothesis R_posted : forall f s, R s (set_posted_posts_file f s).
Hypothesis R_stdout : forall o s, R s (set_stdout o s).
Hypothesis allowed_publish :
  forall message, allowed (publish_request token page message) = true.

Variable isdigit : char -> bool.
Variable lower : str -> str.

Lemma keeps_save_posted_post (post_id : str) :
  keeps R (save_posted_post post_id).
Proof.
  intros st. rewrite save_posted_post_eq. cbn [snd].
  destruct (existsb _ _); [apply R_refl | apply R_posted].
Qed.

Lemma keeps_post_to_facebook (message : str) :
  keeps R (post_to_facebook token page net clock message).
Proof.
  unfold post_to_facebook.
  destruct (negb (truthy_opt token) || negb (truthy_opt page)).
  - apply keeps_bind; [apply keeps_log_action | intros; apply keeps_ret].
  - apply keeps_try_except.
    + apply keeps_bind; [apply keeps_http, allowed_publish | intros r].
      destruct (status_code r =? 200)%Z.
      * apply keeps_bind; [apply keeps_json_of | intros body].
        apply keeps_bind; [apply keeps_log_action | intros _].
        apply keeps_bind; [apply keeps_save_posted_post | intros _].
        apply keeps_bind; [apply keeps_update_post_stats | intros _].
        apply keeps_ret.
      * apply keeps_bind; [apply keeps_log_action | intros; apply keeps_ret].
    + intros e.
      apply keeps_bind; [apply keeps_log_action | intros; apply keeps_ret].
Qed.

Lemma keeps_console_turn (line : str) :
  keeps R (console_turn token page net clock isdigit lower line).
Proof.
  unfold console_turn.
  destruct (negb (truthy line)); [apply keeps_ret|].
  destruct (startswith _ _); [|apply keeps_ret].
  destruct (truthy _).
  - unfold console_publish.
    apply keeps_bind; [apply keeps_post_to_facebook | intros result].
    destruct (looks_published isdigit result);
      apply keeps_modify; intros s; apply R_stdout.
  - apply keeps_modify. intros s. apply R_stdout.
Qed.

End ConsoleKeeps.

End Keeps.

Lemma unchanged_refl {X} (p : State -> X) (s : State) : unchanged p s s.
Proof. reflexivity. Qed.

Lemma unchanged_trans {X} (p : State -> X) (s1 s2 s3 : State) :
  unchanged p s1 s2 -> unchanged p s2 s3 -> unchanged p s1 s3.
Proof. unfold unchanged. congruence. Qed.

(** *** The write sets of the two activities *)

(** The monitoring loop, however long it runs and whether it returns or
    raises, never writes the posted-post file and never prints. *)
Theorem monitor_posts_loop_write_set
        (token : option str) (net : nat -> request -> http_result)
        (clock : nat -> str) (n : nat) (st : State) :
  let st' := snd (monitor_posts_loop token net clock n st) in
  posted_posts_file st' = posted_posts_file st /\ stdout st' = stdout st.
Proof.
  split.
  - apply (keeps_monitor_posts_loop (unchanged posted_posts_file)
             (unchanged_refl _) (unchanged_trans _) any_request);
      reflexivity.
  - apply (keeps_monitor_posts_loop (unchanged stdout)
             (unchanged_refl _) (unchanged_trans _) any_request);
      reflexivity.
Qed.

(** A turn of the console loop always returns: no failure of the gateway
    or of the decoding reaches the loop.  It never writes the
    processed-comment file. *)
Theorem console_turn_returns
        (token page : option str) (net : nat -> request -> http_result)
        (clock : nat -> str) (isdigit : char -> bool) (lower : str -> str)
        (line : str) (st : State) :
  let run := console_turn token page net clock isdigit lower line st in
  fst run = Ret tt
  /\ processed_comments_file (snd run) = processed_comments_file st.
Proof.
  split.
  - unfold console_turn.
    destruct (negb (truthy line)); [reflexivity|].
    destruct (startswith _ _); [|reflexivity].
    destruct (truthy _); [|reflexivity].
    unfold console_publish.
    destruct (post_to_facebook_returns token page net clock
                (strip (skipn 6 (strip line))) st) as (result & st1 & R & _).
    rewrite (bind_Ret _ _ _ _ _ R).
    destruct (looks_published isdigit result); reflexivity.
  - apply (keeps_console_turn (unchanged processed_comments_file)
             (unchanged_refl _) (unchanged_trans _) any_request);
      reflexivity.
Qed.

(** *** The processed set never shrinks *)

Lemma processed_grows_touch (st st' : State) :
  processed_comments_file st' = file_append (processed_comments_file st) [] ->
  processed_grows st st'.
Proof.
  intros H T. rewrite !processed_set_eq, H.
  destruct (processed_comments_file st) as [t|]; simpl.
  - rewrite app_nil_r. auto.
  - auto.
Qed.

(** From a processed-comment file that is absent, empty or ends with a
    line break, the monitoring loop, whether it returns or raises, leaves
    such a file again, and every id that was in the processed set still
    is. *)
Theorem monitor_posts_loop_never_forgets
        (token : option str) (net : nat -> request -> http_result)
        (clock : nat -> str) (n : nat) (st : State) :
  newline_terminated (processed_comments_file st) = true ->
  let st' := snd (monitor_posts_loop token net clock n st) in
  newline_terminated (processed_comments_file st') = true
  /\ forall x, isCommentProcessed x st = true ->
               isCommentProcessed x st' = true.
Proof.
  intros T st'.
  assert (G : processed_grows st st').
  { apply (keeps_monitor_posts_loop processed_grows
             processed_grows_refl processed_grows_trans any_request);
      try reflexivity;
      intros; first [ now apply processed_grows_same_file
                    | now apply processed_grows_touch
                    | eapply processed_grows_append; reflexivity ]. }
  destruct (G T) as [T' M]. split; [exact T'|].
  intros x Hx. apply isCommentProcessed_In. apply M.
  now apply isCommentProcessed_In.
Qed.

Lemma monitor_posts_loop_never_forgets_witness :
  isCommentProcessed (py "c0")
    (snd (monitor_posts_loop Sample.token Sample.net_no_id
            Sample.clock 2 one_post_one_comment)) = true.
Proof.
  exact (proj2 (monitor_posts_loop_never_forgets Sample.token
                  Sample.net_no_id Sample.clock 2 one_post_one_comment
                  eq_refl) (py "c0") eq_refl).
Defined.

(** *** What the two loaders return *)

Lemma lstrip_fixed (s : str) : lstrip (lstrip s) = lstrip s.
Proof.
  induction s as [|c s IH]; simpl; [reflexivity|].
  destruct (isspace c) eqn:E; [assumption|]. simpl. now rewrite E.
Qed.

Lemma lstrip_head (s : str) (c : char) (r : str) :
  lstrip s = c :: r -> isspace c = false.
Proof.
  induction s as [|d s IH]; simpl; [discriminate|].
  destruct (isspace d) eqn:E; [assumption|]. now intros [= <- _].
Qed.

Lemma lstrip_suffix (s : str) : exists p, s = p ++ lstrip s.
Proof.
  induction s as [|c s [p IH]]; simpl.
  - now exists [].
  - destruct (isspace c).
    + exists (c :: p). simpl. now f_equal.
    + now exists [].
Qed.

Lemma rstrip_prefix (s : str) : exists q, s = rstrip s ++ q.
Proof.
  unfold rstrip. destruct (lstrip_suffix (rev s)) as [p H].
  exists (rev p). apply (f_equal (@rev _)) in H.
  now rewrite rev_involutive, rev_app_distr in H.
Qed.

Lemma rstrip_LF (t : str) : rstrip (t ++ [LF]) = rstrip t.
Proof. unfold rstrip. now rewrite rev_unit. Qed.

Lemma lstrip_app_LF (body : str) :
  lstrip (body ++ [LF])
  = match lstrip body with [] => [] | _ => lstrip body ++ [LF] end.
Proof.
  induction body as [|c body IH]; simpl; [reflexivity|].
  destruct (isspace c); [exact IH | reflexivity].
Qed.

Lemma strip_app_LF (body : str) : strip (body ++ [LF]) = strip body.
Proof.
  unfold strip. rewrite lstrip_app_LF.
  destruct (lstrip body) as [|c r]; [reflexivity|].
  apply rstrip_LF.
Qed.

(** [strip] gives a string that [strip] leaves alone. *)
Lemma strip_strip (s : str) : strip (strip s) = strip s.
Proof.
  unfold strip at 2 3. set (t := lstrip s).
  assert (Hl : lstrip (rstrip t) = rstrip t).
  { destruct (rstrip_prefix t) as [q Hq].
    destruct (rstrip t) as [|h x] eqn:E; [reflexivity|].
    assert (Hh : isspace h = false).
    { apply (lstrip_head s h (x ++ q)). exact Hq. }
    simpl. now rewrite Hh. }
  unfold strip. rewrite Hl. unfold rstrip.
  now rewrite rev_involutive, lstrip_fixed.
Qed.

Lemma universal_newlines_no_CR (s : str) :
  forall b,
    forallb (fun c => negb (c =? CR)%N) (universal_newlines b s) = true.
Proof.
  induction s as [|c s IH]; intros b; simpl; [reflexivity|].
  destruct (c =? CR)%N eqn:E; simpl.
  - apply IH.
  - destruct ((c =? LF)%N && b); simpl; [apply IH|].
    rewrite E. apply IH.
Qed.

(** A line read from a decoded text is a run of plain characters,
    followed or not by "\n". *)
Lemma readlines_plain (s : str) :
  forallb (fun c => negb (c =? CR)%N) s = true ->
  forall l, In l (readlines s) ->
    exists body,
      forallb plain_char body = true /\ (l = body \/ l = body ++ [LF]).
Proof.
  induction s as [|c s IH]; intros H l Hl; simpl in *; [contradiction|].
  apply andb_prop in H as [Hc Hs].
  destruct (c =? LF)%N eqn:E.
  - destruct Hl as [<- | Hl]; [|now apply IH].
    exists []. split; [reflexivity|]. right.
    apply N.eqb_eq in E. now subst.
  - destruct (readlines s) as [|l0 ls] eqn:Er.
    + destruct Hl as [<- | []]. exists [c]. split; [|now left].
      simpl. unfold plain_char. now rewrite E, Hc.
    + destruct Hl as [<- | Hl]; [|apply IH; [assumption | now right]].
      destruct (IH Hs l0 (or_introl eq_refl)) as (body & Hb & Hl0).
      exists (c :: body). split.
      * simpl. unfold plain_char at 1. now rewrite E, Hc.
      * destruct Hl0 as [-> | ->]; [now left | now right].
Qed.

Lemma forallb_app_inv {A} (f : A -> bool) (a b : list A) :
  forallb f (a ++ b) = true -> forallb f a = true /\ forallb f b = true.
Proof. rewrite forallb_app. apply andb_prop. Qed.

Lemma strip_plain (body : str) :
  forallb plain_char body = true -> forallb plain_char (strip body) = true.
Proof.
  intros H. unfold strip.
  destruct (lstrip_suffix body) as [p Hp]. rewrite Hp in H.
  apply forallb_app_inv in H as [_ H].
  destruct (rstrip_prefix (lstrip body)) as [q Hq]. rewrite Hq in H.
  now apply forallb_app_inv in H as [H _].
Qed.

Lemma file_line_stripped (f : option str) (l : str) :
  In l (file_lines f) -> strip l <> [] -> line_id (strip l) = true.
Proof.
  intros Hl Hne. unfold line_id.
  rewrite strip_strip, str_eqb_refl.
  destruct (strip l) as [|c r] eqn:E; [congruence|]. cbn [truthy andb].
  rewrite <- E.
  destruct f as [t|]; [|contradiction]. simpl in Hl.
  destruct (readlines_plain _ (universal_newlines_no_CR t false) l Hl)
    as (body & Hb & [-> | ->]).
  - now apply strip_plain.
  - rewrite strip_app_LF. now apply strip_plain.
Qed.

(** Whatever the data files contain, every id that
    [load_processed_comments] or [load_posted_posts] returns is not empty,
    has no white space at its ends and no line break inside: the loaders
    return only ids that the savers can write back unchanged. *)
Theorem loaded_ids_are_line_ids (st : State) (x : str) :
  (In x (processed_set st) -> line_id x = true)
  /\ (In x (posted_posts st) -> line_id x = true).
Proof.
  split.
  - rewrite processed_set_eq. intros H.
    apply fold_comment_lines_In in H as [[] | (Hne & l & Hl & <-)].
    now apply (file_line_stripped (processed_comments_file st)).
  - rewrite posted_posts_eq, fold_post_lines. simpl. intros H.
    apply filter_In in H as [H Ht].
    apply in_map_iff in H as (l & <- & Hl).
    apply (file_line_stripped (posted_posts_file st)); [assumption|].
    intros E. rewrite E in Ht. discriminate.
Qed.

(** *** Writing ids and reading them back *)

Lemma bool_eq_iff (a b : bool) : (a = true <-> b = true) -> a = b.
Proof. destruct a, b; intuition congruence. Qed.

(** Marking a comment adds that id to the processed set and changes the
    membership of no other id; the file stays well-ended. *)
Theorem save_processed_comment_adds_only (st : State) (c : str) :
  line_id c = true ->
  newline_terminated (processed_comments_file st) = true ->
  let st1 := snd (save_processed_comment (Some c) st) in
  newline_terminated (processed_comments_file st1) = true
  /\ forall x,
      isCommentProcessed x st1 = isCommentProcessed x st || str_eqb x c.
Proof.
  intros Hc T st1. split.
  - subst st1. rewrite save_processed_comment_Some. cbn.
    apply newline_terminated_append.
  - intros x. apply bool_eq_iff.
    rewrite orb_true_iff, !isCommentProcessed_In, str_eqb_eq.
    apply (processed_set_after_save c st Hc T).
Qed.

Lemma save_processed_comment_adds_only_witness :
  let st1 := snd (save_processed_comment (Some (py "c1"))
                                         one_post_one_comment) in
  isCommentProcessed (py "c0") st1 = true
  /\ isCommentProcessed (py "c1") st1 = true
  /\ isCommentProcessed (py "c2") st1 = false.
Proof.
  destruct (save_processed_comment_adds_only one_post_one_comment (py "c1")
              eq_refl eq_refl) as [_ H].
  cbv zeta. rewrite !H. repeat split; reflexivity.
Defined.

(** Registering a list of post ids, one call after the other: every call
    returns, the list of [load_posted_posts] keeps its old entries at the
    front, gains exactly the new ids and stays free of repetitions. *)
Theorem save_posted_posts_in_order (ids : list str) :
  forall st,
    forallb line_id ids = true ->
    newline_terminated (posted_posts_file st) = true ->
    NoDup (posted_posts st) ->
    let run := for_each ids save_posted_post st in
    fst run = Ret tt
    /\ NoDup (posted_posts (snd run))
    /\ (forall x, In x (posted_posts (snd run))
                  <-> In x (posted_posts st) \/ In x ids)
    /\ exists added, posted_posts (snd run) = posted_posts st ++ added.
Proof.
  induction ids as [|id ids IH]; intros st Hids T N; simpl.
  - split; [reflexivity|]. split; [assumption|].
    split; [tauto|]. exists []. now rewrite app_nil_r.
  - simpl in Hids. apply andb_prop in Hids as [Hid Hids].
    unfold bind. rewrite save_posted_post_eq.
    destruct (existsb (str_eqb id) (posted_posts st)) eqn:E.
    + destruct (IH st Hids T N) as (R & N' & I & A).
      split; [exact R|]. split; [exact N'|]. split; [|exact A].
      intros x. rewrite I. apply existsb_str_In in E.
      split; [tauto|]. intros [H | [<- | H]]; auto.
    + set (st1 := set_posted_posts_file
                    (file_append (posted_posts_file st) (id ++ [LF])) st).
      assert (P1 : posted_posts st1 = posted_posts st ++ [id])
        by now apply posted_posts_after_append.
      assert (Hout : ~ In id (posted_posts st)).
      { rewrite <- existsb_str_In. congruence. }
      assert (T1 : newline_terminated (posted_posts_file st1) = true)
        by apply newline_terminated_append.
      assert (N1 : NoDup (posted_posts st1)).
      { rewrite P1. apply NoDup_app; [assumption | repeat constructor; intros [] |].
        intros y Hy [<- | []]. contradiction. }
      destruct (IH st1 Hids T1 N1) as (R & N' & I & (added & A)).
      split; [exact R|]. split; [exact N'|]. split.
      * intros x. rewrite I, P1, in_app_iff. simpl. tauto.
      * exists (id :: added). rewrite A, P1, <- app_assoc. reflexivity.
Qed.

Lemma save_posted_posts_in_order_witness :
  let st' := snd (for_each [py "1001_2"; py "1001_1"; py "1001_3"; py "1001_2"]
                           save_posted_post Sample.one_post) in
  NoDup (posted_posts st') /\ In (py "1001_3") (posted_posts st').
Proof.
  assert (N : NoDup (posted_posts Sample.one_post)).
  { vm_compute. repeat constructor. intros []. }
  destruct (save_posted_posts_in_order
              [py "1001_2"; py "1001_1"; py "1001_3"; py "1001_2"]
              Sample.one_post eq_refl eq_refl N) as (_ & N' & I & _).
  split; [exact N'|]. apply I. right. simpl. auto.
Defined.

(** The list that run leaves. *)
Example save_posted_posts_listed :
  posted_posts
    (snd (for_each [py "1001_2"; py "1001_1"; py "1001_3"; py "1001_2"]
                   save_posted_post Sample.one_post))
  = [py "1001_1"; py "1001_2"; py "1001_3"].
Proof. vm_compute. reflexivity. Qed.

(** *** The metrics sheet under repeated updates *)


Lemma find_row_single (post_id : str) (r : stats_row) :
  col_post_id r = Text post_id -> find_row post_id [r] = Some 0.
Proof. intros H. simpl. now rewrite H, str_eqb_refl. Qed.

Lemma update_post_stats_clock_reads (clock : nat -> str) (post_id : str)
      (likes comments shares : Z) (content : option str) (st : State) :
  clock_reads (snd (update_post_stats clock post_id likes comments shares
                                      content st))
  = S (clock_reads st).
Proof.
  destruct (update_post_stats_shape clock post_id likes comments shares
              content st) as (o & ws' & ->).
  reflexivity.
Qed.

(** After an update that can create its record, the post has a record. *)
Lemma stats_record_after_update (clock : nat -> str) (post_id : str)
      (likes comments shares : Z) (content : option str) (st : State) :
  (stats_record post_id (stats_sheet st) = None ->
   sheet_id post_id = true /\ sheet_content content = true) ->
  counters_storable likes comments shares = true ->
  stats_record post_id
    (stats_sheet (snd (update_post_stats clock post_id likes comments shares
                                         content st)))
  = Some (upserted (stats_record post_id (stats_sheet st)) post_id content
                   likes comments shares (clock (clock_reads st))).
Proof.
  intros Hnew Hst.
  destruct (update_post_stats_upsert clock st post_id likes comments shares
              content Hnew Hst) as (_ & H & _).
  destruct (stats_record post_id (stats_sheet st)) as [r|]; apply H.
Qed.


(** Two updates of the same post in a row, with counters that the sheet
    gives back exactly, the first for a post that has a record or whose id
    is a non-empty text for a cell and whose content is absent or a text
    for a cell: both return, the second adds no row, the record has the
    counters and the time stamp of the second call, and the content it
    had after the first call, whatever content the second passes. *)
Theorem update_post_stats_twice (clock : nat -> str) (st : State)
        (post_id : str) (l1 c1 s1 l2 c2 s2 : Z) (content1 content2 : option str) :
  (stats_record post_id (stats_sheet st) = None ->
   sheet_id post_id = true /\ sheet_content content1 = true) ->
  exact_number l1 = true -> exact_number c1 = true ->
  exact_number s1 = true ->
  exact_number l2 = true -> exact_number c2 = true ->
  exact_number s2 = true ->
  let run1 := update_post_stats clock post_id l1 c1 s1 content1 st in
  let st1 := snd run1 in
  let run2 := update_post_stats clock post_id l2 c2 s2 content2 st1 in
  let st2 := snd run2 in
  fst run1 = Ret tt /\ fst run2 = Ret tt
  /\ List.length (stats_sheet st2) = List.length (stats_sheet st1)
  /\ exists r1,
      stats_record post_id (stats_sheet st1) = Some r1
      /\ stats_record post_id (stats_sheet st2)
         = Some (mkRow (col_post_id r1) (col_content r1)
                       (Number l2) (Number c2) (Number s2)
                       (Text (clock (S (clock_reads st))))).
Proof.
  intros Hnew El1 Ec1 Es1 El2 Ec2 Es2 run1 st1 run2 st2.
  pose proof (exact_counters_storable _ _ _ El1 Ec1 Es1) as St1.
  pose proof (exact_counters_storable _ _ _ El2 Ec2 Es2) as St2.
  pose proof (update_post_stats_upsert clock st post_id l1 c1 s1 content1
                                       Hnew St1) as (U1 & _).
  pose proof (stats_record_after_update clock post_id l1 c1 s1 content1 st
                                        Hnew St1) as H1.
  pose proof (update_post_stats_clock_reads clock post_id l1 c1 s1 content1 st)
    as C1.
  fold run1 in U1, H1, C1. fold st1 in H1, C1.
  assert (Hold : stats_record post_id (stats_sheet st1) = None ->
                 sheet_id post_id = true /\ sheet_content content2 = true)
    by (rewrite H1; discriminate).
  pose proof (update_post_stats_upsert clock st1 post_id l2 c2 s2 content2
                                       Hold St2) as (U2 & H2 & _).
  fold run2 in U2, H2. fold st2 in H2.
  rewrite H1, C1 in H2. destruct H2 as [H2 L2].
  unfold refreshed in H2.
  rewrite (saved_number_exact _ El2), (saved_number_exact _ Ec2),
    (saved_number_exact _ Es2) in H2.
  split; [exact U1|]. split; [exact U2|]. split; [exact L2|].
  eexists. split; [exact H1 | exact H2].
Qed.

Lemma update_post_stats_twice_witness :
  let st1 := snd (update_post_stats Sample.clock (py "P1") 5 2 1
                                    (Some (py "hello")) Sample.empty_state) in
  let st2 := snd (update_post_stats Sample.clock (py "P1") 6 2 1
                                    (Some (py "ignored")) st1) in
  List.length (stats_sheet st2) = List.length (stats_sheet st1).
Proof.
  exact (proj1 (proj2 (proj2
    (update_post_stats_twice Sample.clock Sample.empty_state (py "P1")
       5 2 1 6 2 1 (Some (py "hello")) (Some (py "ignored"))
       (fun _ => conj eq_refl eq_refl)
       eq_refl eq_refl eq_refl eq_refl eq_refl eq_refl)))).
Defined.

Lemma posted_posts_same_file (st st' : State) :
  posted_posts_file st' = posted_posts_file st ->
  posted_posts st' = posted_posts st.
Proof. intros H. rewrite !posted_posts_eq. now rewrite H. Qed.

Lemma posted_posts_not_empty (st : State) : ~ In [] (posted_posts st).
Proof.
  rewrite posted_posts_eq, fold_post_lines. simpl. intros H.
  apply filter_In in H as [_ H]. discriminate.
Qed.

(** *** What a publish leaves in the store *)

Lemma publish_end_Ret (clock : nat -> str) (id : str)
      (seed : outcome unit * State) :
  fst seed = Ret tt -> publish_end clock id seed = (Ret id, snd seed).
Proof. unfold publish_end. now intros ->. Qed.

(** The handler of [post_to_facebook] writes to the log only. *)
Lemma publish_end_frame (clock : nat -> str) (id : str)
      (seed : outcome unit * State) :
  let st' := snd (publish_end clock id seed) in
  posted_posts_file st' = posted_posts_file (snd seed)
  /\ processed_comments_file st' = processed_comments_file (snd seed)
  /\ stats_sheet st' = stats_sheet (snd seed)
  /\ exchanges st' = exchanges (snd seed)
  /\ stdout st' = stdout (snd seed).
Proof.
  unfold publish_end. destruct (fst seed) as [[]|e]; cbn; auto.
Qed.

(** The empty post id is written whenever the content is. *)
Lemma created_row_empty_id (message : str) :
  accepted_text message = true ->
  exists r, created_row [] (Some message) = inr r.
Proof.
  unfold accepted_text, created_row. intros H.
  apply negb_true_iff in H.
  change (text_cell []) with (@inr exn cell Empty). cbv iota.
  destruct message as [|c m]; [eauto|].
  unfold text_cell, check_string. rewrite H.
  destruct (firstn max_cell_length (c :: m)); eauto.
Qed.

(** An accepted publish whose answer names a new post with an id that a
    line gives back, on a posted-post file that is absent, empty or ends
    with a line break, when the post has a metrics record or else the id
    is a text for a cell and the message is one: the id comes back, it is
    added at the end of the list of [load_posted_posts], and the post has
    a metrics record with counters 0: a new one holding the message when
    it had none, its old one with the old content otherwise.  The
    processed-comment file is not touched. *)
Theorem post_to_facebook_registers
        (token page : option str) (net : nat -> request -> http_result)
        (clock : nat -> str) (message : str) (st : State)
        (r : response) (body : json_obj) (id : str) :
  truthy_opt token = true -> truthy_opt page = true ->
  net (List.length (exchanges st)) (publish_request token page message)
  = Answered r ->
  status_code r = 200%Z -> json r = inr body -> j_id body = Some id ->
  line_id id = true ->
  newline_terminated (posted_posts_file st) = true ->
  ~ In id (posted_posts st) ->
  (stats_record id (stats_sheet st) = None ->
   sheet_id id = true /\ sheet_text message = true) ->
  let run := post_to_facebook token page net clock message st in
  fst run = Ret id
  /\ posted_posts (snd run) = posted_posts st ++ [id]
  /\ processed_comments_file (snd run) = processed_comments_file st
  /\ exists t,
      stats_record id (stats_sheet (snd run))
      = Some (upserted (stats_record id (stats_sheet st)) id (Some message)
                       0 0 0 t).
Proof.
  intros Ht Hp Hn Hs Hj Hid Hl T Hout Hnew run.
  destruct (post_to_facebook_accepted token page net clock message st r body
              Ht Hp Hn Hs Hj) as (st1 & (_ & P1 & Q1 & W1 & _) & R).
  rewrite Hid in R. cbn [default] in R. subst run. rewrite R.
  set (st2 := snd (save_posted_post id st1)).
  assert (E2 : st2 = set_posted_posts_file
                       (file_append (posted_posts_file st1) (id ++ [LF])) st1).
  { subst st2. rewrite save_posted_post_eq. cbn [snd].
    rewrite (posted_posts_same_file _ _ Q1).
    destruct (existsb (str_eqb id) (posted_posts st)) eqn:E; [|reflexivity].
    apply existsb_str_In in E. contradiction. }
  assert (L2 : posted_posts st2 = posted_posts st ++ [id]).
  { rewrite E2, posted_posts_after_append; [|assumption|now rewrite Q1].
    now rewrite (posted_posts_same_file _ _ Q1). }
  assert (W2 : stats_sheet st2 = stats_sheet st)
    by (rewrite E2; exact W1).
  assert (Hnew2 : stats_record id (stats_sheet st2) = None ->
                  sheet_id id = true /\ sheet_content (Some message) = true)
    by (rewrite W2; exact Hnew).
  destruct (update_post_stats_upsert clock st2 id 0 0 0 (Some message) Hnew2
              eq_refl) as (U & _).
  rewrite (publish_end_Ret _ _ _ U). cbn [fst snd].
  destruct (update_post_stats_shape clock id 0 0 0 (Some message) st2)
    as (o & ws' & E3).
  split; [reflexivity|]. split; [|split].
  - rewrite <- L2. apply posted_posts_same_file. now rewrite E3.
  - rewrite E3. cbn. rewrite E2. cbn. exact P1.
  - exists (clock (clock_reads st2)).
    rewrite (stats_record_after_update clock id 0 0 0 (Some message) st2
               Hnew2 eq_refl).
    now rewrite W2.
Qed.

Lemma post_to_facebook_registers_witness :
  let run := post_to_facebook Sample.token Sample.page net_accepting
                              Sample.clock (py "hello") Sample.one_post in
  fst run = Ret (py "1001_9")
  /\ posted_posts (snd run) = [py "1001_1"; py "1001_9"].
Proof.
  assert (Hout : ~ In (py "1001_9") (posted_posts Sample.one_post)).
  { vm_compute. intros [H | []]. discriminate H. }
  destruct (post_to_facebook_registers Sample.token Sample.page net_accepting
              Sample.clock (py "hello") Sample.one_post _ _ (py "1001_9")
              eq_refl eq_refl eq_refl eq_refl eq_refl eq_refl eq_refl eq_refl
              Hout (fun _ => conj eq_refl eq_refl)) as (R & L & _).
  split; [exact R | exact L].
Defined.

(** A publish answered with 200 and a body without "id", on a posted-post
    file that is absent, empty or ends with a line break: a blank line is
    appended to the posted-post file, so the list of [load_posted_posts]
    does not change and the post is never polled; and when the message is
    a text for a cell, the value is the empty string, which the console
    reports as a failure. *)
Theorem post_to_facebook_answer_without_id
        (token page : option str) (net : nat -> request -> http_result)
        (clock : nat -> str) (isdigit : char -> bool)
        (message : str) (st : State) (r : response) (body : json_obj) :
  truthy_opt token = true -> truthy_opt page = true ->
  net (List.length (exchanges st)) (publish_request token page message)
  = Answered r ->
  status_code r = 200%Z -> json r = inr body -> j_id body = None ->
  newline_terminated (posted_posts_file st) = true ->
  let run := post_to_facebook token page net clock message st in
  (sheet_text message = true -> fst run = Ret [])
  /\ looks_published isdigit [] = false
  /\ posted_posts_file (snd run) = file_append (posted_posts_file st) [LF]
  /\ posted_posts (snd run) = posted_posts st.
Proof.
  intros Ht Hp Hn Hs Hj Hid T run.
  destruct (post_to_facebook_accepted token page net clock message st r body
              Ht Hp Hn Hs Hj) as (st1 & (_ & P1 & Q1 & W1 & _) & R).
  rewrite Hid in R. cbn [default] in R. subst run. rewrite R.
  set (st2 := snd (save_posted_post [] st1)) in *.
  assert (E2 : st2 = set_posted_posts_file
                       (file_append (posted_posts_file st1) [LF]) st1).
  { subst st2. rewrite save_posted_post_eq. cbn [snd].
    destruct (existsb (str_eqb []) (posted_posts st1)) eqn:E; [|reflexivity].
    apply existsb_str_In in E. now apply posted_posts_not_empty in E. }
  set (seed := update_post_stats clock [] 0 0 0 (Some message) st2).
  assert (F2 : posted_posts_file (snd (publish_end clock [] seed))
               = file_append (posted_posts_file st) [LF]).
  { destruct (publish_end_frame clock [] seed) as (-> & _).
    subst seed.
    destruct (update_post_stats_shape clock [] 0 0 0 (Some message) st2)
      as (o & ws' & ->).
    rewrite E2. cbn. now rewrite Q1. }
  split; [|split; [reflexivity|split; [exact F2|]]].
  - intros Hm. apply sheet_text_accepted in Hm.
    rewrite publish_end_Ret; [reflexivity|].
    subst seed. rewrite update_post_stats_eq.
    change (save_sheet 0 0 0) with (fun ws => modify (set_stats_sheet ws)).
    destruct (find_row [] (stats_sheet st2)); [reflexivity|].
    destruct (created_row_empty_id message Hm) as (r0 & ->). reflexivity.
  - rewrite !posted_posts_eq, F2.
    destruct (posted_posts_file st) as [t|]; [|reflexivity].
    simpl file_append. rewrite (file_lines_grow _ _ T), fold_left_app.
    reflexivity.
Qed.

Lemma post_to_facebook_answer_without_id_witness :
  let run := post_to_facebook Sample.token Sample.page
               (fun _ _ => Sample.answer 200 [] Sample.no_fields)
               Sample.clock (py "hello") Sample.one_post in
  fst run = Ret []
  /\ posted_posts_file (snd run) = Some (py "1001_1" ++ [LF] ++ [LF])
  /\ posted_posts (snd run) = [py "1001_1"].
Proof.
  destruct (post_to_facebook_answer_without_id Sample.token Sample.page
              (fun _ _ => Sample.answer 200 [] Sample.no_fields)
              Sample.clock (fun _ => false) (py "hello") Sample.one_post
              _ _ eq_refl eq_refl eq_refl eq_refl eq_refl eq_refl eq_refl)
    as (R & _ & F & L).
  split; [exact (R eq_refl)|]. split; [exact F | exact L].
Defined.

(** *** Metrics that could not be fetched *)

Lemma get_post_insights_zero
      (token : option str) (net : nat -> request -> http_result)
      (clock : nat -> str) (post_id : str) (st : State) :
  truthy_opt token = false \/ (forall k req, query_failed (net k req) = true) ->
  exists st1,
    get_post_insights token net clock post_id st = (Ret (0, 0, 0)%Z, st1)
    /\ stats_sheet st1 = stats_sheet st.
Proof.
  intros H. unfold get_post_insights.
  destruct (truthy_opt token) eqn:Ht; cbn [negb]; [|now exists st].
  destruct H as [H | H]; [discriminate|].
  destruct (insight_query_step net clock (py "likes") post_id
              (likes_request token post_id) read_total_count st)
    as (v1 & st1 & R1 & (_ & _ & _ & W1 & _) & (Z1 & _)).
  destruct (insight_query_step net clock (py "comments") post_id
              (comments_summary_request token post_id) read_total_count st1)
    as (v2 & st2 & R2 & (_ & _ & _ & W2 & _) & (Z2 & _)).
  destruct (insight_query_step net clock (py "shares") post_id
              (shares_request token post_id) read_shares_count st2)
    as (v3 & st3 & R3 & (_ & _ & _ & W3 & _) & (Z3 & _)).
  rewrite (Z1 (H _ _)) in R1. rewrite (Z2 (H _ _)) in R2.
  rewrite (Z3 (H _ _)) in R3.
  rewrite (bind_Ret _ _ _ _ _ R1), (bind_Ret _ _ _ _ _ R2),
    (bind_Ret _ _ _ _ _ R3).
  exists st3. split; [reflexivity | congruence].
Qed.

(** When the token is missing, or when every call to the gateway fails,
    a turn of the monitoring loop for a post that has a record, or whose
    id is a non-empty text for a cell, whether it returns or raises,
    leaves the post with a record whose likes, comments and shares are 0:
    counters recorded earlier are overwritten, the content is kept, and a
    post without a record gets one with an empty content. *)
Theorem monitor_post_zeroes_unfetched_metrics
        (token : option str) (net : nat -> request -> http_result)
        (clock : nat -> str) (snapshot : list str) (post_id : str)
        (st : State) :
  truthy_opt token = false \/ (forall k req, query_failed (net k req) = true) ->
  (stats_record post_id (stats_sheet st) = None -> sheet_id post_id = true) ->
  exists t,
    stats_record post_id
      (stats_sheet (snd (monitor_post token net clock snapshot post_id st)))
    = Some (upserted (stats_record post_id (stats_sheet st)) post_id None
                     0 0 0 t).
Proof.
  intros H Hnew.
  destruct (get_post_insights_zero token net clock post_id st H)
    as (st1 & R1 & W1).
  unfold monitor_post. rewrite (bind_Ret _ _ _ _ _ R1). cbv beta iota.
  assert (Hnew1 : stats_record post_id (stats_sheet st1) = None ->
                  sheet_id post_id = true /\ sheet_content None = true)
    by (rewrite W1; intros E; split; [exact (Hnew E) | reflexivity]).
  set (st2 := snd (update_post_stats clock post_id 0 0 0 None st1)).
  assert (R2 : update_post_stats clock post_id 0 0 0 None st1 = (Ret tt, st2)).
  { subst st2.
    destruct (update_post_stats_upsert clock st1 post_id 0 0 0 None Hnew1
                eq_refl) as (U & _).
    destruct (update_post_stats clock post_id 0 0 0 None st1) as [o s1].
    cbn [fst snd] in *. now subst o. }
  rewrite (bind_Ret _ _ _ _ _ R2).
  exists (clock (clock_reads st1)).
  rewrite <- W1,
    <- (stats_record_after_update clock post_id 0 0 0 None st1 Hnew1 eq_refl).
  fold st2. f_equal.
  apply (keeps_bind (unchanged stats_sheet) (unchanged_trans _)).
  - apply (keeps_get_post_comments (unchanged stats_sheet)
             (unchanged_refl _) (unchanged_trans _) any_request);
      reflexivity.
  - intros cl.
    apply (keeps_monitor_comments (unchanged stats_sheet)
             (unchanged_refl _) (unchanged_trans _) any_request);
      reflexivity.
Qed.

Lemma monitor_post_zeroes_unfetched_metrics_witness :
  exists t,
    stats_record (py "1001_1")
      (stats_sheet (snd (monitor_post Sample.token Sample.net_down
                           Sample.clock [] (py "1001_1") polled_post)))
    = Some (mkRow (Text (py "1001_1")) (Text (py "hello"))
                  (Number 0) (Number 0) (Number 0) (Text t)).
Proof.
  destruct (monitor_post_zeroes_unfetched_metrics Sample.token Sample.net_down
              Sample.clock [] (py "1001_1") polled_post
              (or_intror (fun _ _ => eq_refl)) (fun _ => eq_refl))
    as (t & H).
  exists t. rewrite H. reflexivity.
Defined.

(** *** When the monitoring loop keeps running *)

Section Liveness.

Variable token : option str.
Variable net : nat -> request -> http_result.
Variable clock : nat -> str.



(** The metrics of a post whose id the sheet does not refuse are
    written, with or without a record of the post. *)
Lemma update_post_stats_returns (post_id : str) (likes comments shares : Z)
      (st : State) :
  accepted_text post_id = true ->
  counters_storable likes comments shares = true ->
  exists st',
    update_post_stats clock post_id likes comments shares None st
    = (Ret tt, st')
    /\ exchanges st' = exchanges st
    /\ processed_comments_file st' = processed_comments_file st
    /\ posted_posts_file st' = posted_posts_file st.
Proof.
  intros Ha Hst.
  destruct (update_post_stats_frame clock post_id likes comments shares None st)
    as ([[]|e] & st' & R & F); [now exists st'|].
  apply (update_post_stats_Raise _ _ _ _ _ _ _ _ _ Hst) in R as (_ & _ & R).
  exfalso. revert R. unfold created_row, text_cell, check_string.
  unfold accepted_text in Ha. apply negb_true_iff in Ha. rewrite Ha.
  destruct (firstn max_cell_length post_id); discriminate.
Qed.

Lemma counts_storable (read : json_obj -> Z) (res : http_result) (v : Z) :
  read = read_total_count \/ read = read_shares_count ->
  storable_counts res = true -> counts read res v -> storable v = true.
Proof.
  intros Hread Hres [C0 C1].
  destruct (query_failed res) eqn:Q; [now rewrite (C0 eq_refl)|].
  destruct res as [msg|r]; [discriminate|]. cbn in Q, Hres.
  apply orb_false_elim in Q as [Q1 Q2].
  apply negb_false_iff, Z.eqb_eq in Q1.
  destruct (json r) as [m|body] eqn:Ej; [discriminate|].
  rewrite (C1 r body eq_refl Q1 Ej).
  apply andb_prop in Hres as [H1 H2].
  destruct Hread as [-> | ->]; assumption.
Qed.

Hypothesis counters_present :
  forall k req, storable_counts (net k req) = true.

(** The counters of [get_post_insights] are 0 or those of an answer. *)
Lemma get_post_insights_storable (post_id : str) (st st1 : State)
      (l c s : Z) :
  get_post_insights token net clock post_id st = (Ret (l, c, s), st1) ->
  counters_storable l c s = true.
Proof.
  unfold get_post_insights. destruct (truthy_opt token); cbn [negb].
  - destruct (insight_query_step net clock (py "likes") post_id
                (likes_request token post_id) read_total_count st)
      as (v1 & s1 & R1 & _ & C1).
    destruct (insight_query_step net clock (py "comments") post_id
                (comments_summary_request token post_id) read_total_count s1)
      as (v2 & s2 & R2 & _ & C2).
    destruct (insight_query_step net clock (py "shares") post_id
                (shares_request token post_id) read_shares_count s2)
      as (v3 & s3 & R3 & _ & C3).
    rewrite (bind_Ret _ _ _ _ _ R1), (bind_Ret _ _ _ _ _ R2),
      (bind_Ret _ _ _ _ _ R3).
    intros [= <- <- <- _]. unfold counters_storable.
    rewrite (counts_storable _ _ _ (or_introl eq_refl)
               (counters_present _ _) C1),
      (counts_storable _ _ _ (or_introl eq_refl) (counters_present _ _) C2),
      (counts_storable _ _ _ (or_intror eq_refl) (counters_present _ _) C3).
    reflexivity.
  - intros [= <- <- <- _]. reflexivity.
Qed.

Hypothesis ids_present :
  forall k req c, In c (comments_of (net k req)) -> fst (fst c) <> None.




End Liveness.



(** The condition on the ids is needed: with a posted-post file that
    lists the id "a", U+0001, "b", the first cycle ends with the
    exception of the sheet. *)
Example monitor_posts_loop_refused_id :
  fst (monitor_posts_loop Sample.token Sample.net_down Sample.clock 1
         (mkState None (Some (py "a" ++ [1%N] ++ py "b" ++ [LF]))
                  [] None [] [] 0))
  = Raise (IllegalCharacterError
             (py "a" ++ [1%N] ++ py "b cannot be used in worksheets.")).
Proof. vm_compute. reflexivity. Qed.

(** *** A remote state without new comments *)

Lemma idle_stretch_refl (st : State) : idle_stretch st st.
Proof.
  split; [reflexivity|]. split; [reflexivity|].
  exists []. rewrite app_nil_r. split; [reflexivity|].
  intros x. split; reflexivity.
Qed.

Lemma idle_stretch_trans (s1 s2 s3 : State) :
  idle_stretch s1 s2 -> idle_stretch s2 s3 -> idle_stretch s1 s3.
Proof.
  intros (P1 & Q1 & t1 & E1 & C1) (P2 & Q2 & t2 & E2 & C2).
  split; [congruence|]. split; [congruence|].
  exists (t1 ++ t2). split; [rewrite E2, E1; symmetry; apply app_assoc|].
  intros x. rewrite like_calls_app, reply_calls_app.
  destruct (C1 x) as [-> ->], (C2 x) as [-> ->]. auto.
Qed.

Section Converged.

Variable token : option str.
Variable net : nat -> request -> http_result.
Variable clock : nat -> str.
Variable snapshot : list str.

Hypothesis all_processed :
  forall k req c,
    In c (comments_of (net k req)) -> not_in (fst (fst c)) snapshot = false.

Hypothesis counters_present :
  forall k req, storable_counts (net k req) = true.

Lemma monitor_comments_skipped (cl : list comment) (st : State) :
  (forall c, In c cl -> not_in (fst (fst c)) snapshot = false) ->
  for_each cl (monitor_comment token net clock snapshot) st = (Ret tt, st).
Proof.
  induction cl as [|[[cid ctext] cauthor] cl IH]; intros H; simpl.
  - reflexivity.
  - pose proof (H (cid, ctext, cauthor) (or_introl eq_refl)) as Hc.
    cbn [fst] in Hc. unfold bind, monitor_comment at 1. rewrite Hc.
    apply IH. intros c Hc'. apply H. now right.
Qed.

Lemma monitor_post_idle (post_id : str) (st : State) :
  accepted_text post_id = true ->
  exists st',
    monitor_post token net clock snapshot post_id st = (Ret tt, st')
    /\ idle_stretch st st'.
Proof.
  intros Ha. unfold monitor_post.
  destruct (get_post_insights_quiet token net clock post_id st)
    as ([[l c] s] & st1 & tr1 & R1 & X1 & P1 & Q1 & _ & C1).
  rewrite (bind_Ret _ _ _ _ _ R1). cbv beta iota.
  destruct (update_post_stats_returns clock post_id l c s st1 Ha
              (get_post_insights_storable token net clock counters_present
                 _ _ _ _ _ _ R1))
    as (st2 & R2 & X2 & P2 & Q2).
  rewrite (bind_Ret _ _ _ _ _ R2).
  destruct (get_post_comments_step token net clock post_id 50 st2)
    as (st3 & R3 & (X3 & P3 & Q3 & _)).
  rewrite (bind_Ret _ _ _ _ _ R3).
  rewrite monitor_comments_skipped by apply all_processed.
  exists st3. split; [reflexivity|].
  split; [congruence|]. split; [congruence|].
  eexists. split; [rewrite X3, X2, X1, <- app_assoc; reflexivity|].
  intros x. rewrite like_calls_app, reply_calls_app.
  destruct (C1 x) as [-> ->]. split; reflexivity.
Qed.

Lemma monitor_posts_idle (post_ids : list str) :
  (forall p, In p post_ids -> accepted_text p = true) ->
  forall st,
    exists st',
      for_each post_ids (monitor_post token net clock snapshot) st
      = (Ret tt, st')
      /\ idle_stretch st st'.
Proof.
  induction post_ids as [|p ps IH]; intros Ha st; simpl.
  - exists st. split; [reflexivity | apply idle_stretch_refl].
  - destruct (monitor_post_idle p st) as (st1 & R1 & I1);
      [apply Ha; now left|].
    rewrite (bind_Ret _ _ _ _ _ R1).
    destruct (IH (fun q Hq => Ha q (or_intror Hq)) st1) as (st' & R & I).
    exists st'. split; [exact R|]. eapply idle_stretch_trans; eassumption.
Qed.

End Converged.

(** When every comment the gateway returns is already in the processed
    set, every counter in an answer is an integer that can be saved, and
    the posted-post file lists only ids that are texts for a cell, any
    number of cycles returns, sends no like and no reply, and leaves the
    processed-comment file and the posted-post file exactly as they
    were. *)
Theorem monitor_posts_loop_converged
        (token : option str) (net : nat -> request -> http_result)
        (clock : nat -> str) (st : State) (n : nat) :
  (forall k req c,
      In c (comments_of (net k req)) ->
      not_in (fst (fst c)) (processed_set st) = false) ->
  (forall k req, storable_counts (net k req) = true) ->
  (forall p, In p (posted_posts st) -> sheet_text p = true) ->
  exists st',
    monitor_posts_loop token net clock n st = (Ret tt, st')
    /\ processed_comments_file st' = processed_comments_file st
    /\ posted_posts_file st' = posted_posts_file st
    /\ forall x,
        like_calls x (new_exchanges st st') = 0
        /\ reply_calls x (new_exchanges st st') = 0.
Proof.
  intros H Hc Ha'.
  assert (Ha : forall p, In p (posted_posts st) -> accepted_text p = true)
    by (intros p Hp; apply sheet_text_accepted, Ha', Hp).
  assert (L : forall m s,
             processed_comments_file s = processed_comments_file st ->
             posted_posts_file s = posted_posts_file st ->
             exists s',
               monitor_posts_loop token net clock m s = (Ret tt, s')
               /\ idle_stretch s s').
  { induction m as [|m IH]; intros s Hs Hq; simpl.
    - exists s. split; [reflexivity | apply idle_stretch_refl].
    - assert (Hsnap : processed_set s = processed_set st)
        by now apply processed_set_same_file.
      assert (Hposts : posted_posts s = posted_posts st)
        by now apply posted_posts_same_file.
      destruct (monitor_posts_idle token net clock (processed_set s)
                  ltac:(rewrite Hsnap; exact H) Hc (posted_posts s)
                  ltac:(rewrite Hposts; exact Ha) s)
        as (s1 & R1 & I1).
      assert (C : monitor_cycle token net clock s = (Ret tt, s1)) by exact R1.
      rewrite (bind_Ret _ _ _ _ _ C).
      destruct (IH s1) as (s' & R & I);
        [destruct I1 as (P & _); congruence
        |destruct I1 as (_ & Q & _); congruence|].
      exists s'. split; [exact R|]. eapply idle_stretch_trans; eassumption. }
  destruct (L n st eq_refl eq_refl) as (st' & R & P & Q & tr & E & C).
  exists st'. rewrite (new_exchanges_app _ _ _ E). auto.
Qed.

Lemma monitor_posts_loop_converged_witness :
  exists st',
    monitor_posts_loop Sample.token net_c0 Sample.clock 3 one_post_one_comment
    = (Ret tt, st')
    /\ processed_comments_file st' = Some (py "c0" ++ [LF])
    /\ like_calls (py "c0") (new_exchanges one_post_one_comment st') = 0.
Proof.
  destruct (monitor_posts_loop_converged Sample.token net_c0 Sample.clock
              one_post_one_comment 3) as (st' & R & P & _ & C).
  - intros k req c Hc. unfold net_c0 in Hc.
    destruct (is_comments_fetch req); vm_compute in Hc;
      [destruct Hc as [<- | []]; reflexivity | contradiction].
  - intros k req. unfold net_c0.
    destruct (is_comments_fetch req); reflexivity.
  - intros p Hp. vm_compute in Hp. destruct Hp as [<- | []]. reflexivity.
  - exists st'. split; [exact R|]. split; [exact P | apply C].
Defined.

(** *** One comment fetch per tracked post *)

Lemma sends_no_fetch_refl (s : State) : sends_no_fetch s s.
Proof. exists []. now rewrite app_nil_r. Qed.

Lemma comment_fetches_app (t1 t2 : list (request * http_result)) :
  comment_fetches (t1 ++ t2) = comment_fetches t1 ++ comment_fetches t2.
Proof. unfold comment_fetches. now rewrite map_app, filter_app. Qed.

Lemma sends_no_fetch_trans (s1 s2 s3 : State) :
  sends_no_fetch s1 s2 -> sends_no_fetch s2 s3 -> sends_no_fetch s1 s3.
Proof.
  intros (t1 & E1 & F1) (t2 & E2 & F2). exists (t1 ++ t2). split.
  - rewrite E2, E1. symmetry. apply app_assoc.
  - now rewrite comment_fetches_app, F1, F2.
Qed.

Lemma sends_no_fetch_same (s s' : State) :
  exchanges s' = exchanges s -> sends_no_fetch s s'.
Proof. intros H. exists []. now rewrite app_nil_r. Qed.

Lemma sends_no_fetch_http (req : request) (res : http_result) (s : State) :
  no_fetch req = true ->
  sends_no_fetch s (set_exchanges (exchanges s ++ [(req, res)]) s).
Proof.
  intros H. exists [(req, res)]. split; [reflexivity|].
  unfold comment_fetches. cbn [map fst filter].
  unfold no_fetch in H. apply negb_true_iff in H. now rewrite H.
Qed.

(** A turn of the outer loop that returns has sent exactly one comment
    fetch: the one for its post, with limit 50. *)
Lemma monitor_post_one_fetch
      (token : option str) (net : nat -> request -> http_result)
      (clock : nat -> str) (snapshot : list str) (post_id : str)
      (st st' : State) :
  monitor_post token net clock snapshot post_id st = (Ret tt, st') ->
  exists tr,
    exchanges st' = exchanges st ++ tr
    /\ comment_fetches tr = [comments_request token post_id 50].
Proof.
  intros Hret.
  replace st' with (snd (monitor_post token net clock snapshot post_id st))
    by now rewrite Hret.
  revert Hret.
  assert (K1 : sends_no_fetch st
                 (snd (get_post_insights token net clock post_id st))).
  { apply (keeps_get_post_insights sends_no_fetch sends_no_fetch_refl
             sends_no_fetch_trans no_fetch);
      try reflexivity; intros;
        first [ now apply sends_no_fetch_same | now apply sends_no_fetch_http ]. }
  unfold monitor_post.
  destruct (get_post_insights_quiet token net clock post_id st)
    as ([[l c] s] & st1 & tr1 & R1 & _).
  rewrite R1 in K1. cbn [snd] in K1.
  rewrite (bind_Ret _ _ _ _ _ R1). cbv beta iota.
  destruct (update_post_stats_frame clock post_id l c s None st1)
    as ([[]|e] & st2 & R2 & X2 & _);
    [|rewrite (bind_Raise _ _ _ _ _ R2); discriminate].
  rewrite (bind_Ret _ _ _ _ _ R2).
  destruct (get_post_comments_step token net clock post_id 50 st2)
    as (st3 & R3 & (X3 & _)).
  rewrite (bind_Ret _ _ _ _ _ R3).
  set (res := net (List.length (exchanges st2))
                  (comments_request token post_id 50)) in *.
  clearbody res. intros _.
  assert (K4 : sends_no_fetch st3
                 (snd (for_each (comments_of res)
                         (monitor_comment token net clock snapshot) st3))).
  { apply (keeps_monitor_comments sends_no_fetch sends_no_fetch_refl
             sends_no_fetch_trans no_fetch);
      try reflexivity; intros;
        first [ now apply sends_no_fetch_same | now apply sends_no_fetch_http ]. }
  destruct K1 as (t1 & E1 & F1), K4 as (t4 & E4 & F4).
  exists (t1 ++ [(comments_request token post_id 50, res)] ++ t4). split.
  - rewrite E4, X3, X2, E1, <- !app_assoc. reflexivity.
  - rewrite !comment_fetches_app, F1, F4. reflexivity.
Qed.

(** A cycle that returns has fetched the comments of every post of the
    posted-post list exactly once, in the order of the list (a post listed
    twice is fetched twice), each with limit 50. *)
Theorem monitor_cycle_fetches_each_post
        (token : option str) (net : nat -> request -> http_result)
        (clock : nat -> str) (st st' : State) :
  monitor_cycle token net clock st = (Ret tt, st') ->
  comment_fetches (new_exchanges st st')
  = map (fun post_id => comments_request token post_id 50) (posted_posts st).
Proof.
  intros H.
  assert (L : forall posts s s',
             for_each posts (monitor_post token net clock (processed_set st)) s
             = (Ret tt, s') ->
             exists tr,
               exchanges s' = exchanges s ++ tr
               /\ comment_fetches tr
                  = map (fun p => comments_request token p 50) posts).
  { induction posts as [|p ps IH]; intros s s' R; simpl in R.
    - injection R as <-. exists []. now rewrite app_nil_r.
    - apply bind_Ret_inv in R as ([] & s1 & R1 & R2).
      destruct (monitor_post_one_fetch token net clock (processed_set st) p s
                  s1 R1) as (t1 & E1 & F1).
      destruct (IH s1 s' R2) as (t2 & E2 & F2).
      exists (t1 ++ t2). split.
      + rewrite E2, E1. symmetry. apply app_assoc.
      + rewrite comment_fetches_app, F1, F2. reflexivity. }
  destruct (L (posted_posts st) st st' H) as (tr & E & F).
  now rewrite (new_exchanges_app _ _ _ E).
Qed.

Lemma monitor_cycle_fetches_each_post_witness :
  map url
      (comment_fetches
         (new_exchanges Sample.two_posts
            (snd (monitor_cycle Sample.token Sample.net_down Sample.clock
                                Sample.two_posts))))
  = [py "https://graph.facebook.com/1001_1/comments";
     py "https://graph.facebook.com/1001_2/comments"].
Proof.
  rewrite (monitor_cycle_fetches_each_post Sample.token Sample.net_down
             Sample.clock Sample.two_posts
             (snd (monitor_cycle Sample.token Sample.net_down Sample.clock
                                 Sample.two_posts))).
  - vm_compute. reflexivity.
  - vm_compute. reflexivity.
Defined.

(** *** The console command *)

Lemma strip_last (s : str) :
  strip s = [] \/ exists p c, strip s = p ++ [c] /\ isspace c = false.
Proof.
  unfold strip, rstrip.
  destruct (lstrip (rev (lstrip s))) as [|c r] eqn:E; [now left|].
  right. exists (rev r), c. split; [reflexivity|].
  exact (lstrip_head _ _ _ E).
Qed.

Lemma lstrip_keeps_last (q : str) (c : char) :
  isspace c = false -> exists q', lstrip (q ++ [c]) = q' ++ [c].
Proof.
  intros Hc. induction q as [|d q [q' IH]]; simpl.
  - rewrite Hc. now exists [].
  - destruct (isspace d); [now exists q' | now exists (d :: q)].
Qed.

Lemma strip_keeps_last (q : str) (c : char) :
  isspace c = false -> truthy (strip (q ++ [c])) = true.
Proof.
  intros Hc. unfold strip, rstrip.
  destruct (lstrip_keeps_last q c Hc) as [q' ->].
  rewrite rev_unit. simpl. rewrite Hc. simpl.
  destruct (rev (rev q') ++ [c]) eqn:E; [|reflexivity].
  now apply app_eq_nil in E as [_ E].
Qed.

(** A string that starts with "/post " has a blank as sixth character. *)
Lemma startswith_post (s : str) :
  startswith (py "/post ") s = true -> nth_error s 5 = Some 32%N.
Proof.
  change (py "/post ") with [47; 112; 111; 115; 116; 32]%N.
  destruct s as [|a [|b [|c [|d [|e [|f s]]]]]]; cbn [startswith nth_error];
    rewrite ?andb_false_r; try discriminate.
  intros H. repeat (apply andb_prop in H as [? H]).
  repeat match goal with
         | E : (_ =? _)%N = true |- _ => apply N.eqb_eq in E
         end.
  now subst.
Qed.

(** For a [lower] that, like [str.lower], gives a string that starts with
    "/post " only for a string whose sixth character is a blank: a turn of
    the console loop either does nothing at all or publishes a text that
    is not empty.  The message about a missing text is never printed: a
    line "/post" followed by blanks only loses them to [strip] and is
    ignored like any other line. *)
Theorem console_turn_publishes_or_ignores
        (token page : option str) (net : nat -> request -> http_result)
        (clock : nat -> str) (isdigit : char -> bool) (lower : str -> str)
        (line : str) (st : State) :
  (forall s, startswith (py "/post ") (lower s) = true ->
             nth_error s 5 = Some 32%N) ->
  let post_text := strip (skipn 6 (strip line)) in
  console_turn token page net clock isdigit lower line st = (Ret tt, st)
  \/ (truthy post_text = true
      /\ console_turn token page net clock isdigit lower line st
         = console_publish token page net clock isdigit post_text st).
Proof.
  intros Hlower post_text. unfold console_turn.
  destruct (negb (truthy line)); [now left|].
  destruct (startswith (py "/post ") (lower (strip line))) eqn:S; [|now left].
  right. apply Hlower in S.
  assert (T : truthy post_text = true).
  { subst post_text.
    destruct (strip_last line) as [E | (p & c & E & Hc)].
    - rewrite E in S. discriminate.
    - rewrite E in *.
      assert (Hp : 6 <= List.length p).
      { destruct (Nat.le_gt_cases 6 (List.length p)) as [|Hlt]; [assumption|].
        exfalso. destruct (Nat.eq_dec (List.length p) 5) as [H5 | H5].
        - rewrite nth_error_app2, H5 in S by lia. simpl in S.
          injection S as ->. discriminate.
        - assert (N : nth_error (p ++ [c]) 5 = None).
          { apply nth_error_None. rewrite length_app. simpl. lia. }
          congruence. }
      rewrite skipn_app.
      replace (6 - List.length p) with 0 by lia. simpl skipn at 2.
      now apply strip_keeps_last. }
  split; [exact T|]. fold post_text. now rewrite T.
Qed.

Lemma console_turn_publishes_or_ignores_witness :
  console_turn Sample.token Sample.page Sample.net_down Sample.clock
               (fun _ => false) (fun s => s)
               (py "/post hello" ++ [LF]) Sample.empty_state
  = console_publish Sample.token Sample.page Sample.net_down Sample.clock
                    (fun _ => false) (py "hello") Sample.empty_state.
Proof.
  destruct (console_turn_publishes_or_ignores Sample.token Sample.page
              Sample.net_down Sample.clock (fun _ => false) (fun s => s)
              (py "/post hello" ++ [LF]) Sample.empty_state startswith_post)
    as [H | [_ H]].
  - vm_compute in H. discriminate H.
  - exact H.
Defined.

(** "/post" followed by blanks: nothing is printed, nothing is sent. *)
Example console_turn_blank_text :
  console_turn Sample.token Sample.page Sample.net_down Sample.clock
               (fun _ => false) (fun s => s)
               (py "/post   " ++ [LF]) Sample.empty_state
  = (Ret tt, Sample.empty_state).
Proof. vm_compute. reflexivity. Qed.

(** *** Metrics that were fetched *)

Lemma get_post_insights_run
      (token : option str) (net : nat -> request -> http_result)
      (clock : nat -> str) (post_id : str) (st : State) :
  truthy_opt token = true ->
  let k := List.length (exchanges st) in
  exists likes comments shares st1,
    get_post_insights token net clock post_id st
    = (Ret (likes, comments, shares), st1)
    /\ stats_sheet st1 = stats_sheet st
    /\ counts read_total_count (net k (likes_request token post_id)) likes
    /\ counts read_total_count
              (net (S k) (comments_summary_request token post_id)) comments
    /\ counts read_shares_count
              (net (S (S k)) (shares_request token post_id)) shares.
Proof.
  intros Ht k. unfold get_post_insights. rewrite Ht. cbn [negb].
  destruct (insight_query_step net clock (py "likes") post_id
              (likes_request token post_id) read_total_count st)
    as (v1 & st1 & R1 & G1 & C1).
  destruct (insight_query_step net clock (py "comments") post_id
              (comments_summary_request token post_id) read_total_count st1)
    as (v2 & st2 & R2 & G2 & C2).
  destruct (insight_query_step net clock (py "shares") post_id
              (shares_request token post_id) read_shares_count st2)
    as (v3 & st3 & R3 & G3 & C3).
  assert (L1 : List.length (exchanges st1) = S k)
    by apply (gateway_step_length _ _ _ _ G1).
  assert (L2 : List.length (exchanges st2) = S (S k))
    by (rewrite (gateway_step_length _ _ _ _ G2); now rewrite L1).
  cbv zeta in C1, C2, C3. rewrite L1 in C2. rewrite L2 in C3.
  rewrite (bind_Ret _ _ _ _ _ R1), (bind_Ret _ _ _ _ _ R2),
    (bind_Ret _ _ _ _ _ R3).
  exists v1, v2, v3, st3. split; [reflexivity|].
  destruct G1 as (_ & _ & _ & W1 & _), G2 as (_ & _ & _ & W2 & _),
           G3 as (_ & _ & _ & W3 & _).
  split; [congruence|]. auto.
Qed.

(** With a token, a turn of the monitoring loop for a post that has a
    record, or whose id is a non-empty text for a cell, reads three
    counters from the three answers of this turn (0 for a sub-query that
    failed); when these are integers that the sheet gives back exactly,
    the turn, whether it returns or raises, leaves the post with a record
    that holds them.  The content of an old record is kept, and a post
    without a record gets one with an empty content. *)
Theorem monitor_post_records_metrics
        (token : option str) (net : nat -> request -> http_result)
        (clock : nat -> str) (snapshot : list str) (post_id : str)
        (st : State) :
  truthy_opt token = true ->
  (stats_record post_id (stats_sheet st) = None -> sheet_id post_id = true) ->
  let k := List.length (exchanges st) in
  exists likes comments shares t,
    counts read_total_count (net k (likes_request token post_id)) likes
    /\ counts read_total_count
              (net (S k) (comments_summary_request token post_id)) comments
    /\ counts read_shares_count
              (net (S (S k)) (shares_request token post_id)) shares
    /\ (exact_number likes = true -> exact_number comments = true ->
        exact_number shares = true ->
        stats_record post_id
          (stats_sheet (snd (monitor_post token net clock snapshot post_id st)))
        = Some (upserted (stats_record post_id (stats_sheet st)) post_id None
                         likes comments shares t)).
Proof.
  intros Ht Hnew k.
  destruct (get_post_insights_run token net clock post_id st Ht)
    as (l & c & s & st1 & R1 & W1 & C1 & C2 & C3).
  exists l, c, s, (clock (clock_reads st1)).
  repeat (split; [assumption|]).
  intros El Ec Es.
  pose proof (exact_counters_storable _ _ _ El Ec Es) as Hst.
  unfold monitor_post. rewrite (bind_Ret _ _ _ _ _ R1). cbv beta iota.
  assert (Hnew1 : stats_record post_id (stats_sheet st1) = None ->
                  sheet_id post_id = true /\ sheet_content None = true)
    by (rewrite W1; intros E; split; [exact (Hnew E) | reflexivity]).
  set (st2 := snd (update_post_stats clock post_id l c s None st1)).
  assert (R2 : update_post_stats clock post_id l c s None st1 = (Ret tt, st2)).
  { subst st2.
    destruct (update_post_stats_upsert clock st1 post_id l c s None Hnew1
                Hst) as (U & _).
    destruct (update_post_stats clock post_id l c s None st1) as [o s1].
    cbn [fst snd] in *. now subst o. }
  rewrite (bind_Ret _ _ _ _ _ R2).
  rewrite <- W1,
    <- (stats_record_after_update clock post_id l c s None st1 Hnew1 Hst).
  fold st2. f_equal.
  apply (keeps_bind (unchanged stats_sheet) (unchanged_trans _)).
  - apply (keeps_get_post_comments (unchanged stats_sheet)
             (unchanged_refl _) (unchanged_trans _) any_request);
      reflexivity.
  - intros cl.
    apply (keeps_monitor_comments (unchanged stats_sheet)
             (unchanged_refl _) (unchanged_trans _) any_request);
      reflexivity.
Qed.

Lemma monitor_post_records_metrics_witness :
  exists t,
    stats_record (py "1001_1")
      (stats_sheet (snd (monitor_post Sample.token Sample.net_shares_down
                           Sample.clock [] (py "1001_1") polled_post)))
    = Some (mkRow (Text (py "1001_1")) (Text (py "hello"))
                  (Number 7) (Number 7) (Number 0) (Text t)).
Proof.
  destruct (monitor_post_records_metrics Sample.token Sample.net_shares_down
              Sample.clock [] (py "1001_1") polled_post eq_refl
              (fun _ => eq_refl))
    as (l & c & s & t & C1 & C2 & C3 & H).
  exists t.
  rewrite (proj2 C1 _ _ eq_refl eq_refl eq_refl) in H.
  rewrite (proj2 C2 _ _ eq_refl eq_refl eq_refl) in H.
  rewrite (proj1 C3 eq_refl) in H.
  rewrite (H eq_refl eq_refl eq_refl).
  reflexivity.
Defined.
